(** * Compliance Evidence Collector: scoring, normalisation and HTML rendering

    A shallow embedding of [audit.py] (Complaince Evidence Collector) and the
    properties of its scoring engine, evidence normaliser and renderers.

    The program works on what [json.loads] returns and on dict literals, so
    the embedding has one type of Python values, [pyval], and the fragment of
    Python's dynamic semantics the program relies on: truthiness, [dict.get],
    [str()], iteration, subscripting, and the exceptions raised when a value
    has the wrong shape.

    Modelling conventions.
    - A Python [int] is a [Z]; a [str] is a [string] whose characters are
      ASCII (case mapping and white space follow Python on code points below
      128; text outside ASCII is carried through unchanged).
    - A [dict] is the list of its items in insertion order, read by
      [dict_lookup] (first binding of the key). Order is kept because [str()]
      of a dict and iteration over it depend on it. Keys are strings, as in
      every dict this program builds or parses.
    - JSON numbers with a fraction are outside [pyval].
    - [json.loads] and [subprocess.run] are the outside world: the former is
      a function handed to the collectors, the latter is its outcome
      [proc_outcome]. *)

From Stdlib Require Import ZArith List String Ascii Bool Lia DecimalString.
Import ListNotations.

Set Warnings "-register-all".

Local Open Scope Z_scope.
Local Open Scope list_scope.
Local Open Scope string_scope.

(* ================================================================= *)
(** ** Python values and exceptions *)

Module Py.

Inductive pyval : Type :=
| PNone
| PBool (b : bool)
| PInt (z : Z)
| PStr (s : string)
| PList (l : list pyval)
| PDict (d : list (string * pyval)).

Definition pydict : Type := list (string * pyval).

Inductive pyexn : Type :=
| AttributeError
| TypeError
| KeyError
| IndexError
| ValueError.

(** A call either returns or raises. *)
Inductive result (A : Type) : Type :=
| Ok (a : A)
| Raise (e : pyexn).

Arguments Ok {A} a.
Arguments Raise {A} e.

Definition bind {A B : Type} (c : result A) (k : A -> result B) : result B :=
  match c with
  | Ok a => k a
  | Raise e => Raise e
  end.

Fixpoint mapM {A B : Type} (f : A -> result B) (l : list A) : result (list B) :=
  match l with
  | [] => Ok []
  | x :: l' =>
      bind (f x) (fun y => bind (mapM f l') (fun ys => Ok (y :: ys)))
  end.

Fixpoint filterM {A : Type} (f : A -> result bool) (l : list A) : result (list A) :=
  match l with
  | [] => Ok []
  | x :: l' =>
      bind (f x) (fun b =>
      bind (filterM f l') (fun ys => Ok (if b then x :: ys else ys)))
  end.

(** *** Characters and strings *)

Definition is_upper (c : ascii) : bool :=
  let n := nat_of_ascii c in (Nat.leb 65 n && Nat.leb n 90)%bool.

Definition is_lower (c : ascii) : bool :=
  let n := nat_of_ascii c in (Nat.leb 97 n && Nat.leb n 122)%bool.

Definition lower_char (c : ascii) : ascii :=
  if is_upper c then ascii_of_nat (nat_of_ascii c + 32) else c.

Definition upper_char (c : ascii) : ascii :=
  if is_lower c then ascii_of_nat (nat_of_ascii c - 32) else c.

Fixpoint map_chars (f : ascii -> ascii) (s : string) : string :=
  match s with
  | EmptyString => EmptyString
  | String c s' => String (f c) (map_chars f s')
  end.

(** [str.lower] and [str.upper]. *)
Definition lower (s : string) : string := map_chars lower_char s.
Definition upper (s : string) : string := map_chars upper_char s.

(** [str.isspace] on one character: tab, line feed, vertical tab, form feed,
    carriage return, the four separators 28 to 31, and space. *)
Definition is_space (c : ascii) : bool :=
  let n := nat_of_ascii c in
  ((Nat.leb 9 n && Nat.leb n 13) || (Nat.leb 28 n && Nat.leb n 32))%bool.

Fixpoint lstrip (s : string) : string :=
  match s with
  | EmptyString => EmptyString
  | String c s' => if is_space c then lstrip s' else s
  end.

Fixpoint rstrip (s : string) : string :=
  match s with
  | EmptyString => EmptyString
  | String c s' =>
      match rstrip s' with
      | EmptyString => if is_space c then EmptyString else String c EmptyString
      | r => String c r
      end
  end.

(** [str.strip()]. *)
Definition strip (s : string) : string := rstrip (lstrip s).

(** [sep.join(parts)] when every part is already known to be a [str]. *)
Fixpoint join (sep : string) (parts : list string) : string :=
  match parts with
  | [] => ""
  | [p] => p
  | p :: rest => p ++ sep ++ join sep rest
  end.

(** [old in s] for a one-character [old]. *)
Fixpoint has_char (c : ascii) (s : string) : bool :=
  match s with
  | EmptyString => false
  | String c' s' => (Ascii.eqb c' c || has_char c s')%bool
  end.

(** [s.replace(old, new)] for a one-character [old]. *)
Fixpoint replace_char (old : ascii) (new : string) (s : string) : string :=
  match s with
  | EmptyString => EmptyString
  | String c s' =>
      if Ascii.eqb c old then new ++ replace_char old new s'
      else String c (replace_char old new s')
  end.

(** [x in (a, b, ...)] for strings. *)
Fixpoint str_in (x : string) (xs : list string) : bool :=
  match xs with
  | [] => false
  | y :: ys => (String.eqb x y || str_in x ys)%bool
  end.

(** [str(n)] for an [int]. *)
Definition str_of_int (z : Z) : string := NilZero.string_of_int (Z.to_int z).

Definition hex_digit (n : nat) : ascii :=
  if Nat.ltb n 10 then ascii_of_nat (48 + n) else ascii_of_nat (87 + n).

(** One character of [repr(s)], [q] being the quote [repr] chose. *)
Definition repr_char (q : ascii) (c : ascii) : string :=
  let n := nat_of_ascii c in
  let bs := String (ascii_of_nat 92) EmptyString in
  if (Ascii.eqb c q || Nat.eqb n 92)%bool then bs ++ String c EmptyString
  else if Nat.eqb n 10 then bs ++ "n"
  else if Nat.eqb n 13 then bs ++ "r"
  else if Nat.eqb n 9 then bs ++ "t"
  else if (Nat.ltb n 32 || Nat.eqb n 127)%bool then
    bs ++ "x" ++ String (hex_digit (Nat.div n 16))
                  (String (hex_digit (Nat.modulo n 16)) EmptyString)
  else String c EmptyString.

Fixpoint repr_chars (q : ascii) (s : string) : string :=
  match s with
  | EmptyString => EmptyString
  | String c s' => repr_char q c ++ repr_chars q s'
  end.

(** [repr(s)] for a [str]: single quotes, unless the text has a single quote
    and no double quote. *)
Definition repr_str (s : string) : string :=
  let sq := ascii_of_nat 39 in
  let dq := ascii_of_nat 34 in
  let q := if (has_char sq s && negb (has_char dq s))%bool then dq else sq in
  String q (repr_chars q s ++ String q EmptyString).

(** [repr(v)]. *)
Fixpoint py_repr (v : pyval) : string :=
  match v with
  | PNone => "None"
  | PBool true => "True"
  | PBool false => "False"
  | PInt z => str_of_int z
  | PStr s => repr_str s
  | PList l => "[" ++ join ", " (map py_repr l) ++ "]"
  | PDict d =>
      "{" ++ join ", " (map (fun kv => repr_str (fst kv) ++ ": " ++ py_repr (snd kv)) d)
          ++ "}"
  end.

(** [str(v)]: the text itself for a [str], [repr(v)] otherwise. *)
Definition py_str (v : pyval) : string :=
  match v with
  | PStr s => s
  | _ => py_repr v
  end.

(** *** Truthiness, dict access, iteration *)

(** [bool(v)]. *)
Definition truthy (v : pyval) : bool :=
  match v with
  | PNone => false
  | PBool b => b
  | PInt z => negb (Z.eqb z 0)
  | PStr s => negb (String.eqb s "")
  | PList l => match l with [] => false | _ => true end
  | PDict d => match d with [] => false | _ => true end
  end.

Fixpoint dict_lookup (d : pydict) (k : string) : option pyval :=
  match d with
  | [] => None
  | (k', v) :: d' => if String.eqb k' k then Some v else dict_lookup d' k
  end.

(** [d.get(k, default)] on a dict; [d.get(k)] is [dict_get d k PNone]. *)
Definition dict_get (d : pydict) (k : string) (default : pyval) : pyval :=
  match dict_lookup d k with
  | Some v => v
  | None => default
  end.

(** [d[k]] on a dict. *)
Definition dict_item (d : pydict) (k : string) : result pyval :=
  match dict_lookup d k with
  | Some v => Ok v
  | None => Raise KeyError
  end.

(** [v.get(k, default)] on any value: only a dict has the method. *)
Definition py_get (v : pyval) (k : string) (default : pyval) : result pyval :=
  match v with
  | PDict d => Ok (dict_get d k default)
  | _ => Raise AttributeError
  end.

(** The items a [for] loop or a comprehension draws from [v]. *)
Definition py_iter (v : pyval) : result (list pyval) :=
  match v with
  | PList l => Ok l
  | PStr s => Ok (map (fun c => PStr (String c EmptyString)) (list_ascii_of_string s))
  | PDict d => Ok (map (fun kv => PStr (fst kv)) d)
  | PNone | PBool _ | PInt _ => Raise TypeError
  end.

(** [v[0]]. The keys of a dict are strings, so [0] is never one of them. *)
Definition py_first (v : pyval) : result pyval :=
  match v with
  | PList (x :: _) => Ok x
  | PList [] => Raise IndexError
  | PStr (String c _) => Ok (PStr (String c EmptyString))
  | PStr EmptyString => Raise IndexError
  | PDict _ => Raise KeyError
  | PNone | PBool _ | PInt _ => Raise TypeError
  end.

(** [len(v)]. *)
Definition py_len (v : pyval) : result Z :=
  match v with
  | PList l => Ok (Z.of_nat (List.length l))
  | PStr s => Ok (Z.of_nat (String.length s))
  | PDict d => Ok (Z.of_nat (List.length d))
  | PNone | PBool _ | PInt _ => Raise TypeError
  end.

(** One item of the sequence handed to [str.join]. *)
Definition expect_str (v : pyval) : result string :=
  match v with
  | PStr s => Ok s
  | _ => Raise TypeError
  end.

(** [sep.join(items)]. *)
Definition py_join (sep : string) (items : list pyval) : result string :=
  bind (mapM expect_str items) (fun parts => Ok (join sep parts)).

(** [int(v)]: an [int] is itself, a [bool] is 0 or 1, a [str] is read as a
    decimal literal (white space around it, a sign, digits with single
    underscores between them). *)
Definition digit_val (c : ascii) : option Z :=
  let n := nat_of_ascii c in
  if (Nat.leb 48 n && Nat.leb n 57)%bool then Some (Z.of_nat (n - 48)) else None.

Fixpoint int_digits (acc : Z) (s : string) : option Z :=
  match s with
  | EmptyString => Some acc
  | String c s' =>
      match digit_val c with
      | Some d => int_digits (10 * acc + d) s'
      | None =>
          if Ascii.eqb c "_" then
            match s' with
            | String c' s'' =>
                match digit_val c' with
                | Some d => int_digits (10 * acc + d) s''
                | None => None
                end
            | EmptyString => None
            end
          else None
      end
  end.

Definition int_literal (s : string) : option Z :=
  match s with
  | String c s' =>
      match digit_val c with
      | Some d => int_digits d s'
      | None => None
      end
  | EmptyString => None
  end.

Definition int_of_str (s : string) : option Z :=
  match strip s with
  | String c r =>
      if Ascii.eqb c "-" then option_map Z.opp (int_literal r)
      else if Ascii.eqb c "+" then int_literal r
      else int_literal (String c r)
  | EmptyString => None
  end.

Definition py_int (v : pyval) : result Z :=
  match v with
  | PInt z => Ok z
  | PBool b => Ok (if b then 1 else 0)
  | PStr s =>
      match int_of_str s with
      | Some z => Ok z
      | None => Raise ValueError
      end
  | PNone | PList _ | PDict _ => Raise TypeError
  end.

End Py.

Export Py.

Declare Scope py_scope.
Delimit Scope py_scope with py.
Notation "x <- c1 ;; c2" := (bind c1 (fun x => c2))
  (at level 61, c1 at next level, right associativity) : py_scope.
Local Open Scope py_scope.

(* ================================================================= *)
(** ** Evidence collection: [run_powershell] and the [get_*] normalisers *)

Module Collect.

(** What [subprocess.run] did: the process exited, the executable was not
    found, or the time limit passed. *)
Inductive proc_outcome : Type :=
| Exited (returncode : Z) (stdout stderr : string)
| FileNotFound
| TimeoutExpired.

(** [run_powershell]: the triple [(code, stdout, stderr)]. *)
Definition run_powershell (p : proc_outcome) : Z * string * string :=
  match p with
  | Exited rc out err => (rc, strip out, strip err)
  | FileNotFound => (127, "", "PowerShell not found.")
  | TimeoutExpired => (124, "", "PowerShell command timed out.")
  end.

(** [err or fallback] on strings. *)
Definition str_or (err fallback : string) : string :=
  if String.eqb err "" then fallback else err.

(** [data if isinstance(data, list) else [data]]. *)
Definition as_list (data : pyval) : pyval :=
  match data with
  | PList _ => data
  | _ => PList [data]
  end.

Section Collectors.

(** [json.loads]: [None] stands for [json.JSONDecodeError]. *)
Variable json_loads : string -> option pyval.

Definition get_defender_status (p : proc_outcome) : pydict :=
  let '(code, out, err) := run_powershell p in
  if (Z.eqb code 0 && negb (String.eqb out ""))%bool then
    match json_loads out with
    | Some data =>
        [("available", PBool true); ("data", data); ("error", PStr "")]
    | None =>
        [("available", PBool true); ("data", PDict []);
         ("error", PStr "Failed to parse Defender output.")]
    end
  else
    [("available", PBool false); ("data", PDict []);
     ("error", PStr (str_or err "Defender status unavailable."))].

Definition get_firewall_profiles (p : proc_outcome) : pydict :=
  let '(code, out, err) := run_powershell p in
  if (Z.eqb code 0 && negb (String.eqb out ""))%bool then
    match json_loads out with
    | Some data =>
        let profiles := as_list data in
        [("available", PBool true); ("profiles", profiles); ("error", PStr "")]
    | None =>
        [("available", PBool true); ("profiles", PList []);
         ("error", PStr "Failed to parse firewall output.")]
    end
  else
    [("available", PBool false); ("profiles", PList []);
     ("error", PStr (str_or err "Firewall status unavailable."))].

Definition get_recent_updates (p : proc_outcome) : pydict :=
  let '(code, out, err) := run_powershell p in
  if (Z.eqb code 0 && negb (String.eqb out ""))%bool then
    match json_loads out with
    | Some data =>
        let updates := as_list data in
        [("available", PBool true); ("updates", updates); ("error", PStr "")]
    | None =>
        [("available", PBool true); ("updates", PList []);
         ("error", PStr "Failed to parse update output.")]
    end
  else
    [("available", PBool false); ("updates", PList []);
     ("error", PStr (str_or err "Update history unavailable."))].

Definition get_local_users (p : proc_outcome) : pydict :=
  let '(code, out, err) := run_powershell p in
  if (Z.eqb code 0 && negb (String.eqb out ""))%bool then
    match json_loads out with
    | Some data =>
        let users := as_list data in
        [("available", PBool true); ("users", users); ("error", PStr "")]
    | None =>
        [("available", PBool true); ("users", PList []);
         ("error", PStr "Failed to parse local user output.")]
    end
  else
    [("available", PBool false); ("users", PList []);
     ("error", PStr (str_or err "Local users unavailable."))].

End Collectors.

(** [get_basic_system_info]: [platform.node()], [platform.platform()], the
    first word of [sys.version] and [now_iso()] are the host's answers. *)
Definition get_basic_system_info (node platform python_version now : string)
  : pydict :=
  [("hostname", PStr node); ("os", PStr platform);
   ("python_version", PStr python_version); ("timestamp_utc", PStr now)].

(** [get_bitlocker_status]: [which] is what [shutil.which("manage-bde")]
    returned ([None] when there is no such executable) and [status] what
    [subprocess.getstatusoutput("manage-bde -status")] returns. *)
Definition get_bitlocker_status (which : option string) (status : Z * string)
  : pydict :=
  let exe := match which with
             | Some path => PStr path
             | None => PNone
             end in
  if negb (truthy exe) then
    [("available", PBool false); ("volumes", PList []);
     ("error", PStr "manage-bde not found.")]
  else
    let '(code, output) := status in
    if (Z.eqb code 0 && negb (String.eqb output ""))%bool then
      [("available", PBool true); ("raw", PStr output); ("error", PStr "")]
    else
      [("available", PBool false); ("raw", PStr "");
       ("error", PStr (str_or output "BitLocker status unavailable."))].

End Collect.

Export Collect.

(* ================================================================= *)
(** ** The scoring engine: [score_findings] *)

Module Scoring.

(** The dict literal [{"severity": .., "title": .., "detail": ..}]. *)
Definition finding (severity title : string) (detail : pyval) : pyval :=
  PDict [("severity", PStr severity); ("title", PStr title); ("detail", detail)].

(** The two locals the function updates: [score] and [findings]. *)
Definition state : Type := (Z * list pyval)%type.

(** [score -= n; findings.append(f)]. *)
Definition deduct (n : Z) (f : pyval) (st : state) : state :=
  (fst st - n, snd st ++ [f])%list.

(** [d and not d.get(field, True)], as the condition of an [if]. *)
Definition flag_off (d : pyval) (field : string) : result bool :=
  if truthy d then
    v <- py_get d field (PBool true) ;;
    Ok (negb (truthy v))
  else Ok false.

(** Lines 120-131. *)
Definition defender_checks (defender : pydict) (st : state) : result state :=
  if negb (truthy (dict_get defender "available" PNone)) then
    Ok (deduct 15 (finding "medium" "Defender status not readable"
                           (dict_get defender "error" (PStr ""))) st)
  else
    let d := dict_get defender "data" (PDict []) in
    rt <- flag_off d "RealTimeProtectionEnabled" ;;
    let st := if rt then
                deduct 25 (finding "high" "Real-time protection disabled"
                             (PStr "Enable Microsoft Defender real-time protection.")) st
              else st in
    av <- flag_off d "AntivirusEnabled" ;;
    let st := if av then
                deduct 25 (finding "high" "Antivirus appears disabled"
                             (PStr "Verify antivirus is enabled and updating.")) st
              else st in
    Ok st.

(** [str(p.get("Enabled", "")).lower() in ("false", "0")]. *)
Definition profile_disabled (p : pyval) : result bool :=
  e <- py_get p "Enabled" (PStr "") ;;
  Ok (str_in (lower (py_str e)) ["false"; "0"]).

(** [p.get("Name", "Unknown")]. *)
Definition profile_name (p : pyval) : result pyval :=
  py_get p "Name" (PStr "Unknown").

(** Lines 133-143. *)
Definition firewall_checks (firewall : pydict) (st : state) : result state :=
  if negb (truthy (dict_get firewall "available" PNone)) then
    Ok (deduct 10 (finding "medium" "Firewall status not readable"
                           (dict_get firewall "error" (PStr ""))) st)
  else
    let profiles := dict_get firewall "profiles" (PList []) in
    ps <- py_iter profiles ;;
    disabled <- filterM profile_disabled ps ;;
    match disabled with
    | [] => Ok st
    | _ :: _ =>
        items <- mapM profile_name disabled ;;
        names <- py_join ", " items ;;
        Ok (deduct 20 (finding "high" "Firewall disabled on profiles"
                               (PStr ("Disabled profiles: " ++ names ++ "."))) st)
    end.

(** Lines 145-153. *)
Definition update_checks (updates : pydict) (st : state) : result state :=
  if (truthy (dict_get updates "available" PNone)
      && truthy (dict_get updates "updates" PNone))%bool then
    us <- dict_item updates "updates" ;;
    u0 <- py_first us ;;
    newest <- py_get u0 "InstalledOn" PNone ;;
    if negb (truthy newest) then
      Ok (deduct 5 (finding "low" "Cannot determine latest update date"
                            (PStr "InstalledOn missing for newest hotfix.")) st)
    else Ok st
  else
    Ok (deduct 10 (finding "medium" "Update history not readable"
                           (dict_get updates "error" (PStr ""))) st).

(** [max(0, min(100, score))]. *)
Definition clamp (score : Z) : Z := Z.max 0 (Z.min 100 score).

Definition score_findings (defender firewall updates : pydict)
  : result (Z * list pyval) :=
  let st : state := (100, []) in
  st <- defender_checks defender st ;;
  st <- firewall_checks firewall st ;;
  st <- update_checks updates st ;;
  Ok (clamp (fst st), snd st).

End Scoring.

Export Scoring.

(* ================================================================= *)
(** ** The HTML renderer: [render_html] *)

Module Html.

(** [esc] on a [str]: the three [replace] calls, in the order of line 164. *)
Definition esc_str (s : string) : string :=
  replace_char ">" "&gt;" (replace_char "<" "&lt;" (replace_char "&" "&amp;" s)).

(** [esc(s)]: [(s or "")] first, and only a [str] has [replace]. *)
Definition esc (s : pyval) : result string :=
  match (if truthy s then s else PStr "") with
  | PStr t => Ok (esc_str t)
  | _ => Raise AttributeError
  end.

(** Line 166. *)
Definition score_label (score : Z) : string :=
  if Z.geb score 90 then "Excellent"
  else if Z.geb score 75 then "Good"
  else if Z.geb score 60 then "Fair"
  else "Needs Work".

(** Line 167. *)
Definition score_class (score : Z) : string :=
  if Z.geb score 90 then "s-ex"
  else if Z.geb score 75 then "s-good"
  else if Z.geb score 60 then "s-fair"
  else "s-bad".

Definition fmt_bool (v : pyval) : string :=
  if truthy v then "Available" else "Unavailable".

(** The line feed of ["\n".join(rows)]. *)
Definition nl : string := String (ascii_of_nat 10) EmptyString.

(** One pass of the loop of lines 182-187. *)
Definition finding_row (f : pyval) : result string :=
  sv <- py_get f "severity" (PStr "info") ;;
  se <- esc sv ;;
  let sev := lower se in
  tv <- py_get f "title" (PStr "") ;;
  title <- esc tv ;;
  dv <- py_get f "detail" (PStr "") ;;
  detail <- esc dv ;;
  let sev_badge := "<span class='sev sev-" ++ sev ++ "'>" ++ upper sev ++ "</span>" in
  Ok ("<tr><td>" ++ sev_badge ++ "</td><td><b>" ++ title
        ++ "</b><div class='muted'>" ++ detail
        ++ "</div></td><td class='right'>Action</td></tr>").

(** Lines 178-188. *)
Definition findings_rows (findings : pyval) : result string :=
  if negb (truthy findings) then
    Ok "<tr><td colspan='3' class='muted'>No major findings detected.</td></tr>"
  else
    fs <- py_iter findings ;;
    rows <- mapM finding_row fs ;;
    Ok (join nl rows).

(** [{uptime if uptime is not None else "N/A"}]: the value is formatted as
    it is, with no call of [esc]. *)
Definition uptime_text (uptime : pyval) : string :=
  match uptime with
  | PNone => "N/A"
  | _ => py_str uptime
  end.

(** The fixed text of the page (lines 190-361), cut at the twelve places where
    a value is inserted. The text is the source's, with [{{] and [}}] of the
    f-string written as the braces they stand for and each double quote
    written as a backquote, which [dq] turns back into the double quote (the
    page has no backquote of its own). The apostrophe of line 351, the one
    character of the page outside ASCII, is its three UTF-8 bytes. *)
Definition dq (s : string) : string :=
  map_chars (fun c => if Ascii.eqb c "`" then ascii_of_nat 34 else c) s.

Definition page_0 : string := dq "<!doctype html>
<html lang=`en`>
<head>
  <meta charset=`utf-8`>
  <meta name=`viewport` content=`width=device-width, initial-scale=1`>
  <title>Compliance Evidence Report - ".

Definition page_1 : string := dq "</title>
  <style>
    :root {
      --bg: #0b0f17;
      --panel: #111827;
      --panel2: #0f172a;
      --text: #e5e7eb;
      --muted: #9ca3af;
      --border: rgba(255,255,255,0.08);
      --shadow: rgba(0,0,0,0.45);
      --good: #22c55e;
      --warn: #f59e0b;
      --bad:  #ef4444;
      --info: #60a5fa;
    }
    * { box-sizing: border-box; }
    body {
      margin: 0;
      font-family: ui-sans-serif, system-ui, -apple-system, Segoe UI, Roboto, Arial, `Apple Color Emoji`, `Segoe UI Emoji`;
      background: radial-gradient(1200px 600px at 20% 0%, rgba(96,165,250,0.18), transparent 55%),
                  radial-gradient(1200px 600px at 80% 10%, rgba(34,197,94,0.12), transparent 55%),
                  var(--bg);
      color: var(--text);
    }
    .wrap { max-width: 1100px; margin: 0 auto; padding: 28px 18px 50px; }
    .top {
      display: flex; align-items: flex-start; justify-content: space-between; gap: 14px;
      margin-bottom: 18px;
    }
    h1 { font-size: 26px; margin: 0 0 6px; letter-spacing: 0.2px; }
    .sub { color: var(--muted); font-size: 13px; line-height: 1.35; }
    .pill {
      display: inline-flex; align-items: center; gap: 10px;
      background: rgba(255,255,255,0.06);
      border: 1px solid var(--border);
      border-radius: 999px;
      padding: 10px 14px;
      box-shadow: 0 8px 24px var(--shadow);
      min-width: 210px;
      justify-content: space-between;
    }
    .score {
      font-size: 22px; font-weight: 800; letter-spacing: 0.4px;
    }
    .slabel {
      font-size: 12px; padding: 6px 10px; border-radius: 999px; border: 1px solid var(--border);
      background: rgba(255,255,255,0.06);
    }
    .s-ex .slabel { border-color: rgba(34,197,94,0.35); }
    .s-good .slabel { border-color: rgba(34,197,94,0.25); }
    .s-fair .slabel { border-color: rgba(245,158,11,0.35); }
    .s-bad .slabel { border-color: rgba(239,68,68,0.35); }

    .grid {
      display: grid;
      grid-template-columns: repeat(12, 1fr);
      gap: 14px;
      margin-top: 14px;
    }
    .card {
      background: linear-gradient(180deg, rgba(255,255,255,0.06), rgba(255,255,255,0.03));
      border: 1px solid var(--border);
      border-radius: 14px;
      padding: 16px;
      box-shadow: 0 10px 30px var(--shadow);
    }
    .span-12 { grid-column: span 12; }
    .span-8 { grid-column: span 8; }
    .span-4 { grid-column: span 4; }
    .span-6 { grid-column: span 6; }
    .title { font-size: 14px; font-weight: 700; margin: 0 0 10px; color: #f3f4f6; }
    .muted { color: var(--muted); }
    .kpi {
      display: grid; gap: 8px;
    }
    .krow { display: flex; justify-content: space-between; gap: 10px; font-size: 13px; padding: 8px 10px; border-radius: 10px; background: rgba(0,0,0,0.18); border: 1px solid var(--border); }
    .krow b { font-weight: 700; color: #f9fafb; }
    table { width: 100%; border-collapse: collapse; }
    th, td { text-align: left; padding: 10px 10px; border-bottom: 1px solid var(--border); vertical-align: top; }
    th { font-size: 12px; color: var(--muted); font-weight: 700; letter-spacing: 0.3px; }
    .right { text-align: right; color: var(--muted); font-size: 12px; }
    .sev {
      display: inline-block; font-size: 11px; font-weight: 800;
      padding: 4px 8px; border-radius: 999px;
      border: 1px solid var(--border);
      background: rgba(255,255,255,0.06);
    }
    .sev-high { border-color: rgba(239,68,68,0.55); }
    .sev-medium { border-color: rgba(245,158,11,0.55); }
    .sev-low { border-color: rgba(96,165,250,0.55); }
    .sev-info { border-color: rgba(96,165,250,0.35); }

    .footer {
      margin-top: 16px;
      color: var(--muted);
      font-size: 12px;
    }
    @media print {
      body { background: #fff; color: #111; }
      .card { box-shadow: none; }
      .pill { box-shadow: none; }
      .muted { color: #444; }
    }
  </style>
</head>
<body>
  <div class=`wrap`>
    <div class=`top`>
      <div>
        <h1>Compliance Evidence Report</h1>
        <div class=`sub`>
          Host: <b>".

Definition page_2 : string := dq "</b><br>
          OS: ".

Definition page_3 : string := dq "<br>
          Generated (UTC): ".

Definition page_4 : string := dq "
        </div>
      </div>
      <div class=`pill ".

Definition page_5 : string := dq "`>
        <div>
          <div class=`muted` style=`font-size:12px;`>Overall Score</div>
          <div class=`score`>".

Definition page_6 : string := dq "/100</div>
        </div>
        <div class=`slabel`>".

Definition page_7 : string := dq "</div>
      </div>
    </div>

    <div class=`grid`>
      <div class=`card span-4`>
        <div class=`title`>Quick Summary</div>
        <div class=`kpi`>
          <div class=`krow`><span>Defender</span><b>".

Definition page_8 : string := dq "</b></div>
          <div class=`krow`><span>Firewall</span><b>".

Definition page_9 : string := dq "</b></div>
          <div class=`krow`><span>Updates Found</span><b>".

Definition page_10 : string := dq "</b></div>
          <div class=`krow`><span>Uptime (sec)</span><b>".

Definition page_11 : string := dq "</b></div>
        </div>
      </div>

      <div class=`card span-8`>
        <div class=`title`>Findings</div>
        <table>
          <thead>
            <tr>
              <th style=`width:140px;`>Severity</th>
              <th>Finding</th>
              <th class=`right` style=`width:120px;`>Next</th>
            </tr>
          </thead>
          <tbody>
            ".

Definition page_12 : string := dq "
          </tbody>
        </table>
        <div class=`footer`>
          Outputs: <b>report.html</b>, <b>report.pdf</b>, <b>report.json</b>, evidence in <b>raw_logs/</b>
        </div>
      </div>

      <div class=`card span-12`>
        <div class=`title`>What’s Included</div>
        <div class=`sub`>
          This report contains evidence snapshots for Defender, Firewall, update history, local users,
          and BitLocker (when available). Use the JSON output for automation pipelines.
        </div>
      </div>
    </div>
  </div>
</body>
</html>
".

(** The f-string of lines 190-361. *)
Definition html_page (title_host host os generated cls score label
                      defender firewall updates_count uptime rows : string)
  : string :=
  page_0 ++ title_host ++ page_1 ++ host ++ page_2 ++ os ++ page_3 ++ generated
  ++ page_4 ++ cls ++ page_5 ++ score ++ page_6 ++ label ++ page_7 ++ defender
  ++ page_8 ++ firewall ++ page_9 ++ updates_count ++ page_10 ++ uptime
  ++ page_11 ++ rows ++ page_12.

Definition render_html (report : pydict) : result string :=
  system <- dict_item report "system" ;;
  hostname <- py_get system "hostname" (PStr "host") ;;
  score <- py_int (dict_get report "score" (PInt 0)) ;;
  let findings := dict_get report "findings" (PList []) in
  let uptime := dict_get report "uptime_seconds" PNone in
  defender_ok <- py_get (dict_get report "defender" (PDict [])) "available" (PBool false) ;;
  firewall_ok <- py_get (dict_get report "firewall" (PDict [])) "available" (PBool false) ;;
  ups <- py_get (dict_get report "updates" (PDict [])) "updates" (PList []) ;;
  updates_count <- py_len (if truthy ups then ups else PList []) ;;
  rows <- findings_rows findings ;;
  title_host <- esc hostname ;;
  host <- esc hostname ;;
  osv <- py_get system "os" (PStr "") ;;
  os <- esc osv ;;
  tsv <- py_get system "timestamp_utc" (PStr "") ;;
  generated <- esc tsv ;;
  Ok (html_page title_host host os generated (score_class score)
        (str_of_int score) (score_label score) (fmt_bool defender_ok)
        (fmt_bool firewall_ok) (str_of_int updates_count) (uptime_text uptime)
        rows).

End Html.

Export Html.

(* ================================================================= *)
(** ** The PDF renderer: the score bucket of [render_pdf] *)

Module Pdf.

(** [score_bucket] (lines 387-394): the label and the hex code of its colour. *)
Definition score_bucket (s : Z) : string * string :=
  if Z.geb s 90 then ("Excellent", "#16a34a")
  else if Z.geb s 75 then ("Good", "#22c55e")
  else if Z.geb s 60 then ("Fair", "#f59e0b")
  else ("Needs Work", "#ef4444").

(** [safe_str] (lines 384-385). *)
Definition safe_str (v : pyval) : string :=
  match v with
  | PNone => ""
  | _ => py_str v
  end.

(** [wrap_kv] (lines 396-400): one row [[k, safe_str(d.get(k))]] per key. *)
Definition wrap_kv (d : pydict) (keys : list string) : list (list string) :=
  map (fun k => [k; safe_str (dict_get d k PNone)]) keys.

(** What the story holds, as far as its text goes: a [Paragraph] with its
    markup, or a [Table] with the text of its cells. *)
Inductive flowable : Type :=
| Paragraph (markup : string)
| Table (rows : list (list string)).

(** [isinstance(v, dict)]. *)
Definition isinstance_dict (v : pyval) : bool :=
  match v with
  | PDict _ => true
  | _ => false
  end.

(** The dict a value is, once [isinstance(v, dict)] has been checked. *)
Definition the_dict (v : pyval) : pydict :=
  match v with
  | PDict d => d
  | _ => []
  end.

(** The Defender part of page 2 (lines 583-599), [defender] being the dict
    [report.get("defender", {})]. *)
Definition pdf_defender_section (defender : pydict) : flowable :=
  let defender_ok := truthy (dict_get defender "available" PNone) in
  if (defender_ok && isinstance_dict (dict_get defender "data" (PDict [])))%bool
  then
    let d := the_dict (dict_get defender "data" (PDict [])) in
    let defender_keys := ["AMServiceEnabled"; "AntispywareEnabled";
                          "AntivirusEnabled"; "RealTimeProtectionEnabled"] in
    Table (["Field"; "Value"] :: wrap_kv d defender_keys)
  else
    Paragraph ("Unavailable: " ++ safe_str (dict_get defender "error" (PStr ""))).

End Pdf.

Export Pdf.

(* ================================================================= *)
(** ** [main]: what a run writes *)

Module Main.

(** What the host answers during one run: the system information, the
    return value of [get_uptime_seconds], the outcome of the four PowerShell
    queries, and the two answers [get_bitlocker_status] asks for. *)
Record host : Type := {
  node : string;
  platform : string;
  python_version : string;
  now : string;
  uptime : option Z;
  defender_run : proc_outcome;
  firewall_run : proc_outcome;
  updates_run : proc_outcome;
  users_run : proc_outcome;
  bde_which : option string;
  bde_status : Z * string
}.

(** A call of [safe_write]: the path below the output directory, and the
    text. The file system is taken to accept every write. *)
Definition write : Type := (list string * string)%type.

(** How the run ends: it prints its four lines and returns, or an exception
    leaves [main]. *)
Inductive ending : Type :=
| Printed (lines : list (string * list string))
| Raised (e : pyexn)
| PdfRaised.

Section Run.

(** [json.loads], [json.dumps(v, indent=2)], and [render_pdf]: the PDF
    bytes, or [None] when it raises. *)
Variable json_loads : string -> option pyval.
Variable json_dumps : pyval -> string.
Variable render_pdf : pydict -> option string.

(** The dict literal of lines 691-701. *)
Definition build_report (system : pydict) (uptime : option Z) (score : Z)
           (findings : list pyval)
           (defender firewall bitlocker updates users : pydict) : pydict :=
  [("system", PDict system);
   ("uptime_seconds", match uptime with Some n => PInt n | None => PNone end);
   ("score", PInt score);
   ("findings", PList findings);
   ("defender", PDict defender);
   ("firewall", PDict firewall);
   ("bitlocker", PDict bitlocker);
   ("updates", PDict updates);
   ("local_users", PDict users)].

(** Lines 681-719: the writes done, in order, and how the run ends. *)
Definition main (h : host) : list write * ending :=
  let system := get_basic_system_info (node h) (platform h)
                                      (python_version h) (now h) in
  let defender := get_defender_status json_loads (defender_run h) in
  let firewall := get_firewall_profiles json_loads (firewall_run h) in
  let bitlocker := get_bitlocker_status (bde_which h) (bde_status h) in
  let updates := get_recent_updates json_loads (updates_run h) in
  let users := get_local_users json_loads (users_run h) in
  match score_findings defender firewall updates with
  | Raise e => ([], Raised e)
  | Ok (score, findings) =>
      let report := build_report system (uptime h) score findings
                                 defender firewall bitlocker updates users in
      let raw :=
        [(["raw_logs"; "defender.json"], json_dumps (PDict defender));
         (["raw_logs"; "firewall.json"], json_dumps (PDict firewall));
         (["raw_logs"; "updates.json"], json_dumps (PDict updates));
         (["raw_logs"; "local_users.json"], json_dumps (PDict users))] in
      match (if truthy (dict_get bitlocker "available" PNone) then
               text <- expect_str (dict_get bitlocker "raw" (PStr "")) ;;
               Ok [(["raw_logs"; "bitlocker_status.txt"], text)]
             else Ok [])
      with
      | Raise e => (raw, Raised e)
      | Ok bde =>
          let written :=
            (raw ++ bde ++ [(["report.json"], json_dumps (PDict report))])%list in
          match render_html report with
          | Raise e => (written, Raised e)
          | Ok html =>
              let written := (written ++ [(["report.html"], html)])%list in
              match render_pdf report with
              | None => (written, PdfRaised)
              | Some pdf =>
                  ((written ++ [(["report.pdf"], pdf)])%list,
                   Printed [("[+] Report written to: ", ["report.html"]);
                            ("[+] PDF written to:    ", ["report.pdf"]);
                            ("[+] JSON written to:   ", ["report.json"]);
                            ("[+] Evidence in:       ", ["raw_logs"])])
              end
          end
      end
  end.

End Run.

End Main.

Export Main.

(* ================================================================= *)
(** ** Vocabulary of the properties, and sample inputs *)

(** The title of a finding, as [f.get("title")] reads it. *)
Definition finding_title (f : pyval) : string :=
  match f with
  | PDict d =>
      match dict_lookup d "title" with
      | Some (PStr t) => t
      | _ => ""
      end
  | _ => ""
  end.

Definition titles (findings : list pyval) : list string :=
  map finding_title findings.

(** The points each rule takes off, by the title of the finding it appends
    (the [score -= n] that stands before each [findings.append]). *)
Definition rule_points (title : string) : Z :=
  if String.eqb title "Defender status not readable" then 15
  else if String.eqb title "Real-time protection disabled" then 25
  else if String.eqb title "Antivirus appears disabled" then 25
  else if String.eqb title "Firewall status not readable" then 10
  else if String.eqb title "Firewall disabled on profiles" then 20
  else if String.eqb title "Cannot determine latest update date" then 5
  else if String.eqb title "Update history not readable" then 10
  else 0.

Fixpoint points (ts : list string) : Z :=
  match ts with
  | [] => 0
  | t :: ts' => rule_points t + points ts'
  end.

(** [d and not d.get(field, True)] as a plain boolean, for a payload that
    is a dict or falsy. *)
Definition field_off (d : pyval) (field : string) : bool :=
  match d with
  | PDict items =>
      match items with
      | [] => false
      | _ :: _ => negb (truthy (dict_get items field (PBool true)))
      end
  | _ => false
  end.

(** The shape [score_findings] expects of the Defender payload: falsy, or a
    dict. *)
Definition payload_shaped (d : pyval) : bool :=
  match d with
  | PDict _ => true
  | _ => negb (truthy d)
  end.

(** The test of line 139 on a profile that is a dict. *)
Definition is_disabled (p : pyval) : bool :=
  match p with
  | PDict items =>
      str_in (lower (py_str (dict_get items "Enabled" (PStr "")))) ["false"; "0"]
  | _ => false
  end.

(** The name line 142 joins, for a profile that is a dict with a [str] name
    or none. *)
Definition name_of (p : pyval) : string :=
  match p with
  | PDict items =>
      match dict_get items "Name" (PStr "Unknown") with
      | PStr s => s
      | _ => ""
      end
  | _ => ""
  end.

(** A firewall profile as the data model has it: a dict whose name, when
    there is one, is a [str]. *)
Definition profile_shaped (p : pyval) : bool :=
  match p with
  | PDict items =>
      match dict_lookup items "Name" with
      | None | Some (PStr _) => true
      | Some _ => false
      end
  | _ => false
  end.

Definition defender_shaped (defender : pydict) : bool :=
  (negb (truthy (dict_get defender "available" PNone))
   || payload_shaped (dict_get defender "data" (PDict [])))%bool.

Definition firewall_shaped (firewall : pydict) : bool :=
  (negb (truthy (dict_get firewall "available" PNone))
   || match dict_get firewall "profiles" (PList []) with
      | PList ps => forallb profile_shaped ps
      | _ => false
      end)%bool.

Definition updates_shaped (updates : pydict) : bool :=
  if (truthy (dict_get updates "available" PNone)
      && truthy (dict_get updates "updates" PNone))%bool
  then match dict_get updates "updates" PNone with
       | PList (PDict _ :: _) => true
       | _ => false
       end
  else true.

(** Evidence as the normalisers are meant to deliver it. *)
Definition evidence_shaped (defender firewall updates : pydict) : bool :=
  (defender_shaped defender && firewall_shaped firewall
   && updates_shaped updates)%bool.

(** [p in s] for strings. *)
Definition substring (p s : string) : Prop :=
  exists pre post, s = pre ++ p ++ post.

(** Every [<] of [s] is followed, inside [s], by two characters other
    than [sc]. *)
Fixpoint lt_guarded (s : string) : bool :=
  match s with
  | EmptyString => true
  | String c s' =>
      ((if Ascii.eqb c "<" then
          match s' with
          | String c1 (String c2 _) => negb (Ascii.eqb c1 "s" && Ascii.eqb c2 "c")
          | _ => false
          end
        else true) && lt_guarded s')%bool
  end.

(** The score label as the specification words it: four half-open
    intervals, the lower end of each included. *)
Definition spec_bucket (score : Z) : string :=
  if Z.leb 90 score then "Excellent"
  else if (Z.leb 75 score && Z.ltb score 90)%bool then "Good"
  else if (Z.leb 60 score && Z.ltb score 75)%bool then "Fair"
  else "Needs Work".

(** [uptime_seconds] as [get_uptime_seconds] returns it: [None] or an [int]. *)
Definition uptime_typed (report : pydict) : bool :=
  match dict_get report "uptime_seconds" PNone with
  | PNone | PInt _ => true
  | _ => false
  end.

(** The findings of lines 120-131, for a payload that is falsy or a dict. *)
Definition defender_findings (defender : pydict) : list pyval :=
  if negb (truthy (dict_get defender "available" PNone)) then
    [finding "medium" "Defender status not readable"
             (dict_get defender "error" (PStr ""))]
  else
    let d := dict_get defender "data" (PDict []) in
    ((if field_off d "RealTimeProtectionEnabled" then
        [finding "high" "Real-time protection disabled"
                 (PStr "Enable Microsoft Defender real-time protection.")]
      else [])
     ++ (if field_off d "AntivirusEnabled" then
           [finding "high" "Antivirus appears disabled"
                    (PStr "Verify antivirus is enabled and updating.")]
         else []))%list.

(** The findings of lines 133-143, for profiles that are dicts. *)
Definition firewall_findings (firewall : pydict) : list pyval :=
  if negb (truthy (dict_get firewall "available" PNone)) then
    [finding "medium" "Firewall status not readable"
             (dict_get firewall "error" (PStr ""))]
  else
    match dict_get firewall "profiles" (PList []) with
    | PList ps =>
        match filter is_disabled ps with
        | [] => []
        | disabled =>
            [finding "high" "Firewall disabled on profiles"
                     (PStr ("Disabled profiles: "
                              ++ join ", " (map name_of disabled) ++ "."))]
        end
    | _ => []
    end.

(** The findings of lines 145-153, for an update list headed by a dict. *)
Definition update_findings (updates : pydict) : list pyval :=
  if (truthy (dict_get updates "available" PNone)
      && truthy (dict_get updates "updates" PNone))%bool then
    match dict_get updates "updates" PNone with
    | PList (PDict u0 :: _) =>
        if negb (truthy (dict_get u0 "InstalledOn" PNone)) then
          [finding "low" "Cannot determine latest update date"
                   (PStr "InstalledOn missing for newest hotfix.")]
        else []
    | _ => []
    end
  else
    [finding "medium" "Update history not readable"
             (dict_get updates "error" (PStr ""))].

(** A block that appended [fs] and took their points off. *)
Definition appended (fs : list pyval) (st : state) : state :=
  (fst st - points (titles fs), (snd st ++ fs)%list).

Definition is_dict (v : pyval) : bool :=
  match v with
  | PDict _ => true
  | _ => false
  end.

(** All the findings of a run, in rule order. *)
Definition all_findings (defender firewall updates : pydict) : list pyval :=
  (defender_findings defender ++ firewall_findings firewall
   ++ update_findings updates)%list.

Definition sample_defender : pydict :=
  [("available", PBool true);
   ("data", PDict [("AMServiceEnabled", PBool true);
                   ("AntispywareEnabled", PBool true);
                   ("AntivirusEnabled", PBool true);
                   ("RealTimeProtectionEnabled", PBool false)]);
   ("error", PStr "")].

Definition sample_firewall : pydict :=
  [("available", PBool true);
   ("profiles", PList [PDict [("Name", PStr "Domain"); ("Enabled", PInt 1)];
                       PDict [("Name", PStr "Public"); ("Enabled", PBool false)]]);
   ("error", PStr "")].

Definition sample_updates : pydict :=
  [("available", PBool false); ("updates", PList []);
   ("error", PStr "Access is denied.")].

Definition scenario_B_defender : pydict :=
  [("available", PBool true);
   ("data", PDict [("RealTimeProtectionEnabled", PBool false);
                   ("AntivirusEnabled", PBool true)]);
   ("error", PStr "")].

Definition scenario_B_firewall : pydict :=
  [("available", PBool true);
   ("profiles", PList [PDict [("Name", PStr "Public"); ("Enabled", PBool false)]]);
   ("error", PStr "")].

Definition scenario_B_updates : pydict :=
  [("available", PBool false); ("updates", PList []);
   ("error", PStr "Update history unavailable.")].

(** An available Defender section with the given payload. *)
Definition available_defender (payload : pydict) : pydict :=
  [("available", PBool true); ("data", PDict payload); ("error", PStr "")].

Definition all_enabled_firewall : pydict :=
  [("available", PBool true);
   ("profiles", PList [PDict [("Name", PStr "Domain"); ("Enabled", PBool true)]]);
   ("error", PStr "")].

Definition dated_updates : pydict :=
  [("available", PBool true);
   ("updates", PList [PDict [("HotFixID", PStr "KB5031356");
                             ("Description", PStr "Security Update");
                             ("InstalledOn", PStr "2023-10-11")]]);
   ("error", PStr "")].

(** A Defender payload whose real-time flag has no value: [ConvertTo-Json]
    writes such a property as [null]. *)
Definition null_flag_payload : pydict :=
  [("AMServiceEnabled", PBool true); ("AntispywareEnabled", PBool true);
   ("AntivirusEnabled", PBool true); ("RealTimeProtectionEnabled", PNone)].

(** The same payload without the property. *)
Definition absent_flag_payload : pydict :=
  [("AMServiceEnabled", PBool true); ("AntispywareEnabled", PBool true);
   ("AntivirusEnabled", PBool true)].

(** A firewall section whose one profile has no value for [Enabled]. *)
Definition null_enabled_firewall : pydict :=
  [("available", PBool true);
   ("profiles", PList [PDict [("Name", PStr "Domain"); ("Enabled", PNone)]]);
   ("error", PStr "")].

Definition undated_updates : pydict :=
  [("available", PBool true);
   ("updates", PList [PDict [("HotFixID", PStr "KB5031356");
                             ("InstalledOn", PNone)]]);
   ("error", PStr "")].


(** A Defender section with the four flags on. *)
Definition healthy_defender : pydict :=
  available_defender [("AMServiceEnabled", PBool true);
                      ("AntispywareEnabled", PBool true);
                      ("AntivirusEnabled", PBool true);
                      ("RealTimeProtectionEnabled", PBool true)].

(** A [json.loads] that parses the empty object and rejects any other text. *)
Definition sample_loads (s : string) : option pyval :=
  if String.eqb s "{}" then Some (PDict []) else None.

(** What [esc] does to one character. *)
Definition esc_char (c : ascii) : string :=
  if Ascii.eqb c "&" then "&amp;"
  else if Ascii.eqb c "<" then "&lt;"
  else if Ascii.eqb c ">" then "&gt;"
  else String c EmptyString.


(** A value [esc] accepts: a [str], or anything falsy. *)
Definition escapable (v : pyval) : bool :=
  match v with
  | PStr _ => true
  | _ => negb (truthy v)
  end.

(** A value [len] accepts once [or []] has replaced a falsy one. *)
Definition sized (v : pyval) : bool :=
  match v with
  | PList _ | PStr _ | PDict _ => true
  | _ => negb (truthy v)
  end.

Definition finding_shaped (f : pyval) : bool :=
  match f with
  | PDict items =>
      (escapable (dict_get items "severity" (PStr "info"))
       && escapable (dict_get items "title" (PStr ""))
       && escapable (dict_get items "detail" (PStr "")))%bool
  | _ => false
  end.

(** A report as [main] assembles it: [system] a dict of texts, [score] an
    [int], the three sections dicts, [findings] a list of findings. *)
Definition report_shaped (report : pydict) : bool :=
  (match dict_lookup report "system" with
   | Some (PDict sys) =>
       escapable (dict_get sys "hostname" (PStr "host"))
       && escapable (dict_get sys "os" (PStr ""))
       && escapable (dict_get sys "timestamp_utc" (PStr ""))
   | _ => false
   end
   && match dict_get report "score" (PInt 0) with
      | PInt _ => true
      | _ => false
      end
   && is_dict (dict_get report "defender" (PDict []))
   && is_dict (dict_get report "firewall" (PDict []))
   && match dict_get report "updates" (PDict []) with
      | PDict ups => sized (dict_get ups "updates" (PList []))
      | _ => false
      end
   && match dict_get report "findings" (PList []) with
      | PList fs => forallb finding_shaped fs
      | _ => false
      end)%bool.

(** The f-strings of lines 186 and 187, [sev] being lower-cased already. *)
Definition row_markup (sev title detail : string) : string :=
  "<tr><td>" ++ ("<span class='sev sev-" ++ sev ++ "'>" ++ upper sev ++ "</span>")
    ++ "</td><td><b>" ++ title ++ "</b><div class='muted'>" ++ detail
    ++ "</div></td><td class='right'>Action</td></tr>".

Definition script_report : pydict :=
  [("system", PDict [("hostname", PStr "LAB-<01>");
                     ("os", PStr "Windows-10 & more");
                     ("python_version", PStr "3.11.4");
                     ("timestamp_utc", PStr "2024-01-01T00:00:00Z")]);
   ("uptime_seconds", PInt 3600);
   ("score", PInt 90);
   ("findings",
    PList [finding "medium" "Update history not readable"
                   (PStr "<script>alert(1)</script>")]);
   ("defender", PDict healthy_defender);
   ("firewall", PDict all_enabled_firewall);
   ("bitlocker", PDict [("available", PBool false); ("raw", PStr "");
                        ("error", PStr "manage-bde not found.")]);
   ("updates", PDict [("available", PBool false); ("updates", PList []);
                      ("error", PStr "<script>alert(1)</script>")]);
   ("local_users", PDict [("available", PBool false); ("users", PList []);
                          ("error", PStr "Local users unavailable.")])].

(** A disabled profile whose name line 142 can join: a dict with a [str]
    name, or with none. *)
Definition name_is_str (p : pyval) : bool :=
  match p with
  | PDict items =>
      match dict_get items "Name" (PStr "Unknown") with
      | PStr _ => true
      | _ => false
      end
  | _ => false
  end.

(** The firewall sections lines 133-143 go through without raising. *)
Definition firewall_accepted (firewall : pydict) : bool :=
  (negb (truthy (dict_get firewall "available" PNone))
   || match py_iter (dict_get firewall "profiles" (PList [])) with
      | Ok ps =>
          forallb is_dict ps && forallb name_is_str (filter is_disabled ps)
      | Raise _ => false
      end)%bool.

(** The seven rules: number, severity, title, points. *)
Definition rule_table : list (nat * string * string * Z) :=
  [(1%nat, "medium", "Defender status not readable", 15);
   (2%nat, "high", "Real-time protection disabled", 25);
   (3%nat, "high", "Antivirus appears disabled", 25);
   (4%nat, "medium", "Firewall status not readable", 10);
   (5%nat, "high", "Firewall disabled on profiles", 20);
   (6%nat, "low", "Cannot determine latest update date", 5);
   (7%nat, "medium", "Update history not readable", 10)].

(** The number of the rule that appends a finding of this title. *)
Fixpoint rule_number_in (table : list (nat * string * string * Z))
         (title : string) : nat :=
  match table with
  | [] => 0
  | (n, _, t, _) :: rest =>
      if String.eqb t title then n else rule_number_in rest title
  end.

Definition rule_number (title : string) : nat := rule_number_in rule_table title.

(** Each number is below the next one. *)
Fixpoint increasing (ns : list nat) : bool :=
  match ns with
  | [] => true
  | n :: rest =>
      (match rest with
       | [] => true
       | m :: _ => Nat.ltb n m
       end && increasing rest)%bool
  end.

(** Every finding a section appends is built by [finding] from a row of the
    rule table. *)
Definition from_table (f : pyval) : Prop :=
  exists n sev title pts detail,
    In (n, sev, title, pts) rule_table /\ f = finding sev title detail.

(** Nothing but white space. *)
Fixpoint all_space (s : string) : bool :=
  match s with
  | EmptyString => true
  | String c s' => (is_space c && all_space s')%bool
  end.

Definition first_char (s : string) : option ascii :=
  match s with
  | EmptyString => None
  | String c _ => Some c
  end.

Fixpoint last_char (s : string) : option ascii :=
  match s with
  | EmptyString => None
  | String c s' =>
      match s' with
      | EmptyString => Some c
      | _ => last_char s'
      end
  end.

(** No white space at either end. *)
Definition trimmed (s : string) : bool :=
  match first_char s, last_char s with
  | Some a, Some b => (negb (is_space a) && negb (is_space b))%bool
  | _, _ => true
  end.

(** A normalised section: the three keys in this order, a boolean flag, and
    an error text that is empty exactly when the section is available and
    its output parsed. *)
Definition section_shaped (payload_key : string) (parsed : bool)
           (section : pydict) : Prop :=
  exists (available : bool) (payload : pyval) (error : string),
    section = [("available", PBool available); (payload_key, payload);
               ("error", PStr error)]
    /\ (error = "" <-> available = true /\ parsed = true)
    /\ (available = false \/ parsed = false ->
        payload = PDict [] \/ payload = PList []).

(** The exit code, stdout and stderr [run_powershell] returns. *)
Definition code_of (p : proc_outcome) : Z := fst (fst (run_powershell p)).
Definition out_of (p : proc_outcome) : string := snd (fst (run_powershell p)).
Definition err_of (p : proc_outcome) : string := snd (run_powershell p).

(** A [json.loads] that reads any text as an array of one empty object. *)
Definition array_loads (s : string) : option pyval := Some (PList [PDict []]).

(** One of the three characters [esc] rewrites. *)
Definition special (c : ascii) : bool :=
  (Ascii.eqb c "&" || Ascii.eqb c "<" || Ascii.eqb c ">")%bool.

Fixpoint has_special (s : string) : bool :=
  match s with
  | EmptyString => false
  | String c s' => (special c || has_special s')%bool
  end.

Definition starts_with (t s : string) : Prop := exists rest, s = t ++ rest.
Definition ends_with (t s : string) : Prop := exists front, s = front ++ t.

(** The error of a section is a text. *)
Definition error_is_text (section : pydict) : bool :=
  match dict_get section "error" (PStr "") with
  | PStr _ => true
  | _ => false
  end.

(** The report of a run. *)
Definition report_of (json_loads : string -> option pyval) (h : host)
           (score : Z) (findings : list pyval) : pydict :=
  build_report
    (get_basic_system_info (node h) (platform h) (python_version h) (now h))
    (uptime h) score findings
    (get_defender_status json_loads (defender_run h))
    (get_firewall_profiles json_loads (firewall_run h))
    (get_bitlocker_status (bde_which h) (bde_status h))
    (get_recent_updates json_loads (updates_run h))
    (get_local_users json_loads (users_run h)).

(** A host whose Defender and update queries print an empty JSON object and
    whose firewall query finds no PowerShell. *)
Definition sample_host : host :=
  {| node := "LAB-01";
     platform := "Windows-10-10.0.19045-SP0";
     python_version := "3.11.4";
     now := "2024-01-01T00:00:00Z";
     uptime := Some 3600;
     defender_run := Exited 0 "{}" "";
     firewall_run := FileNotFound;
     updates_run := Exited 0 "{}" "";
     users_run := Exited 1 "" "Get-LocalUser : Access denied";
     bde_which := Some "C:\Windows\System32\manage-bde.exe";
     bde_status := (0, "Volume C: [OS]") |}.

Definition sample_findings : list pyval :=
  [finding "medium" "Firewall status not readable" (PStr "PowerShell not found.");
   finding "low" "Cannot determine latest update date"
           (PStr "InstalledOn missing for newest hotfix.")].

(** A [json.dumps] and a [render_pdf] for the examples: the first writes a
    fixed text, the second always raises. *)
Definition sample_dumps (v : pyval) : string := "{}".
Definition no_pdf (report : pydict) : option string := None.

(* ================================================================= *)
(** ** The exception monad *)

Lemma bind_Ok {A B : Type} (c : result A) (k : A -> result B) (b : B) :
  bind c k = Ok b -> exists a, c = Ok a /\ k a = Ok b.
Proof.
  destruct c as [a | e]; simpl; intros H.
  - exists a. split; [reflexivity | exact H].
  - discriminate H.
Qed.

Ltac bind_inv H :=
  let a := fresh "a" in
  let Ha := fresh "Ha" in
  apply bind_Ok in H; destruct H as (a & Ha & H).

Tactic Notation "bind_split" hyp(H) "as" ident(a) ident(Ha) :=
  apply bind_Ok in H; destruct H as (a & Ha & H).

Lemma mapM_Ok_map {A B : Type} (f : A -> result B) (g : A -> B) (l : list A) :
  (forall x, In x l -> f x = Ok (g x)) -> mapM f l = Ok (map g l).
Proof.
  induction l as [| x l IH]; intros H; simpl.
  - reflexivity.
  - rewrite (H x (or_introl eq_refl)). simpl.
    rewrite IH by (intros y Hy; apply H; right; exact Hy).
    reflexivity.
Qed.

Lemma filterM_Ok_filter {A : Type} (f : A -> result bool) (g : A -> bool)
      (l : list A) :
  (forall x, In x l -> f x = Ok (g x)) -> filterM f l = Ok (filter g l).
Proof.
  induction l as [| x l IH]; intros H; simpl.
  - reflexivity.
  - rewrite (H x (or_introl eq_refl)). simpl.
    rewrite IH by (intros y Hy; apply H; right; exact Hy).
    reflexivity.
Qed.

Lemma filterM_Ok_each {A : Type} (f : A -> result bool) (l r : list A) :
  filterM f l = Ok r -> forall x, In x l -> exists b, f x = Ok b.
Proof.
  revert r. induction l as [| y l IH]; intros r H x Hx.
  - destruct Hx.
  - simpl in H. bind_inv H. bind_inv H.
    destruct Hx as [-> | Hx].
    + exists a. exact Ha.
    + eapply IH; eauto.
Qed.


(* ================================================================= *)
(** ** What each block of [score_findings] appends *)

Lemma appended_nil (st : state) : appended [] st = st.
Proof.
  destruct st as [s fs]. unfold appended. simpl.
  rewrite app_nil_r. f_equal. lia.
Qed.

Lemma appended_app (fs1 fs2 : list pyval) (st : state) :
  appended fs2 (appended fs1 st) = appended (fs1 ++ fs2)%list st.
Proof.
  destruct st as [s fs]. unfold appended, titles. simpl.
  rewrite map_app, app_assoc. f_equal.
  induction (map finding_title fs1) as [| t ts IH]; simpl; lia.
Qed.

Lemma deduct_appended (n : Z) (sev title : string) (detail : pyval) (st : state) :
  rule_points title = n ->
  deduct n (finding sev title detail) st = appended [finding sev title detail] st.
Proof.
  intros <-. unfold deduct, appended. simpl.
  destruct (String.eqb "title" "title") eqn:E; [| discriminate E].
  f_equal. lia.
Qed.

Lemma flag_off_Ok (d : pyval) (field : string) (b : bool) :
  flag_off d field = Ok b -> b = field_off d field.
Proof.
  unfold flag_off.
  destruct d as [| [] | z | s | l | items]; simpl; try congruence.
  - destruct (Z.eqb z 0); simpl; congruence.
  - destruct (String.eqb s ""); simpl; congruence.
  - destruct l; simpl; congruence.
  - destruct items; simpl; congruence.
Qed.

Lemma flag_off_shaped (d : pyval) (field : string) :
  payload_shaped d = true -> flag_off d field = Ok (field_off d field).
Proof.
  unfold flag_off, payload_shaped.
  destruct d as [| [] | z | s | l | items]; simpl; try congruence.
  - destruct (Z.eqb z 0); simpl; congruence.
  - destruct (String.eqb s ""); simpl; congruence.
  - destruct l; simpl; congruence.
  - destruct items; simpl; congruence.
Qed.

Lemma defender_checks_shaped (defender : pydict) (st : state) :
  defender_shaped defender = true ->
  defender_checks defender st = Ok (appended (defender_findings defender) st).
Proof.
  unfold defender_shaped, defender_checks, defender_findings.
  destruct (truthy (dict_get defender "available" PNone)); simpl; intros Hs.
  - rewrite !flag_off_shaped by exact Hs. simpl.
    rewrite <- appended_app.
    destruct (field_off _ "RealTimeProtectionEnabled");
      destruct (field_off _ "AntivirusEnabled");
      rewrite ?appended_nil, ?(deduct_appended 25) by reflexivity;
      reflexivity.
  - rewrite (deduct_appended 15) by reflexivity. reflexivity.
Qed.

Lemma defender_checks_Ok (defender : pydict) (st st' : state) :
  defender_checks defender st = Ok st' ->
  defender_shaped defender = true /\ st' = appended (defender_findings defender) st.
Proof.
  intros H.
  assert (Hs : defender_shaped defender = true).
  { unfold defender_shaped. unfold defender_checks in H.
    destruct (truthy (dict_get defender "available" PNone)); simpl in *;
      [| reflexivity].
    bind_inv H. clear H. unfold flag_off in Ha.
    destruct (dict_get defender "data" (PDict [])) as [| [] | z | s | l | items];
      simpl in *; try reflexivity; try discriminate.
    - destruct (Z.eqb z 0); simpl in *; [reflexivity | discriminate].
    - destruct (String.eqb s ""); simpl in *; [reflexivity | discriminate].
    - destruct l; simpl in *; [reflexivity | discriminate]. }
  split; [exact Hs |].
  rewrite (defender_checks_shaped defender st Hs) in H. congruence.
Qed.

Lemma profile_disabled_Ok (p : pyval) (b : bool) :
  profile_disabled p = Ok b -> is_dict p = true /\ b = is_disabled p.
Proof.
  destruct p; simpl; try discriminate.
  intros H. injection H as <-. split; reflexivity.
Qed.

Lemma profile_disabled_dict (p : pyval) :
  is_dict p = true -> profile_disabled p = Ok (is_disabled p).
Proof. destruct p; simpl; try discriminate. reflexivity. Qed.

Lemma profile_shaped_dict (p : pyval) : profile_shaped p = true -> is_dict p = true.
Proof. destruct p; simpl; try discriminate. reflexivity. Qed.

Lemma filterM_profiles_Ok (ps disabled : list pyval) :
  filterM profile_disabled ps = Ok disabled ->
  forallb is_dict ps = true /\ disabled = filter is_disabled ps.
Proof.
  revert disabled. induction ps as [| p ps IH]; simpl; intros disabled H.
  - injection H as <-. split; reflexivity.
  - bind_inv H. bind_inv H. injection H as <-.
    apply profile_disabled_Ok in Ha. destruct Ha as [Hd ->].
    destruct (IH _ Ha0) as [Hall ->].
    rewrite Hd, Hall. split; reflexivity.
Qed.

Lemma filterM_profiles_dicts (ps : list pyval) :
  forallb is_dict ps = true ->
  filterM profile_disabled ps = Ok (filter is_disabled ps).
Proof.
  intros H. apply filterM_Ok_filter. intros p Hp.
  apply profile_disabled_dict.
  rewrite forallb_forall in H. apply H. exact Hp.
Qed.

(** The names of line 142 and their [join]. *)
Lemma names_Ok (disabled items : list pyval) (names : string) :
  mapM profile_name disabled = Ok items ->
  py_join ", " items = Ok names ->
  names = join ", " (map name_of disabled).
Proof.
  unfold py_join. intros Hm Hj. bind_inv Hj. injection Hj as <-. f_equal.
  revert items a Hm Ha.
  induction disabled as [| p ps IH]; simpl; intros items parts Hm Hp.
  - injection Hm as <-. simpl in Hp. injection Hp as <-. reflexivity.
  - bind_inv Hm. bind_inv Hm. injection Hm as <-.
    simpl in Hp. bind_inv Hp. bind_inv Hp. injection Hp as <-.
    rewrite (IH _ _ Ha0 Ha2). f_equal.
    destruct p; simpl in Ha; try discriminate.
    injection Ha as <-. simpl.
    destruct (dict_get d "Name" (PStr "Unknown")); simpl in Ha1;
      try discriminate.
    injection Ha1 as <-. reflexivity.
Qed.

Lemma names_shaped (disabled : list pyval) :
  forallb profile_shaped disabled = true ->
  exists items,
    mapM profile_name disabled = Ok items
    /\ py_join ", " items = Ok (join ", " (map name_of disabled)).
Proof.
  intros H.
  exists (map (fun p => PStr (name_of p)) disabled). split.
  - apply mapM_Ok_map. intros p Hp.
    rewrite forallb_forall in H. specialize (H p Hp).
    destruct p; simpl in *; try discriminate.
    unfold dict_get. destruct (dict_lookup d "Name") as [[] |];
      try discriminate; reflexivity.
  - unfold py_join.
    rewrite (mapM_Ok_map expect_str (fun v => py_str v)).
    + simpl. rewrite map_map. reflexivity.
    + intros v Hv. apply in_map_iff in Hv. destruct Hv as (p & <- & _).
      reflexivity.
Qed.

Lemma forallb_filter {A : Type} (P Q : A -> bool) (l : list A) :
  forallb P l = true -> forallb P (filter Q l) = true.
Proof.
  rewrite !forallb_forall. intros H x Hx.
  apply filter_In in Hx. apply H. apply Hx.
Qed.

Lemma firewall_checks_shaped (firewall : pydict) (st : state) :
  firewall_shaped firewall = true ->
  firewall_checks firewall st = Ok (appended (firewall_findings firewall) st).
Proof.
  unfold firewall_shaped, firewall_checks, firewall_findings.
  destruct (truthy (dict_get firewall "available" PNone)); simpl.
  - destruct (dict_get firewall "profiles" (PList [])) as [| | | | ps |];
      try discriminate.
    intros Hs. simpl.
    rewrite filterM_profiles_dicts.
    2:{ rewrite forallb_forall in *. intros p Hp.
        apply profile_shaped_dict. apply Hs. exact Hp. }
    simpl.
    pose proof (forallb_filter profile_shaped is_disabled ps Hs) as Hd.
    destruct (filter is_disabled ps) as [| p dis] eqn:E.
    + rewrite appended_nil. reflexivity.
    + destruct (names_shaped _ Hd) as (items & -> & Hj). simpl.
      rewrite Hj. simpl.
      rewrite (deduct_appended 20) by reflexivity. reflexivity.
  - intros _. rewrite (deduct_appended 10) by reflexivity. reflexivity.
Qed.

Lemma firewall_checks_Ok (firewall : pydict) (st st' : state) :
  firewall_checks firewall st = Ok st' ->
  st' = appended (firewall_findings firewall) st.
Proof.
  unfold firewall_checks, firewall_findings.
  destruct (truthy (dict_get firewall "available" PNone)); simpl.
  - intros H. bind_inv H. rename a into ps. bind_inv H. rename a into disabled.
    apply filterM_profiles_Ok in Ha0. destruct Ha0 as [Hall ->].
    destruct (dict_get firewall "profiles" (PList [])) as [| | | s | l | d];
      simpl in Ha; try discriminate; injection Ha as <-.
    + (* a str: every character would have to be a dict *)
      destruct s as [| c s]; simpl in *; [| discriminate Hall].
      injection H as <-. symmetry. apply appended_nil.
    + destruct (filter is_disabled l) as [| p dis] eqn:E.
      * injection H as <-. symmetry. apply appended_nil.
      * bind_inv H. bind_inv H. injection H as <-.
        rewrite (names_Ok _ _ _ Ha Ha0).
        rewrite (deduct_appended 20) by reflexivity. reflexivity.
    + (* a dict: its keys are strs *)
      destruct d as [| kv d]; simpl in *; [| discriminate Hall].
      injection H as <-. symmetry. apply appended_nil.
  - intros H. injection H as <-.
    rewrite (deduct_appended 10) by reflexivity. reflexivity.
Qed.

Lemma dict_item_truthy (d : pydict) (k : string) :
  truthy (dict_get d k PNone) = true -> dict_item d k = Ok (dict_get d k PNone).
Proof.
  unfold dict_item, dict_get. destruct (dict_lookup d k); simpl.
  - reflexivity.
  - discriminate.
Qed.

Lemma update_checks_shaped (updates : pydict) (st : state) :
  updates_shaped updates = true ->
  update_checks updates st = Ok (appended (update_findings updates) st).
Proof.
  unfold updates_shaped, update_checks, update_findings.
  destruct (truthy (dict_get updates "available" PNone)); simpl.
  - destruct (truthy (dict_get updates "updates" PNone)) eqn:Ht.
    + rewrite (dict_item_truthy _ _ Ht).
      destruct (dict_get updates "updates" PNone) as [| | | | [| [] l] |];
        try discriminate.
      intros _. simpl.
      destruct (truthy (dict_get d "InstalledOn" PNone)); simpl.
      * rewrite appended_nil. reflexivity.
      * rewrite (deduct_appended 5) by reflexivity. reflexivity.
    + intros _. rewrite (deduct_appended 10) by reflexivity. reflexivity.
  - intros _. rewrite (deduct_appended 10) by reflexivity. reflexivity.
Qed.

Lemma update_checks_Ok (updates : pydict) (st st' : state) :
  update_checks updates st = Ok st' ->
  updates_shaped updates = true /\ st' = appended (update_findings updates) st.
Proof.
  intros H.
  assert (Hs : updates_shaped updates = true).
  { unfold updates_shaped. unfold update_checks in H.
    destruct (truthy (dict_get updates "available" PNone)); simpl in *;
      [| reflexivity].
    destruct (truthy (dict_get updates "updates" PNone)) eqn:Ht;
      [| reflexivity].
    rewrite (dict_item_truthy _ _ Ht) in H.
    destruct (dict_get updates "updates" PNone) as [| | | s | [| u0 l] |];
      simpl in *; try discriminate.
    - destruct s; simpl in *; discriminate.
    - destruct u0; simpl in *; try discriminate. reflexivity. }
  split; [exact Hs |].
  rewrite (update_checks_shaped updates st Hs) in H. congruence.
Qed.

(* ================================================================= *)
(** ** [score_findings] as a whole *)

Lemma score_findings_Ok (defender firewall updates : pydict)
      (score : Z) (findings : list pyval) :
  score_findings defender firewall updates = Ok (score, findings) ->
  findings = all_findings defender firewall updates
  /\ score = clamp (100 - points (titles findings))
  /\ defender_shaped defender = true
  /\ updates_shaped updates = true.
Proof.
  unfold score_findings. intros H.
  bind_inv H. apply defender_checks_Ok in Ha. destruct Ha as [Hd ->].
  bind_inv H. apply firewall_checks_Ok in Ha. subst a.
  bind_inv H. apply update_checks_Ok in Ha. destruct Ha as [Hu ->].
  rewrite !appended_app in H. unfold appended in H. cbn [fst snd app] in H.
  injection H as <- <-.
  unfold all_findings.
  repeat split; try assumption.
Qed.

Lemma score_findings_shaped (defender firewall updates : pydict) :
  evidence_shaped defender firewall updates = true ->
  score_findings defender firewall updates
  = Ok (clamp (100 - points (titles (all_findings defender firewall updates))),
        all_findings defender firewall updates).
Proof.
  unfold evidence_shaped. intros H.
  apply andb_prop in H. destruct H as [H Hu].
  apply andb_prop in H. destruct H as [Hd Hf].
  unfold score_findings.
  rewrite (defender_checks_shaped _ _ Hd). cbn [bind].
  rewrite (firewall_checks_shaped _ _ Hf). cbn [bind].
  rewrite (update_checks_shaped _ _ Hu). cbn [bind].
  rewrite !appended_app. unfold appended, all_findings. cbn [fst snd app].
  reflexivity.
Qed.

Lemma clamp_range (score : Z) : 0 <= clamp score <= 100.
Proof. unfold clamp. lia. Qed.

Lemma points_app (ts1 ts2 : list string) :
  points (ts1 ++ ts2) = points ts1 + points ts2.
Proof. induction ts1 as [| t ts IH]; simpl; lia. Qed.

Lemma points_finding (sev title : string) (detail : pyval) :
  points (titles [finding sev title detail]) = rule_points title.
Proof.
  change (points (titles [finding sev title detail])) with (rule_points title + 0).
  lia.
Qed.

Lemma defender_points (defender : pydict) :
  0 <= points (titles (defender_findings defender)) <= 50.
Proof.
  unfold defender_findings.
  destruct (negb _); [vm_compute; split; discriminate |].
  destruct (field_off _ "RealTimeProtectionEnabled");
    destruct (field_off _ "AntivirusEnabled");
    vm_compute; split; discriminate.
Qed.

Lemma firewall_points (firewall : pydict) :
  0 <= points (titles (firewall_findings firewall)) <= 20.
Proof.
  unfold firewall_findings.
  destruct (negb _); [rewrite points_finding; vm_compute; split; discriminate |].
  destruct (dict_get firewall "profiles" (PList [])) as [| | | | ps |];
    try (cbn [titles map points]; lia).
  destruct (filter is_disabled ps); [cbn [titles map points]; lia |].
  rewrite points_finding. vm_compute. split; discriminate.
Qed.

Lemma update_points (updates : pydict) :
  0 <= points (titles (update_findings updates)) <= 10.
Proof.
  unfold update_findings.
  destruct (_ && _)%bool;
    [| rewrite points_finding; vm_compute; split; discriminate].
  destruct (dict_get updates "updates" PNone) as [| | | | [| [] l] |];
    try (cbn [titles map points]; lia).
  destruct (negb _); [| cbn [titles map points]; lia].
  rewrite points_finding. vm_compute. split; discriminate.
Qed.

(** The rules take at most 80 points off, so the score never falls below 20
    and the clamp of line 155 never changes it. *)
Lemma score_findings_at_least_20 (defender firewall updates : pydict)
      (score : Z) (findings : list pyval) :
  score_findings defender firewall updates = Ok (score, findings) ->
  20 <= score <= 100 /\ score = 100 - points (titles findings).
Proof.
  intros H. apply score_findings_Ok in H. destruct H as (-> & -> & _ & _).
  unfold all_findings, titles. rewrite !map_app, !points_app.
  pose proof (defender_points defender) as Hd.
  pose proof (firewall_points firewall) as Hf.
  pose proof (update_points updates) as Hu.
  unfold titles in *. unfold clamp. lia.
Qed.

(** ** C1 *)

(** C1. Whenever [score_findings] returns, the score lies between 0 and 100;
    and it does return on every triple of evidence of the expected shape
    (payload falsy or a dict, profiles dicts with [str] names, update list
    headed by a dict). *)
Theorem score_findings_range (defender firewall updates : pydict) :
  (forall score findings,
      score_findings defender firewall updates = Ok (score, findings) ->
      0 <= score <= 100)
  /\ (evidence_shaped defender firewall updates = true ->
      exists score findings,
        score_findings defender firewall updates = Ok (score, findings)
        /\ 0 <= score <= 100).
Proof.
  split.
  - intros score findings H.
    apply score_findings_Ok in H. destruct H as (_ & -> & _).
    apply clamp_range.
  - intros H. rewrite (score_findings_shaped _ _ _ H).
    eexists. eexists. split; [reflexivity | apply clamp_range].
Qed.

Lemma score_findings_range_witness :
  exists score findings,
    score_findings sample_defender sample_firewall sample_updates
    = Ok (score, findings)
    /\ 0 <= score <= 100.
Proof.
  destruct (score_findings_range sample_defender sample_firewall sample_updates)
    as [_ H].
  apply H. reflexivity.
Defined.

(** A payload that is neither falsy nor a dict makes the run raise: a list,
    which is what a JSON array of Defender objects parses to, has no [get]. *)
Example score_findings_list_payload :
  score_findings [("available", PBool true);
                  ("data", PList [PDict [("AntivirusEnabled", PBool true)]]);
                  ("error", PStr "")]
                 sample_firewall sample_updates
  = Raise AttributeError.
Proof. reflexivity. Qed.

(* ================================================================= *)
(** ** Which titles each block can append *)

Lemma field_off_spec (payload : pydict) (field : string) :
  field_off (PDict payload) field = true
  <-> exists v, dict_lookup payload field = Some v /\ truthy v = false.
Proof.
  unfold field_off, dict_get. destruct payload as [| kv payload].
  - simpl. split; [discriminate | intros (v & H & _); discriminate H].
  - destruct (dict_lookup (kv :: payload) field) as [v |].
    + rewrite negb_true_iff. split.
      * intros H. exists v. split; [reflexivity | exact H].
      * intros (w & Hw & H). injection Hw as <-. exact H.
    + simpl. split; [discriminate | intros (v & H & _); discriminate H].
Qed.

Lemma defender_titles (defender : pydict) :
  titles (defender_findings defender)
  = if negb (truthy (dict_get defender "available" PNone)) then
      ["Defender status not readable"]
    else
      ((if field_off (dict_get defender "data" (PDict []))
                     "RealTimeProtectionEnabled"
        then ["Real-time protection disabled"] else [])
       ++ (if field_off (dict_get defender "data" (PDict [])) "AntivirusEnabled"
           then ["Antivirus appears disabled"] else []))%list.
Proof.
  unfold defender_findings.
  destruct (negb _); [reflexivity |].
  destruct (field_off _ "RealTimeProtectionEnabled");
    destruct (field_off _ "AntivirusEnabled"); reflexivity.
Qed.

Lemma firewall_titles_in (firewall : pydict) (t : string) :
  In t (titles (firewall_findings firewall)) ->
  t = "Firewall status not readable" \/ t = "Firewall disabled on profiles".
Proof.
  unfold firewall_findings.
  destruct (negb _).
  - simpl. intros [<- | []]. left. reflexivity.
  - destruct (dict_get firewall "profiles" (PList [])); simpl; try tauto.
    destruct (filter is_disabled l); simpl; [tauto |].
    intros [<- | []]. right. reflexivity.
Qed.

Lemma update_titles_in (updates : pydict) (t : string) :
  In t (titles (update_findings updates)) ->
  t = "Cannot determine latest update date" \/ t = "Update history not readable".
Proof.
  unfold update_findings.
  destruct (_ && _)%bool.
  - destruct (dict_get updates "updates" PNone) as [| | | | [| [] l] |];
      simpl; try tauto.
    destruct (negb _); simpl; [| tauto].
    intros [<- | []]. left. reflexivity.
  - simpl. intros [<- | []]. right. reflexivity.
Qed.

Lemma defender_titles_in (defender : pydict) (t : string) :
  In t (titles (defender_findings defender)) ->
  t = "Defender status not readable" \/ t = "Real-time protection disabled"
  \/ t = "Antivirus appears disabled".
Proof.
  rewrite defender_titles.
  destruct (negb _).
  - simpl. intros [<- | []]. tauto.
  - destruct (field_off _ "RealTimeProtectionEnabled");
      destruct (field_off _ "AntivirusEnabled"); simpl; intuition.
Qed.

Lemma titles_all (defender firewall updates : pydict) (t : string) :
  In t (titles (all_findings defender firewall updates))
  <-> In t (titles (defender_findings defender))
      \/ In t (titles (firewall_findings firewall))
      \/ In t (titles (update_findings updates)).
Proof.
  unfold all_findings, titles. rewrite !map_app, !in_app_iff. reflexivity.
Qed.

(** A title of the Defender block is found among all the findings exactly
    when the Defender block appended it; likewise for the two other blocks. *)
Lemma in_all_defender (defender firewall updates : pydict) (t : string) :
  t = "Defender status not readable" \/ t = "Real-time protection disabled"
  \/ t = "Antivirus appears disabled" ->
  In t (titles (all_findings defender firewall updates))
  <-> In t (titles (defender_findings defender)).
Proof.
  intros Ht. rewrite titles_all. split; [| tauto].
  intros [H | [H | H]]; [exact H | exfalso | exfalso].
  - apply firewall_titles_in in H.
    destruct Ht as [-> | [-> | ->]]; destruct H as [H | H]; discriminate H.
  - apply update_titles_in in H.
    destruct Ht as [-> | [-> | ->]]; destruct H as [H | H]; discriminate H.
Qed.

Lemma in_all_firewall (defender firewall updates : pydict) (t : string) :
  t = "Firewall status not readable" \/ t = "Firewall disabled on profiles" ->
  In t (titles (all_findings defender firewall updates))
  <-> In t (titles (firewall_findings firewall)).
Proof.
  intros Ht. rewrite titles_all. split; [| tauto].
  intros [H | [H | H]]; [exfalso | exact H | exfalso].
  - apply defender_titles_in in H.
    destruct Ht as [-> | ->]; destruct H as [H | [H | H]]; discriminate H.
  - apply update_titles_in in H.
    destruct Ht as [-> | ->]; destruct H as [H | H]; discriminate H.
Qed.

Lemma in_all_updates (defender firewall updates : pydict) (t : string) :
  t = "Cannot determine latest update date" \/ t = "Update history not readable" ->
  In t (titles (all_findings defender firewall updates))
  <-> In t (titles (update_findings updates)).
Proof.
  intros Ht. rewrite titles_all. split; [| tauto].
  intros [H | [H | H]]; [exfalso | exfalso | exact H].
  - apply defender_titles_in in H.
    destruct Ht as [-> | ->]; destruct H as [H | [H | H]]; discriminate H.
  - apply firewall_titles_in in H.
    destruct Ht as [-> | ->]; destruct H as [H | H]; discriminate H.
Qed.

(* ================================================================= *)
(** ** C2: scenario B *)

(** C2. Defender available with real-time protection false and antivirus
    true, firewall available with one profile, disabled, updates unavailable:
    the score is 45 and the findings are, in rule order, high "Real-time
    protection disabled", high "Firewall disabled on profiles", medium
    "Update history not readable". *)
Theorem scenario_B (defender firewall updates payload profile : pydict) :
  truthy (dict_get defender "available" PNone) = true ->
  dict_get defender "data" (PDict []) = PDict payload ->
  dict_lookup payload "RealTimeProtectionEnabled" = Some (PBool false) ->
  dict_lookup payload "AntivirusEnabled" = Some (PBool true) ->
  truthy (dict_get firewall "available" PNone) = true ->
  dict_get firewall "profiles" (PList []) = PList [PDict profile] ->
  dict_lookup profile "Enabled" = Some (PBool false) ->
  profile_shaped (PDict profile) = true ->
  truthy (dict_get updates "available" PNone) = false ->
  score_findings defender firewall updates
  = Ok (45,
        [finding "high" "Real-time protection disabled"
                 (PStr "Enable Microsoft Defender real-time protection.");
         finding "high" "Firewall disabled on profiles"
                 (PStr ("Disabled profiles: " ++ name_of (PDict profile) ++ "."));
         finding "medium" "Update history not readable"
                 (dict_get updates "error" (PStr ""))]).
Proof.
  intros Hda Hdd Hrt Hav Hfa Hfp Hen Hps Hua.
  assert (Hfo_rt : field_off (PDict payload) "RealTimeProtectionEnabled" = true).
  { apply field_off_spec. exists (PBool false). split; [exact Hrt | reflexivity]. }
  assert (Hfo_av : field_off (PDict payload) "AntivirusEnabled" = false).
  { destruct (field_off (PDict payload) "AntivirusEnabled") eqn:E;
      [| reflexivity].
    apply field_off_spec in E. destruct E as (v & Hv & Ht).
    rewrite Hav in Hv. injection Hv as <-. discriminate Ht. }
  assert (Hdis : is_disabled (PDict profile) = true).
  { unfold is_disabled, dict_get. rewrite Hen. reflexivity. }
  assert (Hall : all_findings defender firewall updates
                 = [finding "high" "Real-time protection disabled"
                      (PStr "Enable Microsoft Defender real-time protection.");
                    finding "high" "Firewall disabled on profiles"
                      (PStr ("Disabled profiles: "
                               ++ name_of (PDict profile) ++ "."));
                    finding "medium" "Update history not readable"
                      (dict_get updates "error" (PStr ""))]).
  { unfold all_findings, defender_findings, firewall_findings, update_findings.
    rewrite Hda, Hdd, Hfo_rt, Hfo_av, Hfa, Hfp, Hua.
    cbn [negb filter andb app map join]. rewrite Hdis. reflexivity. }
  rewrite score_findings_shaped.
  - rewrite Hall. reflexivity.
  - unfold evidence_shaped, defender_shaped, firewall_shaped, updates_shaped.
    rewrite Hda, Hdd, Hfa, Hfp, Hua. cbn [forallb]. rewrite Hps. reflexivity.
Qed.

Lemma scenario_B_witness :
  score_findings scenario_B_defender scenario_B_firewall scenario_B_updates
  = Ok (45,
        [finding "high" "Real-time protection disabled"
                 (PStr "Enable Microsoft Defender real-time protection.");
         finding "high" "Firewall disabled on profiles"
                 (PStr "Disabled profiles: Public.");
         finding "medium" "Update history not readable"
                 (PStr "Update history unavailable.")]).
Proof.
  apply (scenario_B scenario_B_defender scenario_B_firewall scenario_B_updates
           [("RealTimeProtectionEnabled", PBool false);
            ("AntivirusEnabled", PBool true)]
           [("Name", PStr "Public"); ("Enabled", PBool false)]);
    reflexivity.
Defined.

(* ================================================================= *)
(** ** C3: rules 2 and 3 *)

(** The test of lines 126 and 129 is Python truthiness: with the field
    present and [null] (neither absent nor [false]) rule 2 fires and takes 25
    points. *)
Lemma rule_2_fires_on_null :
  ~ (forall payload score findings,
        score_findings (available_defender payload) all_enabled_firewall
                       dated_updates = Ok (score, findings) ->
        In "Real-time protection disabled" (titles findings) ->
        dict_lookup payload "RealTimeProtectionEnabled" = Some (PBool false)).
Proof.
  intros H.
  specialize (H [("RealTimeProtectionEnabled", PNone);
                 ("AntivirusEnabled", PBool true)]
                75
                [finding "high" "Real-time protection disabled"
                   (PStr "Enable Microsoft Defender real-time protection.")]
                eq_refl (or_introl eq_refl)).
  discriminate H.
Qed.

(** Rules 2 and 3 as the code runs them, for an available Defender section
    whose payload is a dict: rule 2 (rule 3) fires exactly when the field is
    present with a falsy value, which is [false], but also [null], [0] or an
    empty string, list or dict. When the field is absent the rule appends no
    finding, and the score is 100 less the points of the findings that were
    appended, so no points are taken either. *)
Theorem defender_rules_fail_open
        (defender firewall updates payload : pydict)
        (score : Z) (findings : list pyval) :
  score_findings defender firewall updates = Ok (score, findings) ->
  truthy (dict_get defender "available" PNone) = true ->
  dict_get defender "data" (PDict []) = PDict payload ->
  (In "Real-time protection disabled" (titles findings)
   <-> exists v, dict_lookup payload "RealTimeProtectionEnabled" = Some v
                 /\ truthy v = false)
  /\ (In "Antivirus appears disabled" (titles findings)
      <-> exists v, dict_lookup payload "AntivirusEnabled" = Some v
                    /\ truthy v = false)
  /\ (dict_lookup payload "RealTimeProtectionEnabled" = None ->
      ~ In "Real-time protection disabled" (titles findings))
  /\ (dict_lookup payload "AntivirusEnabled" = None ->
      ~ In "Antivirus appears disabled" (titles findings))
  /\ score = 100 - points (titles findings).
Proof.
  intros H Ha Hd.
  pose proof (score_findings_at_least_20 _ _ _ _ _ H) as [_ Hscore].
  apply score_findings_Ok in H. destruct H as (-> & _ & _ & _).
  assert (Hrt : In "Real-time protection disabled"
                   (titles (all_findings defender firewall updates))
                <-> exists v, dict_lookup payload "RealTimeProtectionEnabled"
                              = Some v /\ truthy v = false).
  { rewrite in_all_defender by tauto.
    rewrite defender_titles, Ha, Hd, <- field_off_spec. cbn [negb].
    destruct (field_off (PDict payload) "RealTimeProtectionEnabled");
      destruct (field_off (PDict payload) "AntivirusEnabled"); simpl;
      intuition discriminate. }
  assert (Hav : In "Antivirus appears disabled"
                   (titles (all_findings defender firewall updates))
                <-> exists v, dict_lookup payload "AntivirusEnabled"
                              = Some v /\ truthy v = false).
  { rewrite in_all_defender by tauto.
    rewrite defender_titles, Ha, Hd, <- field_off_spec. cbn [negb].
    destruct (field_off (PDict payload) "RealTimeProtectionEnabled");
      destruct (field_off (PDict payload) "AntivirusEnabled"); simpl;
      intuition discriminate. }
  repeat split; try apply Hrt; try apply Hav; try exact Hscore.
  - intros Hn Hin. apply Hrt in Hin. destruct Hin as (v & Hv & _).
    rewrite Hn in Hv. discriminate Hv.
  - intros Hn Hin. apply Hav in Hin. destruct Hin as (v & Hv & _).
    rewrite Hn in Hv. discriminate Hv.
Qed.

Lemma defender_rules_fail_open_witness :
  In "Real-time protection disabled"
     (titles [finding "high" "Real-time protection disabled"
                (PStr "Enable Microsoft Defender real-time protection.")])
  /\ ~ In "Antivirus appears disabled"
          (titles [finding "high" "Real-time protection disabled"
                     (PStr "Enable Microsoft Defender real-time protection.")])
  /\ 75 = 100 - points (titles [finding "high" "Real-time protection disabled"
                                  (PStr "Enable Microsoft Defender real-time protection.")]).
Proof.
  pose proof (defender_rules_fail_open
                (available_defender [("RealTimeProtectionEnabled", PNone)])
                all_enabled_firewall dated_updates
                [("RealTimeProtectionEnabled", PNone)] 75
                [finding "high" "Real-time protection disabled"
                   (PStr "Enable Microsoft Defender real-time protection.")]
                eq_refl eq_refl eq_refl) as (Hrt & _ & _ & Hav & Hscore).
  split; [| split; [apply Hav; reflexivity | exact Hscore]].
  apply Hrt. exists PNone. split; reflexivity.
Defined.

(** C3. Rules 2 and 3 are to fire only for a field that is present and
    explicitly false. The code keeps that for a field that is absent, which
    costs nothing, and breaks it for a field that is present and [null]: the
    [True] default of [d.get] is never used then, [not None] is true, rule 2
    fires and the score is 75 with the finding "Real-time protection
    disabled". Rule 5 does not read a [null] that way: a profile whose
    [Enabled] is [null] is not disabled, and the run scores 100. *)
Theorem rule_2_null_field_costs_25 :
  score_findings (available_defender null_flag_payload) all_enabled_firewall
                 dated_updates
  = Ok (75, [finding "high" "Real-time protection disabled"
                     (PStr "Enable Microsoft Defender real-time protection.")])
  /\ score_findings (available_defender absent_flag_payload)
                    all_enabled_firewall dated_updates
     = Ok (100, [])
  /\ score_findings (available_defender absent_flag_payload)
                    null_enabled_firewall dated_updates
     = Ok (100, []).
Proof. repeat split. Qed.

(* ================================================================= *)
(** ** C4: rules 6 and 7 *)

(** C4. The findings of a run never hold both "Cannot determine latest
    update date" and "Update history not readable". Rule 7 fires exactly
    when the updates are unavailable or the list is empty (10 points); rule 6
    exactly when they are available, the list is not empty and the newest
    entry has no [InstalledOn] or a falsy one (5 points). *)
Theorem update_rules_exclusive
        (defender firewall updates : pydict)
        (score : Z) (findings : list pyval) :
  score_findings defender firewall updates = Ok (score, findings) ->
  ~ (In "Cannot determine latest update date" (titles findings)
     /\ In "Update history not readable" (titles findings))
  /\ (In "Update history not readable" (titles findings)
      <-> truthy (dict_get updates "available" PNone) = false
          \/ truthy (dict_get updates "updates" PNone) = false)
  /\ (In "Cannot determine latest update date" (titles findings)
      <-> truthy (dict_get updates "available" PNone) = true
          /\ exists newest rest,
               dict_get updates "updates" PNone = PList (PDict newest :: rest)
               /\ truthy (dict_get newest "InstalledOn" PNone) = false)
  /\ rule_points "Cannot determine latest update date" = 5
  /\ rule_points "Update history not readable" = 10
  /\ score = 100 - points (titles findings).
Proof.
  intros H.
  pose proof (score_findings_at_least_20 _ _ _ _ _ H) as [_ Hscore].
  apply score_findings_Ok in H. destruct H as (-> & _ & _ & Hu).
  rewrite !in_all_updates by tauto.
  unfold updates_shaped in Hu. unfold update_findings.
  refine (conj _ (conj _ (conj _ (conj eq_refl (conj eq_refl Hscore))))).
  - (* never both *)
    destruct (_ && _)%bool.
    + destruct (dict_get updates "updates" PNone) as [| | | | [| [] l] |];
        try (intros [[] _]).
      destruct (negb _); [| intros [[] _]].
      intros [_ [E | []]]. discriminate E.
    + intros [[E | []] _]. discriminate E.
  - (* rule 7 *)
    destruct (truthy (dict_get updates "available" PNone)) eqn:Ha;
      destruct (truthy (dict_get updates "updates" PNone)) eqn:Ht;
      cbn [andb] in *.
    + destruct (dict_get updates "updates" PNone) as [| | | | [| [] l] |];
        try discriminate Hu.
      destruct (negb _); simpl; intuition discriminate.
    + simpl. intuition.
    + simpl. intuition.
    + simpl. intuition.
  - (* rule 6 *)
    destruct (truthy (dict_get updates "available" PNone)) eqn:Ha;
      destruct (truthy (dict_get updates "updates" PNone)) eqn:Ht;
      cbn [andb] in *.
    + destruct (dict_get updates "updates" PNone) as [| | | | [| [] l] |];
        try discriminate Hu.
      destruct (truthy (dict_get d "InstalledOn" PNone)) eqn:Hn; simpl.
      * split; [intros [] |].
        intros (_ & newest & rest & E & Hf). injection E as <- <-.
        rewrite Hn in Hf. discriminate Hf.
      * split; [| intros _; left; reflexivity].
        intros _. split; [reflexivity |].
        exists d, l. split; [reflexivity | exact Hn].
    + simpl. split.
      * intros [E | []]. discriminate E.
      * intros (_ & newest & rest & E & _). rewrite E in Ht. discriminate Ht.
    + simpl. split.
      * intros [E | []]. discriminate E.
      * intros [E _]. discriminate E.
    + simpl. split.
      * intros [E | []]. discriminate E.
      * intros [E _]. discriminate E.
Qed.

Lemma update_rules_exclusive_witness :
  ~ (In "Cannot determine latest update date"
        (titles [finding "low" "Cannot determine latest update date"
                         (PStr "InstalledOn missing for newest hotfix.")])
     /\ In "Update history not readable"
           (titles [finding "low" "Cannot determine latest update date"
                            (PStr "InstalledOn missing for newest hotfix.")])).
Proof.
  apply (update_rules_exclusive
           (available_defender [("AntivirusEnabled", PBool true)])
           all_enabled_firewall undated_updates 95
           [finding "low" "Cannot determine latest update date"
                    (PStr "InstalledOn missing for newest hotfix.")]
           eq_refl).
Defined.

(* ================================================================= *)
(** ** C5: rule 5 *)






(** The test of line 139 on the values an adapter delivers. *)
Example is_disabled_values :
  map (fun e => is_disabled (PDict [("Name", PStr "Public"); ("Enabled", e)]))
      [PBool false; PInt 0; PStr "false"; PStr "FALSE"; PStr "0";
       PBool true; PInt 1; PStr "true"; PNone; PStr ""; PInt 2]
  = [true; true; true; true; true;
     false; false; false; false; false; false]
  /\ is_disabled (PDict [("Name", PStr "Public")]) = false.
Proof. split; reflexivity. Qed.

(* ================================================================= *)
(** ** C6, C9, C10: the normalisers *)

Section Normalisers.

Variable json_loads : string -> option pyval.

Lemma str_or_spec (err fallback : string) :
  (err <> "" -> str_or err fallback = err)
  /\ (err = "" -> str_or err fallback = fallback).
Proof.
  unfold str_or. destruct (String.eqb_spec err ""); split; congruence.
Qed.

(** C6. For each of the four normalisers: exit code 0 with output that
    [json.loads] rejects gives an available section with an empty payload and
    a parse-error text that is not empty; any other exit code, the sentinels
    127 (no executable) and 124 (time-out) among them, gives an unavailable
    section whose reason is the adapter's stderr, or a fixed text when stderr
    is empty. Both are plain return values. *)
Theorem normalisers_degrade (p : proc_outcome) (code : Z) (out err : string) :
  run_powershell p = (code, out, err) ->
  (code = 0 -> out <> "" -> json_loads out = None ->
   get_defender_status json_loads p
   = [("available", PBool true); ("data", PDict []);
      ("error", PStr "Failed to parse Defender output.")]
   /\ get_firewall_profiles json_loads p
      = [("available", PBool true); ("profiles", PList []);
         ("error", PStr "Failed to parse firewall output.")]
   /\ get_recent_updates json_loads p
      = [("available", PBool true); ("updates", PList []);
         ("error", PStr "Failed to parse update output.")]
   /\ get_local_users json_loads p
      = [("available", PBool true); ("users", PList []);
         ("error", PStr "Failed to parse local user output.")])
  /\ (code <> 0 ->
      get_defender_status json_loads p
      = [("available", PBool false); ("data", PDict []);
         ("error", PStr (str_or err "Defender status unavailable."))]
      /\ get_firewall_profiles json_loads p
         = [("available", PBool false); ("profiles", PList []);
            ("error", PStr (str_or err "Firewall status unavailable."))]
      /\ get_recent_updates json_loads p
         = [("available", PBool false); ("updates", PList []);
            ("error", PStr (str_or err "Update history unavailable."))]
      /\ get_local_users json_loads p
         = [("available", PBool false); ("users", PList []);
            ("error", PStr (str_or err "Local users unavailable."))])
  /\ (forall fallback, (err <> "" -> str_or err fallback = err)
                       /\ (err = "" -> str_or err fallback = fallback))
  /\ run_powershell FileNotFound = (127, "", "PowerShell not found.")
  /\ run_powershell TimeoutExpired = (124, "", "PowerShell command timed out.").
Proof.
  intros Hrun.
  unfold get_defender_status, get_firewall_profiles, get_recent_updates,
    get_local_users.
  rewrite Hrun.
  refine (conj _ (conj _ (conj _ (conj eq_refl eq_refl)))).
  - intros -> Hout Hparse. rewrite Hparse.
    apply String.eqb_neq in Hout. rewrite Hout. cbn [Z.eqb negb andb].
    repeat split.
  - intros Hcode. apply Z.eqb_neq in Hcode. rewrite Hcode. cbn [andb].
    repeat split.
  - intros fallback. apply str_or_spec.
Qed.

(** C9. Exit code 0 with empty output is unavailable, with stderr or the
    fixed text as the reason: the available branch needs both exit code 0
    and output that is not empty. *)
Theorem empty_output_unavailable (p : proc_outcome) (err : string) :
  run_powershell p = (0, "", err) ->
  get_defender_status json_loads p
  = [("available", PBool false); ("data", PDict []);
     ("error", PStr (str_or err "Defender status unavailable."))]
  /\ get_firewall_profiles json_loads p
     = [("available", PBool false); ("profiles", PList []);
        ("error", PStr (str_or err "Firewall status unavailable."))]
  /\ get_recent_updates json_loads p
     = [("available", PBool false); ("updates", PList []);
        ("error", PStr (str_or err "Update history unavailable."))]
  /\ get_local_users json_loads p
     = [("available", PBool false); ("users", PList []);
        ("error", PStr (str_or err "Local users unavailable."))].
Proof.
  intros Hrun.
  unfold get_defender_status, get_firewall_profiles, get_recent_updates,
    get_local_users.
  rewrite Hrun. repeat split.
Qed.

(** C10. Defender output that does not parse gives an available section
    with the empty payload; the Defender block of [score_findings] then
    leaves score and findings as they are, and the run returns what it
    returns for a Defender section with all flags on. *)
Theorem unparsed_defender_scores_as_healthy
        (p : proc_outcome) (out err : string) (firewall updates : pydict) :
  run_powershell p = (0, out, err) ->
  out <> "" ->
  json_loads out = None ->
  dict_get (get_defender_status json_loads p) "available" PNone = PBool true
  /\ dict_get (get_defender_status json_loads p) "data" (PDict []) = PDict []
  /\ (forall st, defender_checks (get_defender_status json_loads p) st = Ok st)
  /\ (forall st, defender_checks healthy_defender st = Ok st)
  /\ score_findings (get_defender_status json_loads p) firewall updates
     = score_findings healthy_defender firewall updates.
Proof.
  intros Hrun Hout Hparse.
  assert (E : get_defender_status json_loads p
              = [("available", PBool true); ("data", PDict []);
                 ("error", PStr "Failed to parse Defender output.")]).
  { unfold get_defender_status. rewrite Hrun, Hparse.
    apply String.eqb_neq in Hout. rewrite Hout. reflexivity. }
  rewrite E.
  repeat split; try (intros [s fs]; reflexivity).
Qed.

End Normalisers.

Lemma normalisers_degrade_witness :
  get_defender_status sample_loads (Exited 0 "Get-MpComputerStatus : error" "")
  = [("available", PBool true); ("data", PDict []);
     ("error", PStr "Failed to parse Defender output.")]
  /\ get_recent_updates sample_loads TimeoutExpired
     = [("available", PBool false); ("updates", PList []);
        ("error", PStr "PowerShell command timed out.")].
Proof.
  split.
  - apply (normalisers_degrade sample_loads
             (Exited 0 "Get-MpComputerStatus : error" "")
             0 "Get-MpComputerStatus : error" "" eq_refl);
      [reflexivity | discriminate | reflexivity].
  - apply (normalisers_degrade sample_loads TimeoutExpired
             124 "" "PowerShell command timed out." eq_refl).
    discriminate.
Defined.

Lemma empty_output_unavailable_witness :
  get_defender_status sample_loads (Exited 0 "  " "")
  = [("available", PBool false); ("data", PDict []);
     ("error", PStr "Defender status unavailable.")]
  /\ get_firewall_profiles sample_loads (Exited 0 "" "Access denied")
     = [("available", PBool false); ("profiles", PList []);
        ("error", PStr "Access denied")].
Proof.
  split.
  - apply (empty_output_unavailable sample_loads (Exited 0 "  " "") "" eq_refl).
  - apply (empty_output_unavailable sample_loads (Exited 0 "" "Access denied")
             "Access denied" eq_refl).
Defined.

Lemma unparsed_defender_scores_as_healthy_witness :
  score_findings (get_defender_status sample_loads (Exited 0 "not json" ""))
                 all_enabled_firewall dated_updates
  = score_findings healthy_defender all_enabled_firewall dated_updates.
Proof.
  apply (unparsed_defender_scores_as_healthy sample_loads
           (Exited 0 "not json" "") "not json" ""
           all_enabled_firewall dated_updates eq_refl);
    [discriminate | reflexivity].
Defined.

(* ================================================================= *)
(** ** C8: the score label *)

(** C8. The label of the HTML page and the bucket of the PDF are the same
    function of the score: "Excellent" from 90, "Good" from 75 to 89, "Fair"
    from 60 to 74, "Needs Work" below 60. *)
Theorem score_label_bucket_agree (score : Z) :
  fst (score_bucket score) = score_label score
  /\ score_label score = spec_bucket score
  /\ (score_label score = "Excellent" <-> 90 <= score)
  /\ (score_label score = "Good" <-> 75 <= score < 90)
  /\ (score_label score = "Fair" <-> 60 <= score < 75)
  /\ (score_label score = "Needs Work" <-> score < 60).
Proof.
  unfold score_bucket, score_label, spec_bucket.
  rewrite !Z.geb_leb.
  destruct (Z.leb_spec 90 score); [| destruct (Z.leb_spec 75 score);
    [| destruct (Z.leb_spec 60 score)]]; cbn [fst andb];
    repeat match goal with
           | |- context [Z.ltb ?a ?b] => destruct (Z.ltb_spec a b); try lia
           end;
    repeat split; intros; try reflexivity; try discriminate; try lia.
Qed.

(* ================================================================= *)
(** ** Strings: escaping, substrings and guarded [<] *)

Lemma append_nil_r (s : string) : s ++ "" = s.
Proof. induction s as [| c s IH]; simpl; [| rewrite IH]; reflexivity. Qed.

Lemma append_assoc (a b c : string) : (a ++ b) ++ c = a ++ b ++ c.
Proof. induction a as [| x a IH]; simpl; [| rewrite IH]; reflexivity. Qed.

Lemma esc_str_cons (c : ascii) (s : string) :
  esc_str (String c s) = esc_char c ++ esc_str s.
Proof.
  unfold esc_str, esc_char. simpl.
  destruct (Ascii.eqb_spec c "&") as [-> | _]; simpl; [reflexivity |].
  destruct (Ascii.eqb_spec c "<") as [-> | _]; simpl; [reflexivity |].
  destruct (Ascii.eqb_spec c ">") as [-> | _]; simpl; reflexivity.
Qed.




Lemma has_char_app (c : ascii) (a b : string) :
  has_char c (a ++ b) = (has_char c a || has_char c b)%bool.
Proof.
  induction a as [| x a IH]; simpl; [reflexivity |].
  rewrite IH, orb_assoc. reflexivity.
Qed.

Lemma esc_char_plain (c : ascii) :
  has_char "<" (esc_char c) = false /\ has_char ">" (esc_char c) = false.
Proof.
  unfold esc_char.
  destruct (Ascii.eqb_spec c "&"); [split; reflexivity |].
  destruct (Ascii.eqb_spec c "<") as [| Hlt]; [split; reflexivity |].
  destruct (Ascii.eqb_spec c ">") as [| Hgt]; [split; reflexivity |].
  apply Ascii.eqb_neq in Hlt, Hgt. simpl. rewrite Hlt, Hgt. split; reflexivity.
Qed.

(** Escaped text has neither [<] nor [>]. *)
Lemma esc_str_plain (s : string) :
  has_char "<" (esc_str s) = false /\ has_char ">" (esc_str s) = false.
Proof.
  induction s as [| c s [IH1 IH2]]; [split; reflexivity |].
  rewrite esc_str_cons, !has_char_app, IH1, IH2.
  destruct (esc_char_plain c) as [-> ->]. split; reflexivity.
Qed.

Lemma lower_char_lt (c : ascii) :
  Ascii.eqb (lower_char c) "<" = Ascii.eqb c "<".
Proof. destruct c as [[] [] [] [] [] [] [] []]; reflexivity. Qed.

Lemma upper_char_lt (c : ascii) :
  Ascii.eqb (upper_char c) "<" = Ascii.eqb c "<".
Proof. destruct c as [[] [] [] [] [] [] [] []]; reflexivity. Qed.

Lemma lower_lt (s : string) : has_char "<" (lower s) = has_char "<" s.
Proof.
  unfold lower. induction s as [| c s IH]; simpl; [reflexivity |].
  rewrite lower_char_lt, IH. reflexivity.
Qed.

Lemma upper_lt (s : string) : has_char "<" (upper s) = has_char "<" s.
Proof.
  unfold upper. induction s as [| c s IH]; simpl; [reflexivity |].
  rewrite upper_char_lt, IH. reflexivity.
Qed.

Lemma uint_digits_lt (d : Decimal.uint) :
  has_char "<" (NilEmpty.string_of_uint d) = false.
Proof. induction d; simpl; assumption || reflexivity. Qed.

(** [str(n)] is a sign and digits. *)
Lemma str_of_int_lt (z : Z) : has_char "<" (str_of_int z) = false.
Proof.
  unfold str_of_int, NilZero.string_of_int, NilZero.string_of_uint.
  destruct (Z.to_int z) as [d | d]; destruct d; simpl;
    try reflexivity; apply uint_digits_lt.
Qed.

Lemma lt_guarded_plain (s : string) :
  has_char "<" s = false -> lt_guarded s = true.
Proof.
  induction s as [| c s IH]; simpl; [reflexivity |].
  intros H. apply orb_false_iff in H. destruct H as [Hc Hs].
  rewrite Hc, (IH Hs). reflexivity.
Qed.

Lemma lt_guarded_app (a b : string) :
  lt_guarded a = true -> lt_guarded b = true -> lt_guarded (a ++ b) = true.
Proof.
  intros Ha Hb. induction a as [| c a IH]; [exact Hb |].
  cbn [lt_guarded append] in *.
  apply andb_prop in Ha. destruct Ha as [Hc Ha].
  rewrite (IH Ha), andb_true_r.
  destruct (Ascii.eqb c "<"); [| reflexivity].
  destruct a as [| c1 [| c2 a]]; try discriminate Hc.
  exact Hc.
Qed.

Lemma lt_guarded_join (sep : string) (parts : list string) :
  lt_guarded sep = true ->
  (forall p, In p parts -> lt_guarded p = true) ->
  lt_guarded (join sep parts) = true.
Proof.
  intros Hsep. induction parts as [| p parts IH]; intros H; [reflexivity |].
  cbn [join]. destruct parts as [| q parts].
  - apply H. left. reflexivity.
  - apply lt_guarded_app; [apply H; left; reflexivity |].
    apply lt_guarded_app; [exact Hsep |].
    apply IH. intros x Hx. apply H. right. exact Hx.
Qed.

(** A text whose every [<] is guarded does not hold [<script>]. *)
Lemma lt_guarded_no_script (s : string) :
  lt_guarded s = true -> ~ substring "<script>" s.
Proof.
  intros H (pre & post & E). subst s.
  induction pre as [| c pre IH].
  - simpl in H. discriminate H.
  - cbn [append lt_guarded] in H. apply andb_prop in H. apply IH, H.
Qed.

Lemma substring_refl (s : string) : substring s s.
Proof. exists "", "". simpl. rewrite append_nil_r. reflexivity. Qed.


Lemma substring_app_l (p a b : string) : substring p a -> substring p (a ++ b).
Proof.
  intros (pre & post & ->). exists pre, (post ++ b).
  rewrite !append_assoc. reflexivity.
Qed.

Lemma substring_app_r (p a b : string) : substring p b -> substring p (a ++ b).
Proof.
  intros (pre & post & ->). exists (a ++ pre), post.
  rewrite !append_assoc. reflexivity.
Qed.



(* ================================================================= *)
(** ** The HTML page *)

Lemma esc_Ok (v : pyval) (s : string) :
  esc v = Ok s ->
  exists t, (if truthy v then v else PStr "") = PStr t /\ s = esc_str t.
Proof.
  unfold esc. destruct (if truthy v then v else PStr ""); try discriminate.
  intros H. injection H as <-. eexists. split; reflexivity.
Qed.

Lemma esc_plain (v : pyval) (s : string) :
  esc v = Ok s -> has_char "<" s = false /\ has_char ">" s = false.
Proof.
  intros H. apply esc_Ok in H. destruct H as (t & _ & ->).
  apply esc_str_plain.
Qed.

Lemma esc_escapable (v : pyval) :
  escapable v = true -> exists s, esc v = Ok s.
Proof.
  unfold esc, escapable.
  destruct v as [| [] | z | s | l | d]; simpl; try discriminate;
    try (intros _; eexists; reflexivity).
  - destruct (Z.eqb z 0); simpl; [| discriminate]. intros _. eexists. reflexivity.
  - destruct (String.eqb s ""); simpl; intros _; eexists; reflexivity.
  - destruct l; simpl; [| discriminate]. intros _. eexists. reflexivity.
  - destruct d; simpl; [| discriminate]. intros _. eexists. reflexivity.
Qed.

Lemma esc_text (t : string) : esc (PStr t) = Ok (esc_str t).
Proof.
  unfold esc. simpl. destruct (String.eqb_spec t "") as [-> | _]; reflexivity.
Qed.

Lemma finding_row_Ok (f : pyval) (row : string) :
  finding_row f = Ok row ->
  exists items sev title detail,
    f = PDict items
    /\ esc (dict_get items "severity" (PStr "info")) = Ok sev
    /\ esc (dict_get items "title" (PStr "")) = Ok title
    /\ esc (dict_get items "detail" (PStr "")) = Ok detail
    /\ row = row_markup (lower sev) title detail.
Proof.
  unfold finding_row. intros H.
  destruct f as [| | | | | items]; try discriminate H.
  cbn [py_get bind] in H.
  bind_split H as sev Hsev. bind_split H as title Htitle.
  bind_split H as detail Hdetail. injection H as <-.
  exists items, sev, title, detail. repeat split; assumption.
Qed.

Lemma finding_row_shaped (f : pyval) :
  finding_shaped f = true -> exists row, finding_row f = Ok row.
Proof.
  unfold finding_shaped, finding_row.
  destruct f as [| | | | | items]; try discriminate.
  intros H. apply andb_prop in H. destruct H as [H Hd].
  apply andb_prop in H. destruct H as [Hs Ht].
  destruct (esc_escapable _ Hs) as (sev & Es).
  destruct (esc_escapable _ Ht) as (title & Et).
  destruct (esc_escapable _ Hd) as (detail & Ed).
  cbn [py_get bind]. rewrite Es. cbn [bind]. rewrite Et. cbn [bind].
  rewrite Ed. cbn [bind]. eexists. reflexivity.
Qed.

Lemma row_markup_guarded (sev title detail : string) :
  has_char "<" sev = false -> has_char "<" title = false ->
  has_char "<" detail = false ->
  lt_guarded (row_markup sev title detail) = true.
Proof.
  intros Hs Ht Hd. unfold row_markup.
  repeat (apply lt_guarded_app);
    try reflexivity; apply lt_guarded_plain;
    rewrite ?upper_lt; assumption.
Qed.

Lemma mapM_In {A B : Type} (f : A -> result B) (l : list A) (rs : list B) :
  mapM f l = Ok rs ->
  (forall x, In x l -> exists r, f x = Ok r /\ In r rs)
  /\ (forall r, In r rs -> exists x, In x l /\ f x = Ok r).
Proof.
  revert rs. induction l as [| y l IH]; intros rs H; simpl in H.
  - injection H as <-. split; intros ? [].
  - bind_split H as r0 Hr0. bind_split H as rs0 Hrs0. injection H as <-.
    destruct (IH _ Hrs0) as [IH1 IH2]. split.
    + intros x [-> | Hx].
      * exists r0. split; [exact Hr0 | left; reflexivity].
      * destruct (IH1 x Hx) as (r & Hr & Hin). exists r.
        split; [exact Hr | right; exact Hin].
    + intros r [<- | Hr].
      * exists y. split; [left; reflexivity | exact Hr0].
      * destruct (IH2 r Hr) as (x & Hx & Hfx). exists x.
        split; [right; exact Hx | exact Hfx].
Qed.

Lemma mapM_total {A B : Type} (f : A -> result B) (l : list A) :
  (forall x, In x l -> exists r, f x = Ok r) -> exists rs, mapM f l = Ok rs.
Proof.
  induction l as [| y l IH]; intros H; simpl.
  - eexists. reflexivity.
  - destruct (H y (or_introl eq_refl)) as (r & ->).
    destruct IH as (rs & ->); [intros x Hx; apply H; right; exact Hx |].
    eexists. reflexivity.
Qed.

Lemma findings_rows_guarded (findings : pyval) (rows : string) :
  findings_rows findings = Ok rows -> lt_guarded rows = true.
Proof.
  unfold findings_rows. destruct (negb (truthy findings)).
  - intros H. injection H as <-. reflexivity.
  - intros H. bind_split H as fs Hfs. bind_split H as rs Hrs.
    injection H as <-.
    apply lt_guarded_join; [reflexivity |].
    intros row Hrow. apply (mapM_In _ _ _ Hrs) in Hrow.
    destruct Hrow as (f & _ & Hf). apply finding_row_Ok in Hf.
    destruct Hf as (items & sev & title & detail & _ & Hs & Ht & Hd & ->).
    apply row_markup_guarded.
    + rewrite lower_lt. apply (esc_plain _ _ Hs).
    + apply (esc_plain _ _ Ht).
    + apply (esc_plain _ _ Hd).
Qed.


Lemma pages_guarded :
  lt_guarded page_0 = true /\ lt_guarded page_1 = true
  /\ lt_guarded page_2 = true /\ lt_guarded page_3 = true
  /\ lt_guarded page_4 = true /\ lt_guarded page_5 = true
  /\ lt_guarded page_6 = true /\ lt_guarded page_7 = true
  /\ lt_guarded page_8 = true /\ lt_guarded page_9 = true
  /\ lt_guarded page_10 = true /\ lt_guarded page_11 = true
  /\ lt_guarded page_12 = true.
Proof. vm_compute. repeat split. Qed.

Lemma html_page_guarded
      (title_host host os generated cls score label defender firewall
       updates_count uptime rows : string) :
  lt_guarded title_host = true -> lt_guarded host = true ->
  lt_guarded os = true -> lt_guarded generated = true ->
  lt_guarded cls = true -> lt_guarded score = true ->
  lt_guarded label = true -> lt_guarded defender = true ->
  lt_guarded firewall = true -> lt_guarded updates_count = true ->
  lt_guarded uptime = true -> lt_guarded rows = true ->
  lt_guarded (html_page title_host host os generated cls score label defender
                        firewall updates_count uptime rows) = true.
Proof.
  intros. unfold html_page.
  destruct pages_guarded
    as (P0 & P1 & P2 & P3 & P4 & P5 & P6 & P7 & P8 & P9 & P10 & P11 & P12).
  do 24 (apply lt_guarded_app; [assumption |]). exact P12.
Qed.

Lemma html_page_rows
      (title_host host os generated cls score label defender firewall
       updates_count uptime rows : string) :
  substring rows
            (html_page title_host host os generated cls score label defender
                       firewall updates_count uptime rows).
Proof.
  unfold html_page.
  do 23 apply substring_app_r. apply substring_app_l, substring_refl.
Qed.

Lemma score_class_guarded (score : Z) : lt_guarded (score_class score) = true.
Proof.
  unfold score_class.
  destruct (Z.geb score 90), (Z.geb score 75), (Z.geb score 60); reflexivity.
Qed.

Lemma score_label_guarded (score : Z) : lt_guarded (score_label score) = true.
Proof.
  unfold score_label.
  destruct (Z.geb score 90), (Z.geb score 75), (Z.geb score 60); reflexivity.
Qed.

Lemma fmt_bool_guarded (v : pyval) : lt_guarded (fmt_bool v) = true.
Proof. unfold fmt_bool. destruct (truthy v); reflexivity. Qed.

Lemma uptime_text_guarded (report : pydict) :
  uptime_typed report = true ->
  lt_guarded (uptime_text (dict_get report "uptime_seconds" PNone)) = true.
Proof.
  unfold uptime_typed, uptime_text.
  destruct (dict_get report "uptime_seconds" PNone); try discriminate.
  - reflexivity.
  - intros _. apply lt_guarded_plain. apply str_of_int_lt.
Qed.

Lemma py_get_Ok (v : pyval) (k : string) (default r : pyval) :
  py_get v k default = Ok r -> exists d, v = PDict d /\ r = dict_get d k default.
Proof.
  destruct v; simpl; try discriminate.
  intros H. injection H as <-. eexists. split; reflexivity.
Qed.

Lemma dict_item_Ok (d : pydict) (k : string) (v : pyval) :
  dict_item d k = Ok v -> dict_lookup d k = Some v.
Proof.
  unfold dict_item. destruct (dict_lookup d k); [| discriminate].
  intros H. injection H as <-. reflexivity.
Qed.

(** What a page that was returned is made of. *)
Lemma render_html_Ok (report : pydict) (html : string) :
  render_html report = Ok html ->
  exists sys host os generated score d_ok f_ok n rows,
    dict_lookup report "system" = Some (PDict sys)
    /\ esc (dict_get sys "hostname" (PStr "host")) = Ok host
    /\ esc (dict_get sys "os" (PStr "")) = Ok os
    /\ esc (dict_get sys "timestamp_utc" (PStr "")) = Ok generated
    /\ py_int (dict_get report "score" (PInt 0)) = Ok score
    /\ findings_rows (dict_get report "findings" (PList [])) = Ok rows
    /\ html = html_page host host os generated (score_class score)
                (str_of_int score) (score_label score) (fmt_bool d_ok)
                (fmt_bool f_ok) (str_of_int n)
                (uptime_text (dict_get report "uptime_seconds" PNone)) rows.
Proof.
  unfold render_html. intros H.
  bind_split H as system Hsystem. apply dict_item_Ok in Hsystem.
  bind_split H as hostname Hhostname.
  apply py_get_Ok in Hhostname. destruct Hhostname as (sys & -> & ->).
  bind_split H as score Hscore.
  bind_split H as d_ok Hd. bind_split H as f_ok Hf.
  bind_split H as ups Hups. bind_split H as n Hn.
  bind_split H as rows Hrows.
  bind_split H as title_host Hth. bind_split H as host Hhost.
  bind_split H as osv Hosv. cbn [py_get] in Hosv. injection Hosv as <-.
  bind_split H as os Hos.
  bind_split H as tsv Htsv. cbn [py_get] in Htsv. injection Htsv as <-.
  bind_split H as generated Hgen.
  injection H as <-.
  assert (title_host = host) as -> by congruence.
  exists sys, host, os, generated, score, d_ok, f_ok, n, rows.
  repeat split; assumption.
Qed.

Lemma render_html_shaped (report : pydict) :
  report_shaped report = true -> exists html, render_html report = Ok html.
Proof.
  unfold report_shaped, render_html, dict_item. intros H.
  repeat (apply andb_prop in H; let H' := fresh "H" in destruct H as [H H']).
  destruct (dict_lookup report "system") as [[| | | | | sys] |];
    try discriminate H.
  repeat (apply andb_prop in H; let H' := fresh "H" in destruct H as [H H']).
  cbn [bind py_get].
  destruct (dict_get report "score" (PInt 0)); try discriminate.
  cbn [py_int bind].
  destruct (dict_get report "defender" (PDict [])); try discriminate.
  destruct (dict_get report "firewall" (PDict [])); try discriminate.
  destruct (dict_get report "updates" (PDict [])) as [| | | | | ups];
    try discriminate.
  cbn [py_get bind].
  assert (Hlen : exists n,
             py_len (if truthy (dict_get ups "updates" (PList []))
                     then dict_get ups "updates" (PList []) else PList [])
             = Ok n).
  { destruct (dict_get ups "updates" (PList [])) as [| [] | k | s | l | d'];
      simpl in *; try discriminate; try (eexists; reflexivity).
    - destruct (Z.eqb k 0); simpl in *; [eexists; reflexivity | discriminate].
    - destruct (negb _); eexists; reflexivity.
    - destruct l; eexists; reflexivity.
    - destruct d'; eexists; reflexivity. }
  destruct Hlen as (n & ->). cbn [bind].
  assert (Hrows : exists rows,
             findings_rows (dict_get report "findings" (PList [])) = Ok rows).
  { unfold findings_rows.
    destruct (dict_get report "findings" (PList [])) as [| | | | fs |];
      try discriminate.
    destruct (negb (truthy (PList fs))); [eexists; reflexivity |].
    cbn [py_iter bind].
    destruct (mapM_total finding_row fs) as (rs & ->).
    - intros f Hf. apply finding_row_shaped.
      match goal with
      | Hall : forallb finding_shaped fs = true |- _ =>
          rewrite forallb_forall in Hall; apply Hall; exact Hf
      end.
    - eexists. reflexivity. }
  destruct Hrows as (rows & ->). cbn [bind].
  destruct (esc_escapable _ H) as (host & ->). cbn [bind].
  match goal with
  | Hos : escapable (dict_get sys "os" (PStr "")) = true |- _ =>
      destruct (esc_escapable _ Hos) as (os & ->)
  end.
  cbn [bind].
  match goal with
  | Hts : escapable (dict_get sys "timestamp_utc" (PStr "")) = true |- _ =>
      destruct (esc_escapable _ Hts) as (ts & ->)
  end.
  cbn [bind]. eexists. reflexivity.
Qed.


Lemma html_page_uptime
      (title_host host os generated cls score label defender firewall
       updates_count uptime rows : string) :
  substring uptime
            (html_page title_host host os generated cls score label defender
                       firewall updates_count uptime rows).
Proof.
  unfold html_page.
  do 21 apply substring_app_r. apply substring_app_l, substring_refl.
Qed.


(* ================================================================= *)
(** ** C7: escaping in the HTML page *)



(** The uptime is the one value of the report that reaches the page
    unescaped: a report whose [uptime_seconds] is a text, which
    [get_uptime_seconds] never returns, gets that text as it is. *)
Example uptime_is_not_escaped :
  exists html,
    render_html [("system", PDict [("hostname", PStr "LAB-01")]);
                 ("uptime_seconds", PStr "<script>")] = Ok html
    /\ substring "<script>" html.
Proof.
  eexists. split; [reflexivity |]. apply html_page_uptime.
Qed.

(* ================================================================= *)
(** ** More on [score_findings]: when it returns, and what it returns *)

Lemma finding_title_finding (sev title : string) (detail : pyval) :
  finding_title (finding sev title detail) = title.
Proof. reflexivity. Qed.

Lemma names_accepted (disabled : list pyval) :
  forallb name_is_str disabled = true ->
  exists items names,
    mapM profile_name disabled = Ok items /\ py_join ", " items = Ok names.
Proof.
  intros H.
  exists (map (fun p => PStr (name_of p)) disabled),
    (join ", " (map name_of disabled)).
  split.
  - apply mapM_Ok_map. intros p Hp.
    rewrite forallb_forall in H. specialize (H p Hp).
    destruct p as [| | | | | items]; simpl in *; try discriminate.
    destruct (dict_get items "Name" (PStr "Unknown")); try discriminate.
    reflexivity.
  - unfold py_join.
    rewrite (mapM_Ok_map expect_str (fun v => py_str v)).
    + simpl. rewrite map_map. reflexivity.
    + intros v Hv. apply in_map_iff in Hv. destruct Hv as (p & <- & _).
      reflexivity.
Qed.

Lemma firewall_checks_accepted (firewall : pydict) (st : state) :
  firewall_accepted firewall = true ->
  exists st', firewall_checks firewall st = Ok st'.
Proof.
  unfold firewall_accepted, firewall_checks.
  destruct (truthy (dict_get firewall "available" PNone)); cbn [negb orb].
  - destruct (py_iter (dict_get firewall "profiles" (PList []))) as [ps | e];
      [| discriminate].
    intros H. apply andb_prop in H. destruct H as [Hd Hn].
    cbn [bind]. rewrite (filterM_profiles_dicts _ Hd). cbn [bind].
    destruct (filter is_disabled ps) as [| p dis] eqn:E;
      [eexists; reflexivity |].
    destruct (names_accepted _ Hn) as (items & names & -> & Hj).
    cbn [bind]. rewrite Hj. cbn [bind]. eexists. reflexivity.
  - intros _. eexists. reflexivity.
Qed.

Lemma names_Ok_str (disabled items : list pyval) (parts : list string) :
  mapM profile_name disabled = Ok items ->
  mapM expect_str items = Ok parts ->
  forallb name_is_str disabled = true.
Proof.
  revert items parts.
  induction disabled as [| p ps IH]; intros items parts Hm Hp; [reflexivity |].
  simpl in Hm. bind_split Hm as v Hv. bind_split Hm as vs Hvs.
  injection Hm as <-.
  simpl in Hp. bind_split Hp as s Hs. bind_split Hp as ss Hss.
  cbn [forallb]. rewrite (IH _ _ Hvs Hss), andb_true_r.
  destruct p as [| | | | | d]; simpl in Hv; try discriminate Hv.
  injection Hv as <-. simpl.
  destruct (dict_get d "Name" (PStr "Unknown")); simpl in Hs;
    try discriminate Hs.
  reflexivity.
Qed.

Lemma firewall_checks_Ok_accepted (firewall : pydict) (st st' : state) :
  firewall_checks firewall st = Ok st' -> firewall_accepted firewall = true.
Proof.
  unfold firewall_accepted, firewall_checks.
  destruct (truthy (dict_get firewall "available" PNone)); cbn [negb orb];
    [| reflexivity].
  intros H. bind_split H as ps Hps. rewrite Hps.
  bind_split H as disabled Hdis.
  apply filterM_profiles_Ok in Hdis. destruct Hdis as [Hd ->].
  rewrite Hd. cbn [andb].
  destruct (filter is_disabled ps) as [| p dis] eqn:E; [reflexivity |].
  bind_split H as items Hitems. bind_split H as names Hnames.
  unfold py_join in Hnames. bind_split Hnames as parts Hparts.
  apply (names_Ok_str _ _ _ Hitems Hparts).
Qed.

(** X1. [score_findings] returns exactly when the three sections have the
    shape its blocks rely on: Defender unavailable or its payload falsy or a
    dict; firewall unavailable or its profiles an iterable of dicts in which
    every disabled one has a [str] name or none; updates unavailable or empty
    or a list headed by a dict. On any other evidence it raises. *)
Theorem score_findings_returns_iff (defender firewall updates : pydict) :
  (exists score findings,
      score_findings defender firewall updates = Ok (score, findings))
  <-> defender_shaped defender = true
      /\ firewall_accepted firewall = true
      /\ updates_shaped updates = true.
Proof.
  split.
  - intros (score & findings & H). unfold score_findings in H.
    bind_split H as st1 H1. bind_split H as st2 H2. bind_split H as st3 H3.
    repeat split.
    + apply (defender_checks_Ok _ _ _ H1).
    + apply (firewall_checks_Ok_accepted _ _ _ H2).
    + apply (update_checks_Ok _ _ _ H3).
  - intros (Hd & Hf & Hu). unfold score_findings.
    rewrite (defender_checks_shaped _ _ Hd). cbn [bind].
    destruct (firewall_checks_accepted firewall
                (appended (defender_findings defender) (100, [])) Hf)
      as (st2 & ->).
    cbn [bind]. rewrite (update_checks_shaped _ _ Hu). cbn [bind].
    eexists. eexists. reflexivity.
Qed.

Lemma titles_app (fs1 fs2 : list pyval) :
  titles (fs1 ++ fs2) = (titles fs1 ++ titles fs2)%list.
Proof. apply map_app. Qed.

(** The findings a section can append, as lists of titles. *)
Lemma defender_titles_cases (defender : pydict) :
  In (titles (defender_findings defender))
     [["Defender status not readable"]; [];
      ["Real-time protection disabled"]; ["Antivirus appears disabled"];
      ["Real-time protection disabled"; "Antivirus appears disabled"]].
Proof.
  rewrite defender_titles. destruct (negb _); [left; reflexivity |].
  destruct (field_off _ "RealTimeProtectionEnabled");
    destruct (field_off _ "AntivirusEnabled"); simpl; tauto.
Qed.

Lemma firewall_titles_cases (firewall : pydict) :
  In (titles (firewall_findings firewall))
     [["Firewall status not readable"]; []; ["Firewall disabled on profiles"]].
Proof.
  unfold firewall_findings. destruct (negb _); [left; reflexivity |].
  destruct (dict_get firewall "profiles" (PList [])); simpl; try tauto.
  destruct (filter is_disabled l); simpl; tauto.
Qed.

Lemma update_titles_cases (updates : pydict) :
  In (titles (update_findings updates))
     [["Cannot determine latest update date"]; [];
      ["Update history not readable"]].
Proof.
  unfold update_findings. destruct (_ && _)%bool; [| simpl; tauto].
  destruct (dict_get updates "updates" PNone) as [| | | | [| [] l] |];
    simpl; try tauto.
  destruct (negb _); simpl; tauto.
Qed.

Lemma from_table_intro (n : nat) (sev title : string) (pts : Z) (detail : pyval) :
  In (n, sev, title, pts) rule_table -> from_table (finding sev title detail).
Proof. intros H. exists n, sev, title, pts, detail. split; [exact H | reflexivity]. Qed.

Lemma all_findings_from_table (defender firewall updates : pydict) (f : pyval) :
  In f (all_findings defender firewall updates) -> from_table f.
Proof.
  unfold all_findings. rewrite !in_app_iff. intros [H | [H | H]].
  - unfold defender_findings in H. destruct (negb _).
    + destruct H as [<- | []]. eapply from_table_intro. left. reflexivity.
    + apply in_app_iff in H. destruct H as [H | H].
      * destruct (field_off _ "RealTimeProtectionEnabled");
          [| destruct H].
        destruct H as [<- | []]. eapply from_table_intro.
        right. left. reflexivity.
      * destruct (field_off _ "AntivirusEnabled"); [| destruct H].
        destruct H as [<- | []]. eapply from_table_intro.
        do 2 right. left. reflexivity.
  - unfold firewall_findings in H. destruct (negb _).
    + destruct H as [<- | []]. eapply from_table_intro.
      do 3 right. left. reflexivity.
    + destruct (dict_get firewall "profiles" (PList []));
        try destruct H.
      destruct (filter is_disabled l); [destruct H |].
      destruct H as [<- | []]. eapply from_table_intro.
      do 4 right. left. reflexivity.
  - unfold update_findings in H. destruct (_ && _)%bool.
    + destruct (dict_get updates "updates" PNone) as [| | | | [| [] l] |];
        try destruct H.
      destruct (negb _); [| destruct H].
      destruct H as [<- | []]. eapply from_table_intro.
      do 5 right. left. reflexivity.
    + destruct H as [<- | []]. eapply from_table_intro.
      do 6 right. left. reflexivity.
Qed.

(** X2. The findings of a run are at most four, each built from a row of
    the rule table (severity and title fixed by the rule), and their rule
    numbers increase along the list: rule order, and no rule twice. *)
Theorem findings_follow_rule_table
        (defender firewall updates : pydict)
        (score : Z) (findings : list pyval) :
  score_findings defender firewall updates = Ok (score, findings) ->
  (List.length findings <= 4)%nat
  /\ (forall f, In f findings ->
        exists n sev title pts detail,
          In (n, sev, title, pts) rule_table
          /\ f = finding sev title detail
          /\ rule_number (finding_title f) = n
          /\ rule_points (finding_title f) = pts)
  /\ increasing (map rule_number (titles findings)) = true.
Proof.
  intros H. apply score_findings_Ok in H. destruct H as (-> & _ & _ & _).
  split; [| split].
  - rewrite <- (length_map finding_title). fold (titles (all_findings defender firewall updates)).
    unfold all_findings. rewrite !titles_app, !length_app.
    pose proof (defender_titles_cases defender) as Hd.
    pose proof (firewall_titles_cases firewall) as Hf.
    pose proof (update_titles_cases updates) as Hu.
    simpl in Hd, Hf, Hu.
    repeat match goal with
           | H : _ \/ _ |- _ => destruct H as [H | H]
           | H : False |- _ => destruct H
           | H : _ = titles _ |- _ => rewrite <- H; clear H
           end; simpl; lia.
  - intros f Hf. apply all_findings_from_table in Hf.
    destruct Hf as (n & sev & title & pts & detail & Hin & ->).
    exists n, sev, title, pts, detail.
    rewrite finding_title_finding.
    split; [exact Hin |]. split; [reflexivity |].
    simpl in Hin.
    repeat match goal with
           | H : _ \/ _ |- _ => destruct H as [H | H]
           | H : False |- _ => destruct H
           | H : (_, _, _, _) = (_, _, _, _) |- _ => injection H as <- <- <- <-
           end; split; reflexivity.
  - unfold all_findings. rewrite !titles_app.
    pose proof (defender_titles_cases defender) as Hd.
    pose proof (firewall_titles_cases firewall) as Hf.
    pose proof (update_titles_cases updates) as Hu.
    simpl in Hd, Hf, Hu.
    repeat match goal with
           | H : _ \/ _ |- _ => destruct H as [H | H]
           | H : False |- _ => destruct H
           | H : _ = titles _ |- _ => rewrite <- H; clear H
           end; reflexivity.
Qed.

Lemma findings_follow_rule_table_witness :
  (List.length [finding "low" "Cannot determine latest update date"
                        (PStr "InstalledOn missing for newest hotfix.")] <= 4)%nat.
Proof.
  apply (findings_follow_rule_table
           (available_defender [("AntivirusEnabled", PBool true)])
           all_enabled_firewall undated_updates 95
           [finding "low" "Cannot determine latest update date"
                    (PStr "InstalledOn missing for newest hotfix.")]
           eq_refl).
Defined.

Lemma titles_nil (fs : list pyval) : titles fs = [] <-> fs = [].
Proof.
  unfold titles. destruct fs; simpl; split; congruence.
Qed.

(** X3. The score of a run is 100 less the points of its findings, a
    multiple of 5 between 20 and 100 that the clamp of line 155 never
    changes, and it is 100 exactly when there is no finding. *)
Theorem score_is_100_minus_points
        (defender firewall updates : pydict)
        (score : Z) (findings : list pyval) :
  score_findings defender firewall updates = Ok (score, findings) ->
  score = 100 - points (titles findings)
  /\ 20 <= score <= 100
  /\ (score = 100 <-> findings = [])
  /\ exists k, score = 5 * k.
Proof.
  intros H.
  destruct (score_findings_at_least_20 _ _ _ _ _ H) as [Hrange Hscore].
  apply score_findings_Ok in H. destruct H as (-> & _ & _ & _).
  split; [exact Hscore |]. split; [exact Hrange |].
  rewrite <- titles_nil. subst score.
  unfold all_findings. rewrite !titles_app.
  pose proof (defender_titles_cases defender) as Hd.
  pose proof (firewall_titles_cases firewall) as Hf.
  pose proof (update_titles_cases updates) as Hu.
  simpl in Hd, Hf, Hu.
  repeat match goal with
         | H : _ \/ _ |- _ => destruct H as [H | H]
         | H : False |- _ => destruct H
         | H : _ = titles _ |- _ => rewrite <- H; clear H
         end;
    (split;
     [ vm_compute; split; intros E; (reflexivity || discriminate E)
     | match goal with
       | |- exists k, ?s = 5 * k => exists (s / 5); vm_compute; reflexivity
       end ]).
Qed.

Lemma score_is_100_minus_points_witness :
  95 = 100 - points (titles [finding "low" "Cannot determine latest update date"
                               (PStr "InstalledOn missing for newest hotfix.")]).
Proof.
  apply (score_is_100_minus_points
           (available_defender [("AntivirusEnabled", PBool true)])
           all_enabled_firewall undated_updates 95
           [finding "low" "Cannot determine latest update date"
                    (PStr "InstalledOn missing for newest hotfix.")]
           eq_refl).
Defined.

(** X4. An unavailable section is read for its [error] only: two runs
    whose Defender (firewall, update) sections are both unavailable and carry
    the same error end the same way, whatever else the sections hold, a
    payload that would make an available section raise included. *)
Theorem unavailable_section_not_inspected
        (defender defender' firewall firewall' updates updates' : pydict) :
  (truthy (dict_get defender "available" PNone) = false ->
   truthy (dict_get defender' "available" PNone) = false ->
   dict_get defender "error" (PStr "") = dict_get defender' "error" (PStr "") ->
   score_findings defender firewall updates
   = score_findings defender' firewall updates)
  /\ (truthy (dict_get firewall "available" PNone) = false ->
      truthy (dict_get firewall' "available" PNone) = false ->
      dict_get firewall "error" (PStr "") = dict_get firewall' "error" (PStr "") ->
      score_findings defender firewall updates
      = score_findings defender firewall' updates)
  /\ (truthy (dict_get updates "available" PNone) = false ->
      truthy (dict_get updates' "available" PNone) = false ->
      dict_get updates "error" (PStr "") = dict_get updates' "error" (PStr "") ->
      score_findings defender firewall updates
      = score_findings defender firewall updates').
Proof.
  unfold score_findings. repeat split; intros Ha Ha' He.
  - unfold defender_checks. rewrite Ha, Ha', He. reflexivity.
  - destruct (defender_checks defender (100, [])) as [st |]; [| reflexivity].
    cbn [bind]. unfold firewall_checks. rewrite Ha, Ha', He. reflexivity.
  - destruct (defender_checks defender (100, [])) as [st |]; [| reflexivity].
    cbn [bind].
    destruct (firewall_checks firewall st) as [st2 |]; [| reflexivity].
    cbn [bind]. unfold update_checks. rewrite Ha, Ha', He. reflexivity.
Qed.

Lemma unavailable_section_not_inspected_witness :
  score_findings [("available", PBool false); ("data", PList [PInt 1]);
                  ("error", PStr "Access is denied.")]
                 all_enabled_firewall dated_updates
  = score_findings [("available", PBool false); ("data", PDict []);
                    ("error", PStr "Access is denied.")]
                   all_enabled_firewall dated_updates.
Proof.
  destruct (unavailable_section_not_inspected
              [("available", PBool false); ("data", PList [PInt 1]);
               ("error", PStr "Access is denied.")]
              [("available", PBool false); ("data", PDict []);
               ("error", PStr "Access is denied.")]
              all_enabled_firewall all_enabled_firewall
              dated_updates dated_updates) as [H _].
  apply H; reflexivity.
Defined.

(** X5. A section never gets both its "not readable" finding and one of
    its "disabled" findings: rule 1 excludes rules 2 and 3, rule 4 excludes
    rule 5. *)
Theorem unreadable_excludes_disabled
        (defender firewall updates : pydict)
        (score : Z) (findings : list pyval) :
  score_findings defender firewall updates = Ok (score, findings) ->
  (In "Defender status not readable" (titles findings) ->
   ~ In "Real-time protection disabled" (titles findings)
   /\ ~ In "Antivirus appears disabled" (titles findings))
  /\ (In "Firewall status not readable" (titles findings) ->
      ~ In "Firewall disabled on profiles" (titles findings)).
Proof.
  intros H. apply score_findings_Ok in H. destruct H as (-> & _ & _ & _).
  rewrite !in_all_defender, !in_all_firewall by tauto.
  pose proof (defender_titles_cases defender) as Hd.
  pose proof (firewall_titles_cases firewall) as Hf.
  simpl in Hd, Hf.
  repeat match goal with
         | H : _ \/ _ |- _ => destruct H as [H | H]
         | H : False |- _ => destruct H
         | H : _ = titles _ |- _ => rewrite <- H; clear H
         end; simpl; intuition discriminate.
Qed.

Lemma unreadable_excludes_disabled_witness :
  ~ In "Real-time protection disabled"
       (titles [finding "medium" "Defender status not readable"
                        (PStr "Access is denied.")])
  /\ ~ In "Antivirus appears disabled"
          (titles [finding "medium" "Defender status not readable"
                           (PStr "Access is denied.")]).
Proof.
  destruct (unreadable_excludes_disabled
              [("available", PBool false); ("data", PDict []);
               ("error", PStr "Access is denied.")]
              all_enabled_firewall dated_updates 85
              [finding "medium" "Defender status not readable"
                       (PStr "Access is denied.")]
              eq_refl) as [H _].
  apply H. left. reflexivity.
Defined.

(** X6. Healthy evidence scores 100 with no finding: Defender available
    with a dict payload whose two flags are truthy or absent, firewall
    available with dict profiles none of which is disabled, updates available
    with a list whose first entry is a dict with a truthy [InstalledOn]. *)
Theorem healthy_evidence_scores_100
        (defender firewall updates payload newest : pydict)
        (ps rest : list pyval) :
  truthy (dict_get defender "available" PNone) = true ->
  dict_get defender "data" (PDict []) = PDict payload ->
  truthy (dict_get payload "RealTimeProtectionEnabled" (PBool true)) = true ->
  truthy (dict_get payload "AntivirusEnabled" (PBool true)) = true ->
  truthy (dict_get firewall "available" PNone) = true ->
  dict_get firewall "profiles" (PList []) = PList ps ->
  forallb is_dict ps = true ->
  filter is_disabled ps = [] ->
  truthy (dict_get updates "available" PNone) = true ->
  dict_get updates "updates" PNone = PList (PDict newest :: rest) ->
  truthy (dict_get newest "InstalledOn" PNone) = true ->
  score_findings defender firewall updates = Ok (100, []).
Proof.
  intros Hda Hdd Hrt Hav Hfa Hfp Hfd Hfe Hua Huu Hun.
  assert (Hfo : forall k,
             truthy (dict_get payload k (PBool true)) = true ->
             flag_off (PDict payload) k = Ok false).
  { intros k Hk. unfold flag_off. destruct payload; [reflexivity |].
    cbn [truthy py_get bind]. rewrite Hk. reflexivity. }
  unfold score_findings, defender_checks, firewall_checks, update_checks.
  rewrite Hda, Hdd, (Hfo _ Hrt), (Hfo _ Hav). cbn [negb bind].
  rewrite Hfa, Hfp. cbn [negb py_iter bind].
  rewrite (filterM_profiles_dicts _ Hfd), Hfe. cbn [bind].
  rewrite Hua. unfold dict_item.
  assert (Hl : dict_lookup updates "updates" = Some (PList (PDict newest :: rest))).
  { unfold dict_get in Huu. destruct (dict_lookup updates "updates");
      [congruence | discriminate]. }
  rewrite Huu, Hl. cbn [truthy andb bind py_first py_get].
  rewrite Hun. reflexivity.
Qed.

Lemma healthy_evidence_scores_100_witness :
  score_findings healthy_defender all_enabled_firewall dated_updates
  = Ok (100, []).
Proof.
  apply (healthy_evidence_scores_100
           healthy_defender all_enabled_firewall dated_updates
           [("AMServiceEnabled", PBool true); ("AntispywareEnabled", PBool true);
            ("AntivirusEnabled", PBool true);
            ("RealTimeProtectionEnabled", PBool true)]
           [("HotFixID", PStr "KB5031356");
            ("Description", PStr "Security Update");
            ("InstalledOn", PStr "2023-10-11")]
           [PDict [("Name", PStr "Domain"); ("Enabled", PBool true)]] []);
    reflexivity.
Defined.

(* ================================================================= *)
(** ** [run_powershell] and the normalisers: white space, shapes *)

Lemma rstrip_empty (s : string) : rstrip s = "" <-> all_space s = true.
Proof.
  induction s as [| c s IH]; simpl; [tauto |].
  destruct (rstrip s) as [| r rs] eqn:E.
  - destruct (is_space c); simpl.
    + split; [intros _; apply IH; reflexivity | reflexivity].
    + split; discriminate.
  - split; [discriminate |].
    intros H. apply andb_prop in H. destruct H as [_ H].
    apply IH in H. discriminate H.
Qed.

Lemma rstrip_last (s : string) (c : ascii) :
  last_char (rstrip s) = Some c -> is_space c = false.
Proof.
  revert c. induction s as [| x s IH]; simpl; intros c; [discriminate |].
  destruct (rstrip s) as [| r rs] eqn:E.
  - destruct (is_space x) eqn:Hx; simpl; [discriminate |].
    intros H. injection H as <-. exact Hx.
  - intros H. apply IH. exact H.
Qed.

Lemma rstrip_first (c : ascii) (s : string) :
  is_space c = false -> first_char (rstrip (String c s)) = Some c.
Proof.
  intros Hc. simpl. destruct (rstrip s); [rewrite Hc |]; reflexivity.
Qed.

Lemma rstrip_id (s : string) :
  match last_char s with
  | Some c => is_space c = false
  | None => True
  end ->
  rstrip s = s.
Proof.
  induction s as [| x s IH]; [reflexivity |].
  cbn [last_char rstrip]. destruct s as [| y s].
  - intros Hx. simpl. rewrite Hx. reflexivity.
  - intros H. rewrite (IH H). reflexivity.
Qed.

Lemma lstrip_cases (s : string) :
  (lstrip s = "" /\ all_space s = true)
  \/ exists c t, lstrip s = String c t /\ is_space c = false
                 /\ all_space s = false.
Proof.
  induction s as [| x s IH]; simpl; [left; split; reflexivity |].
  destruct (is_space x) eqn:Hx; simpl.
  - exact IH.
  - right. exists x, s. repeat split. exact Hx.
Qed.

Lemma strip_empty (s : string) : strip s = "" <-> all_space s = true.
Proof.
  unfold strip. destruct (lstrip_cases s) as [[-> Ha] | (c & t & E & Hc & Ha)].
  - simpl. rewrite Ha. tauto.
  - rewrite E, Ha. split; [| discriminate].
    intros H. pose proof (rstrip_first c t Hc) as Hf.
    rewrite H in Hf. discriminate Hf.
Qed.

Lemma strip_trimmed (s : string) : trimmed (strip s) = true.
Proof.
  unfold strip, trimmed.
  destruct (lstrip_cases s) as [[-> _] | (c & t & -> & Hc & _)];
    [reflexivity |].
  rewrite (rstrip_first c t Hc).
  destruct (last_char (rstrip (String c t))) as [b |] eqn:E; [| reflexivity].
  rewrite Hc, (rstrip_last _ _ E). reflexivity.
Qed.

Lemma last_char_cons (c : ascii) (s : string) : last_char (String c s) <> None.
Proof.
  revert c. induction s as [| x s IH]; intros c; simpl; [discriminate |].
  apply (IH x).
Qed.

Lemma strip_id (s : string) : trimmed s = true -> strip s = s.
Proof.
  unfold trimmed, strip. destruct s as [| c s]; [reflexivity |].
  cbn [first_char].
  destruct (last_char (String c s)) as [b |] eqn:E.
  - intros H. apply andb_prop in H. destruct H as [Hc Hb].
    apply negb_true_iff in Hc, Hb.
    cbn [lstrip]. rewrite Hc. apply rstrip_id. rewrite E. exact Hb.
  - exfalso. exact (last_char_cons c s E).
Qed.

(** X7. The two texts [run_powershell] returns carry no white space at
    either end, whatever the process did, so stripping them again changes
    nothing; and the returned stdout is empty exactly when the process
    printed nothing but white space. *)
Theorem run_powershell_trims (p : proc_outcome) :
  trimmed (snd (fst (run_powershell p))) = true
  /\ trimmed (snd (run_powershell p)) = true
  /\ strip (snd (fst (run_powershell p))) = snd (fst (run_powershell p))
  /\ strip (snd (run_powershell p)) = snd (run_powershell p)
  /\ forall rc out err,
       p = Exited rc out err ->
       (snd (fst (run_powershell p)) = "" <-> all_space out = true).
Proof.
  assert (H : trimmed (snd (fst (run_powershell p))) = true
              /\ trimmed (snd (run_powershell p)) = true).
  { destruct p as [rc out err | |]; simpl.
    - split; apply strip_trimmed.
    - split; reflexivity.
    - split; reflexivity. }
  destruct H as [H1 H2].
  refine (conj H1 (conj H2 (conj (strip_id _ H1) (conj (strip_id _ H2) _)))).
  intros rc out err ->. simpl. apply strip_empty.
Qed.

Section Shapes.

Variable json_loads : string -> option pyval.

(** X8. A query that exits with 0 and prints only white space leaves its
    section unavailable, for each of the four normalisers; the reason is the
    stripped stderr, or the fixed text when that is empty. *)
Theorem blank_output_unavailable (out err : string) :
  all_space out = true ->
  get_defender_status json_loads (Exited 0 out err)
  = [("available", PBool false); ("data", PDict []);
     ("error", PStr (str_or (strip err) "Defender status unavailable."))]
  /\ get_firewall_profiles json_loads (Exited 0 out err)
     = [("available", PBool false); ("profiles", PList []);
        ("error", PStr (str_or (strip err) "Firewall status unavailable."))]
  /\ get_recent_updates json_loads (Exited 0 out err)
     = [("available", PBool false); ("updates", PList []);
        ("error", PStr (str_or (strip err) "Update history unavailable."))]
  /\ get_local_users json_loads (Exited 0 out err)
     = [("available", PBool false); ("users", PList []);
        ("error", PStr (str_or (strip err) "Local users unavailable."))].
Proof.
  intros H. apply strip_empty in H.
  unfold get_defender_status, get_firewall_profiles, get_recent_updates,
    get_local_users, run_powershell.
  rewrite H. repeat split.
Qed.

Lemma str_or_nonempty (err fallback : string) :
  fallback <> "" -> str_or err fallback <> "".
Proof.
  unfold str_or. destruct (String.eqb_spec err ""); congruence.
Qed.

(** X9. The dict each normaliser returns has three keys in a fixed order:
    [available], true exactly when the exit code is 0 and the stripped output
    is not empty; the payload; and an [error] text that is empty exactly
    when the section is available and its output parsed, the payload being
    empty whenever it is not. When the output of an available section
    parses, the Defender payload is the parsed value itself, and the payload
    of each of the three list-shaped sections (firewall, updates, users) is
    the parsed value when that is a list and the list of that one value
    otherwise; so these three payloads are always lists. *)
Theorem normalised_sections_shaped (p : proc_outcome) :
  let available :=
    (Z.eqb (code_of p) 0 && negb (String.eqb (out_of p) ""))%bool in
  let parsed :=
    match json_loads (out_of p) with
    | Some _ => true
    | None => false
    end in
  (section_shaped "data" parsed (get_defender_status json_loads p)
   /\ section_shaped "profiles" parsed (get_firewall_profiles json_loads p)
   /\ section_shaped "updates" parsed (get_recent_updates json_loads p)
   /\ section_shaped "users" parsed (get_local_users json_loads p))
  /\ (dict_get (get_defender_status json_loads p) "available" PNone
      = PBool available
      /\ dict_get (get_firewall_profiles json_loads p) "available" PNone
         = PBool available
      /\ dict_get (get_recent_updates json_loads p) "available" PNone
         = PBool available
      /\ dict_get (get_local_users json_loads p) "available" PNone
         = PBool available)
  /\ (forall v,
         available = true -> json_loads (out_of p) = Some v ->
         dict_get (get_defender_status json_loads p) "data" PNone = v
         /\ (forall l, v = PList l ->
               dict_get (get_firewall_profiles json_loads p) "profiles" PNone
               = PList l
               /\ dict_get (get_recent_updates json_loads p) "updates" PNone
                  = PList l
               /\ dict_get (get_local_users json_loads p) "users" PNone
                  = PList l)
         /\ ((forall l, v <> PList l) ->
             dict_get (get_firewall_profiles json_loads p) "profiles" PNone
             = PList [v]
             /\ dict_get (get_recent_updates json_loads p) "updates" PNone
                = PList [v]
             /\ dict_get (get_local_users json_loads p) "users" PNone
                = PList [v]))
  /\ ((exists l, dict_get (get_firewall_profiles json_loads p) "profiles" PNone
                 = PList l)
      /\ (exists l, dict_get (get_recent_updates json_loads p) "updates" PNone
                    = PList l)
      /\ (exists l, dict_get (get_local_users json_loads p) "users" PNone
                    = PList l)).
Proof.
  unfold get_defender_status, get_firewall_profiles, get_recent_updates,
    get_local_users, section_shaped, code_of, out_of.
  destruct (run_powershell p) as [[code out] err]. cbn [fst snd].
  destruct (Z.eqb code 0 && negb (String.eqb out ""))%bool;
    destruct (json_loads out) as [data |]; cbn zeta.
  - refine (conj _ (conj _ (conj _ _))).
    + repeat split;
        try (eexists _, _, _; split; [reflexivity |]; split;
             [split; [intros _; split; reflexivity | reflexivity]
             | intros [E | E]; discriminate E]).
    + repeat split.
    + intros v _ E. injection E as <-.
      split; [reflexivity |]. split.
      * intros l ->. repeat split.
      * intros Hn. destruct data; try (repeat split; fail).
        exfalso. apply (Hn l). reflexivity.
    + destruct data; repeat split; eexists; reflexivity.
  - refine (conj _ (conj _ (conj _ _))).
    + repeat split;
        try (eexists _, _, _; split; [reflexivity |]; split;
             [split; [discriminate | intros [_ E]; discriminate E]
             | intros _; tauto]).
    + repeat split.
    + intros v _ E. discriminate E.
    + repeat split; eexists; reflexivity.
  - refine (conj _ (conj _ (conj _ _))).
    + repeat split;
        try (eexists _, _, _; split; [reflexivity |]; split;
             [split; [intros E; exfalso; revert E; apply str_or_nonempty;
                      discriminate
                     | intros [E _]; discriminate E]
             | intros _; tauto]).
    + repeat split.
    + intros v E. discriminate E.
    + repeat split; eexists; reflexivity.
  - refine (conj _ (conj _ (conj _ _))).
    + repeat split;
        try (eexists _, _, _; split; [reflexivity |]; split;
             [split; [intros E; exfalso; revert E; apply str_or_nonempty;
                      discriminate
                     | intros [E _]; discriminate E]
             | intros _; tauto]).
    + repeat split.
    + intros v E. discriminate E.
    + repeat split; eexists; reflexivity.
Qed.

End Shapes.

Lemma blank_output_unavailable_witness :
  get_recent_updates sample_loads (Exited 0 "  " "")
  = [("available", PBool false); ("updates", PList []);
     ("error", PStr "Update history unavailable.")].
Proof.
  destruct (blank_output_unavailable sample_loads "  " "" eq_refl)
    as (_ & _ & H & _).
  exact H.
Defined.

(** X10. [get_bitlocker_status] reports BitLocker available exactly when
    [manage-bde] was found, exited with 0 and printed something; the raw text
    is then that output. Otherwise the error text is not empty and there is
    no raw text: the key is missing altogether when the executable was not
    found, where the dict carries [volumes] in its place. *)
Theorem bitlocker_status_cases (which : option string) (code : Z) (output : string) :
  let found := match which with
               | Some path => negb (String.eqb path "")
               | None => false
               end in
  let r := get_bitlocker_status which (code, output) in
  (found = true /\ code = 0 /\ output <> "" ->
   r = [("available", PBool true); ("raw", PStr output); ("error", PStr "")])
  /\ (truthy (dict_get r "available" PNone) = true
      <-> found = true /\ code = 0 /\ output <> "")
  /\ (truthy (dict_get r "available" PNone) = false ->
      truthy (dict_get r "error" PNone) = true
      /\ dict_get r "raw" (PStr "") = PStr "")
  /\ (found = false ->
      dict_lookup r "raw" = None /\ dict_lookup r "volumes" = Some (PList [])).
Proof.
  unfold get_bitlocker_status.
  destruct which as [path |]; simpl.
  - destruct (String.eqb_spec path "") as [-> | Hp]; simpl.
    + repeat split; try discriminate; try tauto;
        intros (E & _); discriminate E.
    + destruct (Z.eqb_spec code 0) as [-> | Hc];
        destruct (String.eqb_spec output "") as [-> | Ho]; simpl;
        repeat split; try discriminate; try tauto; try reflexivity;
        try (intros (_ & E & _); congruence);
        try (intros (_ & _ & E); congruence).
      apply negb_true_iff, String.eqb_neq, str_or_nonempty. discriminate.
  - repeat split; try discriminate; try tauto;
      intros (E & _); discriminate E.
Qed.

Lemma bitlocker_status_cases_witness :
  get_bitlocker_status (Some "C:\Windows\System32\manage-bde.exe")
                       (0, "Volume C: [OS]")
  = [("available", PBool true); ("raw", PStr "Volume C: [OS]");
     ("error", PStr "")].
Proof.
  destruct (bitlocker_status_cases (Some "C:\Windows\System32\manage-bde.exe")
                                   0 "Volume C: [OS]") as [H _].
  apply H. repeat split. discriminate.
Defined.

(* ================================================================= *)
(** ** From the normalisers to the score *)

Section Pipeline.

Variable json_loads : string -> option pyval.

Lemma run_powershell_parts (p : proc_outcome) :
  run_powershell p = (code_of p, out_of p, err_of p).
Proof.
  unfold code_of, out_of, err_of.
  destruct (run_powershell p) as [[c o] e]. reflexivity.
Qed.

Lemma failed_test (code : Z) (out : string) :
  code <> 0 \/ out = "" ->
  (Z.eqb code 0 && negb (String.eqb out ""))%bool = false.
Proof.
  intros [H | ->].
  - apply Z.eqb_neq in H. rewrite H. reflexivity.
  - rewrite andb_false_r. reflexivity.
Qed.

Lemma passed_test (code : Z) (out : string) :
  code = 0 -> out <> "" ->
  (Z.eqb code 0 && negb (String.eqb out ""))%bool = true.
Proof.
  intros -> H. apply String.eqb_neq in H. rewrite H. reflexivity.
Qed.

(** X11. When the three queries the score depends on all fail (exit code
    other than 0, or no output), the run scores 65 and reports the three "not
    readable" findings, each with the query's stderr, or the fixed text when
    stderr is empty, as its detail. *)
Theorem failing_adapters_score_65 (pd pf pu : proc_outcome) :
  code_of pd <> 0 \/ out_of pd = "" ->
  code_of pf <> 0 \/ out_of pf = "" ->
  code_of pu <> 0 \/ out_of pu = "" ->
  score_findings (get_defender_status json_loads pd)
                 (get_firewall_profiles json_loads pf)
                 (get_recent_updates json_loads pu)
  = Ok (65,
        [finding "medium" "Defender status not readable"
                 (PStr (str_or (err_of pd) "Defender status unavailable."));
         finding "medium" "Firewall status not readable"
                 (PStr (str_or (err_of pf) "Firewall status unavailable."));
         finding "medium" "Update history not readable"
                 (PStr (str_or (err_of pu) "Update history unavailable."))]).
Proof.
  intros Hd Hf Hu.
  unfold get_defender_status, get_firewall_profiles, get_recent_updates.
  rewrite (run_powershell_parts pd), (run_powershell_parts pf),
    (run_powershell_parts pu).
  rewrite (failed_test _ _ Hd), (failed_test _ _ Hf), (failed_test _ _ Hu).
  reflexivity.
Qed.

(** X12. When the three queries succeed with output that does not parse,
    the run scores 90: the Defender and firewall sections, available with an
    empty payload, cost nothing and leave no finding, and the empty update
    list costs the 10 points of "Update history not readable", with the
    parse error as its detail. *)
Theorem unparsed_output_scores_90 (pd pf pu : proc_outcome) :
  code_of pd = 0 -> out_of pd <> "" -> json_loads (out_of pd) = None ->
  code_of pf = 0 -> out_of pf <> "" -> json_loads (out_of pf) = None ->
  code_of pu = 0 -> out_of pu <> "" -> json_loads (out_of pu) = None ->
  score_findings (get_defender_status json_loads pd)
                 (get_firewall_profiles json_loads pf)
                 (get_recent_updates json_loads pu)
  = Ok (90,
        [finding "medium" "Update history not readable"
                 (PStr "Failed to parse update output.")]).
Proof.
  intros Hdc Hdo Hdp Hfc Hfo Hfp Huc Huo Hup.
  unfold get_defender_status, get_firewall_profiles, get_recent_updates.
  rewrite (run_powershell_parts pd), (run_powershell_parts pf),
    (run_powershell_parts pu).
  rewrite (passed_test _ _ Hdc Hdo), (passed_test _ _ Hfc Hfo),
    (passed_test _ _ Huc Huo), Hdp, Hfp, Hup.
  reflexivity.
Qed.

(** X13. Defender output that parses to something truthy other than a
    JSON object (an array of objects, a number, a text) makes [score_findings]
    raise [AttributeError], whatever the firewall and update sections are:
    nothing catches it between the normaliser and the score. *)
Theorem odd_defender_output_raises
        (pd : proc_outcome) (data : pyval) (firewall updates : pydict) :
  code_of pd = 0 -> out_of pd <> "" ->
  json_loads (out_of pd) = Some data ->
  payload_shaped data = false ->
  score_findings (get_defender_status json_loads pd) firewall updates
  = Raise AttributeError.
Proof.
  intros Hc Ho Hp Hs.
  unfold get_defender_status.
  rewrite (run_powershell_parts pd), (passed_test _ _ Hc Ho), Hp.
  unfold score_findings, defender_checks.
  cbn [dict_get dict_lookup String.eqb Ascii.eqb Bool.eqb truthy negb].
  unfold flag_off.
  destruct data as [| [] | z | s | l | d]; simpl in Hs; try discriminate Hs.
  - reflexivity.
  - cbn [truthy]. destruct (Z.eqb z 0); [discriminate Hs | reflexivity].
  - cbn [truthy]. destruct (String.eqb s ""); [discriminate Hs | reflexivity].
  - destruct l; [discriminate Hs | reflexivity].
Qed.

(** X14. Output of the expected form is always scored: when whatever
    parses is, for Defender, a JSON object (or a falsy value), for the
    firewall, an object or an array of objects whose [Name], if any, is a
    text, and for the updates, an object or an array whose first item is an
    object, [score_findings] returns; failed queries and output that does not
    parse are covered too. *)
Theorem expected_output_is_scored (pd pf pu : proc_outcome) :
  (forall data, json_loads (out_of pd) = Some data ->
                payload_shaped data = true) ->
  (forall data, json_loads (out_of pf) = Some data ->
                exists ps, as_list data = PList ps
                           /\ forallb profile_shaped ps = true) ->
  (forall data, json_loads (out_of pu) = Some data ->
                as_list data = PList []
                \/ exists newest rest,
                     as_list data = PList (PDict newest :: rest)) ->
  exists score findings,
    score_findings (get_defender_status json_loads pd)
                   (get_firewall_profiles json_loads pf)
                   (get_recent_updates json_loads pu)
    = Ok (score, findings).
Proof.
  intros Hd Hf Hu.
  rewrite score_findings_shaped; [eexists; eexists; reflexivity |].
  unfold evidence_shaped. apply andb_true_intro. split;
    [apply andb_true_intro; split |].
  - unfold defender_shaped, get_defender_status.
    rewrite (run_powershell_parts pd).
    destruct (Z.eqb (code_of pd) 0 && negb (String.eqb (out_of pd) ""))%bool;
      [| reflexivity].
    destruct (json_loads (out_of pd)) as [data |] eqn:E; [| reflexivity].
    cbn [dict_get dict_lookup String.eqb Ascii.eqb Bool.eqb truthy negb orb].
    apply Hd. reflexivity.
  - unfold firewall_shaped, get_firewall_profiles.
    rewrite (run_powershell_parts pf).
    destruct (Z.eqb (code_of pf) 0 && negb (String.eqb (out_of pf) ""))%bool;
      [| reflexivity].
    destruct (json_loads (out_of pf)) as [data |] eqn:E; [| reflexivity].
    destruct (Hf data eq_refl) as (ps & Hps & Hall).
    cbn [dict_get dict_lookup String.eqb Ascii.eqb Bool.eqb truthy negb orb].
    rewrite Hps. exact Hall.
  - unfold updates_shaped, get_recent_updates.
    rewrite (run_powershell_parts pu).
    destruct (Z.eqb (code_of pu) 0 && negb (String.eqb (out_of pu) ""))%bool;
      [| reflexivity].
    destruct (json_loads (out_of pu)) as [data |] eqn:E; [| reflexivity].
    cbn [dict_get dict_lookup String.eqb Ascii.eqb Bool.eqb truthy negb andb].
    destruct (Hu data eq_refl) as [-> | (newest & rest & ->)]; reflexivity.
Qed.

End Pipeline.

Lemma failing_adapters_score_65_witness :
  score_findings (get_defender_status sample_loads FileNotFound)
                 (get_firewall_profiles sample_loads TimeoutExpired)
                 (get_recent_updates sample_loads (Exited 1 "" ""))
  = Ok (65,
        [finding "medium" "Defender status not readable"
                 (PStr "PowerShell not found.");
         finding "medium" "Firewall status not readable"
                 (PStr "PowerShell command timed out.");
         finding "medium" "Update history not readable"
                 (PStr "Update history unavailable.")]).
Proof.
  apply (failing_adapters_score_65 sample_loads FileNotFound TimeoutExpired
           (Exited 1 "" ""));
    left; discriminate.
Defined.

Lemma unparsed_output_scores_90_witness :
  score_findings (get_defender_status sample_loads (Exited 0 "a" ""))
                 (get_firewall_profiles sample_loads (Exited 0 "b" ""))
                 (get_recent_updates sample_loads (Exited 0 "c" ""))
  = Ok (90,
        [finding "medium" "Update history not readable"
                 (PStr "Failed to parse update output.")]).
Proof.
  apply (unparsed_output_scores_90 sample_loads (Exited 0 "a" "")
           (Exited 0 "b" "") (Exited 0 "c" ""));
    reflexivity || discriminate.
Defined.

Lemma odd_defender_output_raises_witness :
  score_findings (get_defender_status array_loads (Exited 0 "[{}]" ""))
                 all_enabled_firewall dated_updates
  = Raise AttributeError.
Proof.
  apply (odd_defender_output_raises array_loads (Exited 0 "[{}]" "")
           (PList [PDict []]) all_enabled_firewall dated_updates);
    reflexivity || discriminate.
Defined.

Lemma expected_output_is_scored_witness :
  exists score findings,
    score_findings (get_defender_status sample_loads (Exited 0 "{}" ""))
                   (get_firewall_profiles sample_loads (Exited 0 "{}" ""))
                   (get_recent_updates sample_loads (Exited 0 "{}" ""))
    = Ok (score, findings).
Proof.
  apply (expected_output_is_scored sample_loads (Exited 0 "{}" "")
           (Exited 0 "{}" "") (Exited 0 "{}" "")).
  - intros data H. injection H as <-. reflexivity.
  - intros data H. injection H as <-. eexists. split; reflexivity.
  - intros data H. injection H as <-. right. eexists. eexists. reflexivity.
Defined.

(* ================================================================= *)
(** ** More on the HTML page *)

Lemma esc_char_cases (c : ascii) :
  (c = "&"%char /\ esc_char c = "&amp;")
  \/ (c = "<"%char /\ esc_char c = "&lt;")
  \/ (c = ">"%char /\ esc_char c = "&gt;")
  \/ (special c = false /\ esc_char c = String c EmptyString).
Proof.
  unfold esc_char, special.
  destruct (Ascii.eqb_spec c "&"); [tauto |].
  destruct (Ascii.eqb_spec c "<"); [tauto |].
  destruct (Ascii.eqb_spec c ">"); [tauto |].
  do 3 right. split; reflexivity.
Qed.

Lemma length_append (a b : string) :
  String.length (a ++ b) = (String.length a + String.length b)%nat.
Proof. induction a as [| c a IH]; simpl; [| rewrite IH]; reflexivity. Qed.

Lemma esc_str_length (s : string) :
  (String.length s <= String.length (esc_str s))%nat
  /\ (has_special s = true -> (String.length s < String.length (esc_str s))%nat).
Proof.
  induction s as [| c s [IH1 IH2]]; [split; [reflexivity | discriminate] |].
  rewrite esc_str_cons, length_append. cbn [String.length has_special].
  destruct (esc_char_cases c)
    as [[-> ->] | [[-> ->] | [[-> ->] | [Hc ->]]]]; cbn [String.length special];
    try (split; [lia | intros _; lia]).
  rewrite Hc. cbn [orb]. split; [lia |]. intros H. specialize (IH2 H). lia.
Qed.

Lemma esc_str_plain_id (s : string) : has_special s = false -> esc_str s = s.
Proof.
  induction s as [| c s IH]; [reflexivity |].
  cbn [has_special]. intros H. apply orb_false_iff in H. destruct H as [Hc Hs].
  rewrite esc_str_cons, (IH Hs).
  destruct (esc_char_cases c) as [[-> _] | [[-> _] | [[-> _] | [_ ->]]]];
    try discriminate Hc.
  reflexivity.
Qed.

Lemma esc_str_injective (a b : string) : esc_str a = esc_str b -> a = b.
Proof.
  revert b. induction a as [| x a IH]; intros [| y b] H.
  - reflexivity.
  - rewrite esc_str_cons in H.
    destruct (esc_char_cases y) as [[_ E] | [[_ E] | [[_ E] | [_ E]]]];
      rewrite E in H; discriminate H.
  - rewrite esc_str_cons in H.
    destruct (esc_char_cases x) as [[_ E] | [[_ E] | [[_ E] | [_ E]]]];
      rewrite E in H; discriminate H.
  - rewrite !esc_str_cons in H.
    destruct (esc_char_cases x) as [[-> Ex] | [[-> Ex] | [[-> Ex] | [Hx Ex]]]];
      destruct (esc_char_cases y) as [[-> Ey] | [[-> Ey] | [[-> Ey] | [Hy Ey]]]];
      rewrite ?Ex, ?Ey in H; cbn [append] in H;
      first
        [ discriminate H
        | injection H; intros; subst;
          first [ discriminate Hx | discriminate Hy
                | f_equal; apply IH; assumption ] ].
Qed.

(** X15. Escaping loses nothing and touches nothing else: [esc] maps
    different texts to different texts, never shortens a text, and returns a
    text as it is exactly when the text has none of [&], [<], [>]. A second
    pass is not harmless: escaped text that holds an entity changes again. *)
Theorem esc_is_faithful (a b : string) :
  (esc_str a = esc_str b -> a = b)
  /\ (String.length a <= String.length (esc_str a))%nat
  /\ (esc_str a = a <-> has_special a = false)
  /\ (has_special a = true -> esc_str (esc_str a) <> esc_str a)
  /\ esc (PStr a) = Ok (esc_str a).
Proof.
  split; [apply esc_str_injective |].
  split; [apply esc_str_length |].
  split; [| split; [| apply esc_text]].
  - split; [| apply esc_str_plain_id].
    intros E. destruct (has_special a) eqn:H; [| reflexivity].
    apply esc_str_length in H. rewrite E in H. lia.
  - intros H E. apply esc_str_injective in E.
    apply esc_str_length in H. rewrite E in H. lia.
Qed.

Lemma starts_with_app (t a b : string) : starts_with t a -> starts_with t (a ++ b).
Proof.
  intros (rest & ->). exists (rest ++ b). apply append_assoc.
Qed.

Lemma ends_with_app (t a b : string) : ends_with t b -> ends_with t (a ++ b).
Proof.
  intros (front & ->). exists (a ++ front). symmetry. apply append_assoc.
Qed.

Lemma substring_seam (a b t : string) :
  starts_with t b -> substring (a ++ t) (a ++ b).
Proof.
  intros (rest & ->). exists "", rest. simpl. symmetry. apply append_assoc.
Qed.

Lemma page_0_start : starts_with "<!doctype html>" page_0.
Proof.
  exists (String.substring 15 (String.length page_0 - 15) page_0).
  vm_compute. reflexivity.
Qed.

Lemma page_6_start : starts_with "/100</div>" page_6.
Proof.
  exists (String.substring 10 (String.length page_6 - 10) page_6).
  vm_compute. reflexivity.
Qed.

Lemma page_7_start : starts_with "</div>" page_7.
Proof.
  exists (String.substring 6 (String.length page_7 - 6) page_7).
  vm_compute. reflexivity.
Qed.

Lemma page_12_end : ends_with ("</html>" ++ nl) page_12.
Proof.
  exists (String.substring 0 (String.length page_12 - 8) page_12).
  vm_compute. reflexivity.
Qed.

Lemma html_page_frame
      (title_host host os generated cls score label defender firewall
       updates_count uptime rows : string) :
  starts_with "<!doctype html>"
              (html_page title_host host os generated cls score label defender
                         firewall updates_count uptime rows)
  /\ ends_with ("</html>" ++ nl)
               (html_page title_host host os generated cls score label
                          defender firewall updates_count uptime rows)
  /\ substring (score ++ "/100</div>")
               (html_page title_host host os generated cls score label
                          defender firewall updates_count uptime rows)
  /\ substring (label ++ "</div>")
               (html_page title_host host os generated cls score label
                          defender firewall updates_count uptime rows).
Proof.
  unfold html_page. repeat split.
  - apply starts_with_app, page_0_start.
  - do 24 apply ends_with_app. apply page_12_end.
  - do 11 apply substring_app_r.
    rewrite <- append_assoc. apply substring_app_l.
    apply substring_seam, page_6_start.
  - do 13 apply substring_app_r.
    rewrite <- append_assoc. apply substring_app_l.
    apply substring_seam, page_7_start.
Qed.

(** X16. A page that [render_html] returned begins with the doctype, ends
    with the closing [html] tag and a line feed, and shows the score it read
    from the report as [<score>/100] together with the label of that score. *)
Theorem html_page_shows_score (report : pydict) (html : string) :
  render_html report = Ok html ->
  starts_with "<!doctype html>" html
  /\ ends_with ("</html>" ++ nl) html
  /\ exists score,
       py_int (dict_get report "score" (PInt 0)) = Ok score
       /\ substring (str_of_int score ++ "/100</div>") html
       /\ substring (score_label score ++ "</div>") html.
Proof.
  intros H. apply render_html_Ok in H.
  destruct H as (sys & host & os & generated & score & d_ok & f_ok & n
                 & rows & _ & _ & _ & _ & Hscore & _ & ->).
  pose proof (html_page_frame host host os generated (score_class score)
                (str_of_int score) (score_label score) (fmt_bool d_ok)
                (fmt_bool f_ok) (str_of_int n)
                (uptime_text (dict_get report "uptime_seconds" PNone)) rows)
    as (H1 & H2 & H3 & H4).
  split; [exact H1 |]. split; [exact H2 |].
  exists score. repeat split; assumption.
Qed.

(** X17. Keys the report lacks: without [system] the page is not built,
    [render_html] raises [KeyError]; a page that was returned shows [0/100]
    and "Needs Work" when [score] is missing, [N/A] when [uptime_seconds] is
    missing or [None], and the row "No major findings detected." when
    [findings] is missing or empty. *)
Theorem html_missing_keys (report : pydict) :
  (dict_lookup report "system" = None -> render_html report = Raise KeyError)
  /\ forall html,
       render_html report = Ok html ->
       (dict_lookup report "score" = None ->
        substring "0/100</div>" html /\ substring "Needs Work</div>" html)
       /\ (dict_get report "uptime_seconds" PNone = PNone ->
           substring "N/A" html)
       /\ (truthy (dict_get report "findings" (PList [])) = false ->
           substring
             "<tr><td colspan='3' class='muted'>No major findings detected.</td></tr>"
             html).
Proof.
  split.
  - intros H. unfold render_html, dict_item. rewrite H. reflexivity.
  - intros html H. apply render_html_Ok in H.
    destruct H as (sys & host & os & generated & score & d_ok & f_ok & n
                   & rows & _ & _ & _ & _ & Hscore & Hrows & ->).
    refine (conj _ (conj _ _)).
    + intros Hs. unfold dict_get in Hscore. rewrite Hs in Hscore.
      injection Hscore as <-.
      split; apply (html_page_frame host host os generated (score_class 0)
                      (str_of_int 0) (score_label 0)).
    + intros Hu. rewrite Hu. apply html_page_uptime.
    + intros Hf. unfold findings_rows in Hrows. rewrite Hf in Hrows.
      injection Hrows as <-. apply html_page_rows.
Qed.

Lemma html_missing_keys_witness :
  render_html [("score", PInt 90); ("findings", PList [])] = Raise KeyError.
Proof.
  destruct (html_missing_keys [("score", PInt 90); ("findings", PList [])])
    as [H _].
  apply H. reflexivity.
Defined.

Lemma html_page_shows_score_witness :
  exists html,
    render_html script_report = Ok html
    /\ substring "90/100</div>" html
    /\ substring "Excellent</div>" html.
Proof.
  destruct (render_html script_report) as [html |] eqn:E;
    [| discriminate E].
  exists html. split; [reflexivity |].
  destruct (html_page_shows_score script_report html E)
    as (_ & _ & score & Hs & H1 & H2).
  injection Hs as <-. split; assumption.
Defined.

Lemma finding_row_unshaped (f : pyval) :
  finding_shaped f = false -> finding_row f = Raise AttributeError.
Proof.
  unfold finding_shaped, finding_row.
  destruct f as [| | | | | items]; try reflexivity.
  cbn [py_get bind].
  assert (He : forall v, escapable v = false -> esc v = Raise AttributeError).
  { intros v. unfold escapable, esc.
    destruct v as [| [] | z | s | l | d]; simpl; try discriminate;
      try reflexivity.
    - destruct (Z.eqb z 0); simpl; [discriminate | reflexivity].
    - destruct l; simpl; [discriminate | reflexivity].
    - destruct d; simpl; [discriminate | reflexivity]. }
  destruct (escapable (dict_get items "severity" (PStr "info"))) eqn:Hs.
  - destruct (esc_escapable _ Hs) as (sev & ->). cbn [bind].
    destruct (escapable (dict_get items "title" (PStr ""))) eqn:Ht.
    + destruct (esc_escapable _ Ht) as (title & ->). cbn [bind andb].
      intros Hd. rewrite (He _ Hd). reflexivity.
    + intros _. rewrite (He _ Ht). reflexivity.
  - intros _. rewrite (He _ Hs). reflexivity.
Qed.

Lemma mapM_raise {A B : Type} (f : A -> result B) (e : pyexn) (l : list A) :
  (forall x, In x l -> (exists r, f x = Ok r) \/ f x = Raise e) ->
  (exists x, In x l /\ f x = Raise e) ->
  mapM f l = Raise e.
Proof.
  induction l as [| y l IH]; intros Hall (x & Hin & Hx); [destruct Hin |].
  simpl. destruct (Hall y (or_introl eq_refl)) as [(r & Hr) | Hr];
    rewrite Hr; [| reflexivity].
  cbn [bind].
  destruct Hin as [Heq | Hin]; [subst y; rewrite Hx in Hr; discriminate Hr |].
  rewrite IH; [reflexivity | |].
  - intros z Hz. apply Hall. right. exact Hz.
  - exists x. split; assumption.
Qed.

(** X18. A row of the findings table is built exactly for a finding that
    is a dict whose [severity], [title] and [detail] are each a text or
    falsy; any other finding makes [render_html]'s loop raise
    [AttributeError], and one such finding in the list is enough to lose the
    whole table. *)
Theorem finding_rows_need_texts (fs : list pyval) :
  (forall f, In f fs ->
     (finding_shaped f = true -> exists row, finding_row f = Ok row)
     /\ (finding_shaped f = false -> finding_row f = Raise AttributeError))
  /\ (forallb finding_shaped fs = true ->
      exists rows, findings_rows (PList fs) = Ok rows)
  /\ (forallb finding_shaped fs = false ->
      findings_rows (PList fs) = Raise AttributeError).
Proof.
  split; [| split].
  - intros f _. split; [apply finding_row_shaped | apply finding_row_unshaped].
  - intros H. unfold findings_rows.
    destruct (negb (truthy (PList fs))); [eexists; reflexivity |].
    cbn [py_iter bind].
    destruct (mapM_total finding_row fs) as (rs & ->).
    + intros f Hf. apply finding_row_shaped.
      rewrite forallb_forall in H. apply H, Hf.
    + eexists. reflexivity.
  - intros H. unfold findings_rows.
    destruct fs as [| f0 fs']; [discriminate H |].
    cbn [truthy negb py_iter bind].
    rewrite (mapM_raise finding_row AttributeError); [reflexivity | |].
    + intros f _. destruct (finding_shaped f) eqn:E.
      * left. apply finding_row_shaped, E.
      * right. apply finding_row_unshaped, E.
    + assert (Hex : existsb (fun f => negb (finding_shaped f)) (f0 :: fs') = true).
      { clear - H. induction (f0 :: fs') as [| f l IH]; [discriminate H |].
        cbn [forallb existsb] in *.
        destruct (finding_shaped f); [apply IH, H | reflexivity]. }
      apply existsb_exists in Hex. destruct Hex as (f & Hin & Hf).
      exists f. split; [exact Hin |].
      apply finding_row_unshaped. apply negb_true_iff, Hf.
Qed.

Lemma finding_rows_need_texts_witness :
  findings_rows (PList [finding "high" "Firewall disabled on profiles" (PInt 3)])
  = Raise AttributeError.
Proof.
  destruct (finding_rows_need_texts
              [finding "high" "Firewall disabled on profiles" (PInt 3)])
    as (_ & _ & H).
  apply H. reflexivity.
Defined.

(* ================================================================= *)
(** ** A whole run: from the host's answers to the files *)

(** Every [<] of a page that was returned is guarded, once the uptime is
    [None] or an [int]. *)
Lemma render_html_guarded (report : pydict) (html : string) :
  render_html report = Ok html ->
  uptime_typed report = true ->
  lt_guarded html = true.
Proof.
  intros H Hup. apply render_html_Ok in H.
  destruct H as (sys & host & os & generated & score & d_ok & f_ok & n
                 & rows & Hsys & Hhost & Hos & Hgen & Hscore & Hrows & ->).
  apply html_page_guarded;
    try (apply lt_guarded_plain; first
           [ apply (esc_plain _ _ Hhost) | apply (esc_plain _ _ Hos)
           | apply (esc_plain _ _ Hgen) | apply str_of_int_lt ]).
  - apply score_class_guarded.
  - apply score_label_guarded.
  - apply fmt_bool_guarded.
  - apply fmt_bool_guarded.
  - apply uptime_text_guarded, Hup.
  - apply (findings_rows_guarded _ _ Hrows).
Qed.

Lemma all_findings_shaped (defender firewall updates : pydict) :
  error_is_text defender = true ->
  error_is_text firewall = true ->
  error_is_text updates = true ->
  forallb finding_shaped (all_findings defender firewall updates) = true.
Proof.
  unfold error_is_text. intros Hd Hf Hu.
  unfold all_findings. rewrite !forallb_app.
  apply andb_true_intro. split; [| apply andb_true_intro; split].
  - unfold defender_findings. destruct (negb _).
    + destruct (dict_get defender "error" (PStr "")); try discriminate Hd.
      reflexivity.
    + destruct (field_off _ "RealTimeProtectionEnabled");
        destruct (field_off _ "AntivirusEnabled"); reflexivity.
  - unfold firewall_findings. destruct (negb _).
    + destruct (dict_get firewall "error" (PStr "")); try discriminate Hf.
      reflexivity.
    + destruct (dict_get firewall "profiles" (PList [])); try reflexivity.
      destruct (filter is_disabled l); reflexivity.
  - unfold update_findings. destruct (_ && _)%bool.
    + destruct (dict_get updates "updates" PNone) as [| | | | [| [] l] |];
        try reflexivity.
      destruct (negb _); reflexivity.
    + destruct (dict_get updates "error" (PStr "")); try discriminate Hu.
      reflexivity.
Qed.

Section WholeRun.

Variable json_loads : string -> option pyval.
Variable json_dumps : pyval -> string.
Variable render_pdf : pydict -> option string.

Lemma collected_errors_are_texts (p : proc_outcome) :
  error_is_text (get_defender_status json_loads p) = true
  /\ error_is_text (get_firewall_profiles json_loads p) = true
  /\ error_is_text (get_recent_updates json_loads p) = true.
Proof.
  unfold get_defender_status, get_firewall_profiles, get_recent_updates.
  destruct (run_powershell p) as [[code out] err].
  destruct (Z.eqb code 0 && negb (String.eqb out ""))%bool;
    destruct (json_loads out); repeat split.
Qed.

Lemma collected_updates_sized (p : proc_outcome) :
  sized (dict_get (get_recent_updates json_loads p) "updates" (PList [])) = true.
Proof.
  unfold get_recent_updates.
  destruct (run_powershell p) as [[code out] err].
  destruct (Z.eqb code 0 && negb (String.eqb out ""))%bool;
    [| reflexivity].
  destruct (json_loads out) as [data |]; [| reflexivity].
  destruct data; reflexivity.
Qed.

Lemma report_of_shaped (h : host) (score : Z) (findings : list pyval) :
  score_findings (get_defender_status json_loads (defender_run h))
                 (get_firewall_profiles json_loads (firewall_run h))
                 (get_recent_updates json_loads (updates_run h))
  = Ok (score, findings) ->
  report_shaped (report_of json_loads h score findings) = true
  /\ uptime_typed (report_of json_loads h score findings) = true.
Proof.
  intros H. apply score_findings_Ok in H. destruct H as (-> & _ & _ & _).
  split.
  - unfold report_shaped, report_of, build_report.
    cbn [dict_lookup dict_get String.eqb Ascii.eqb Bool.eqb
         get_basic_system_info escapable is_dict andb].
    rewrite collected_updates_sized. cbn [andb].
    apply all_findings_shaped; apply collected_errors_are_texts.
  - unfold uptime_typed, report_of, build_report.
    cbn [dict_lookup dict_get String.eqb Ascii.eqb Bool.eqb].
    destruct (uptime h); reflexivity.
Qed.

(** X19. Whatever the queries printed, once [score_findings] has returned
    the HTML page of the run is built: [render_html] does not raise on the
    report [main] assembles, the page shows the score, and it holds no
    [<script>], the text of the queries' error output included. *)
Theorem html_of_a_run (h : host) (score : Z) (findings : list pyval) :
  score_findings (get_defender_status json_loads (defender_run h))
                 (get_firewall_profiles json_loads (firewall_run h))
                 (get_recent_updates json_loads (updates_run h))
  = Ok (score, findings) ->
  exists html,
    render_html (report_of json_loads h score findings) = Ok html
    /\ ~ substring "<script>" html
    /\ substring (str_of_int score ++ "/100</div>") html
    /\ substring (score_label score ++ "</div>") html.
Proof.
  intros H. destruct (report_of_shaped h score findings H) as [Hs Hu].
  destruct (render_html_shaped _ Hs) as (html & Hhtml).
  exists html. split; [exact Hhtml |].
  split; [apply lt_guarded_no_script, (render_html_guarded _ _ Hhtml Hu) |].
  apply render_html_Ok in Hhtml.
  destruct Hhtml as (sys & host & os & generated & score' & d_ok & f_ok & n
                     & rows & _ & _ & _ & _ & Hscore & _ & ->).
  unfold report_of, build_report in Hscore.
  cbn [dict_lookup dict_get String.eqb Ascii.eqb Bool.eqb py_int] in Hscore.
  injection Hscore as <-.
  split; apply (html_page_frame host host os generated (score_class score)
                  (str_of_int score) (score_label score)).
Qed.

Lemma html_of_run_exists (h : host) (score : Z) (findings : list pyval) :
  score_findings (get_defender_status json_loads (defender_run h))
                 (get_firewall_profiles json_loads (firewall_run h))
                 (get_recent_updates json_loads (updates_run h))
  = Ok (score, findings) ->
  exists html, render_html (report_of json_loads h score findings) = Ok html.
Proof.
  intros H. destruct (report_of_shaped h score findings H) as [Hs _].
  apply render_html_shaped, Hs.
Qed.

(** X20. A run whose scoring raises writes nothing: when the Defender
    query succeeds with output that parses to something truthy other than a
    JSON object, [main] ends with [AttributeError] before its first
    [safe_write], the evidence already collected from the other queries
    included. *)
Theorem odd_defender_output_stops_main (h : host) (data : pyval) :
  code_of (defender_run h) = 0 ->
  out_of (defender_run h) <> "" ->
  json_loads (out_of (defender_run h)) = Some data ->
  payload_shaped data = false ->
  main json_loads json_dumps render_pdf h = ([], Raised AttributeError).
Proof.
  intros Hc Ho Hp Hs.
  assert (E : score_findings
                (get_defender_status json_loads (defender_run h))
                (get_firewall_profiles json_loads (firewall_run h))
                (get_recent_updates json_loads (updates_run h))
              = Raise AttributeError).
  { unfold get_defender_status.
    rewrite (run_powershell_parts (defender_run h)), (passed_test _ _ Hc Ho), Hp.
    unfold score_findings, defender_checks.
    cbn [dict_get dict_lookup String.eqb Ascii.eqb Bool.eqb truthy negb].
    unfold flag_off.
    destruct data as [| [] | z | s | l | d]; simpl in Hs; try discriminate Hs.
    - reflexivity.
    - cbn [truthy]. destruct (Z.eqb z 0); [discriminate Hs | reflexivity].
    - cbn [truthy]. destruct (String.eqb s ""); [discriminate Hs | reflexivity].
    - destruct l; [discriminate Hs | reflexivity]. }
  unfold main. rewrite E. reflexivity.
Qed.

Lemma bitlocker_raw_text (which : option string) (status : Z * string) :
  truthy (dict_get (get_bitlocker_status which status) "available" PNone) = true ->
  expect_str (dict_get (get_bitlocker_status which status) "raw" (PStr ""))
  = Ok (snd status).
Proof.
  unfold get_bitlocker_status. destruct status as [code output].
  destruct (negb _); [discriminate |].
  destruct (Z.eqb code 0 && negb (String.eqb output ""))%bool;
    [reflexivity | discriminate].
Qed.

Lemma main_scored (h : host) (score : Z) (findings : list pyval) :
  score_findings (get_defender_status json_loads (defender_run h))
                 (get_firewall_profiles json_loads (firewall_run h))
                 (get_recent_updates json_loads (updates_run h))
  = Ok (score, findings) ->
  main json_loads json_dumps render_pdf h
  = match (if truthy (dict_get (get_bitlocker_status (bde_which h) (bde_status h))
                               "available" PNone)
           then
             text <- expect_str
                       (dict_get (get_bitlocker_status (bde_which h) (bde_status h))
                                 "raw" (PStr "")) ;;
             Ok [(["raw_logs"; "bitlocker_status.txt"], text)]
           else Ok [])
    with
    | Raise e =>
        ([(["raw_logs"; "defender.json"],
           json_dumps (PDict (get_defender_status json_loads (defender_run h))));
          (["raw_logs"; "firewall.json"],
           json_dumps (PDict (get_firewall_profiles json_loads (firewall_run h))));
          (["raw_logs"; "updates.json"],
           json_dumps (PDict (get_recent_updates json_loads (updates_run h))));
          (["raw_logs"; "local_users.json"],
           json_dumps (PDict (get_local_users json_loads (users_run h))))],
         Raised e)
    | Ok bde =>
        match render_html (report_of json_loads h score findings) with
        | Raise e =>
            (([(["raw_logs"; "defender.json"],
                json_dumps (PDict (get_defender_status json_loads (defender_run h))));
               (["raw_logs"; "firewall.json"],
                json_dumps (PDict (get_firewall_profiles json_loads (firewall_run h))));
               (["raw_logs"; "updates.json"],
                json_dumps (PDict (get_recent_updates json_loads (updates_run h))));
               (["raw_logs"; "local_users.json"],
                json_dumps (PDict (get_local_users json_loads (users_run h))))]
                ++ bde
                ++ [(["report.json"],
                     json_dumps (PDict (report_of json_loads h score findings)))])%list,
             Raised e)
        | Ok html =>
            match render_pdf (report_of json_loads h score findings) with
            | None =>
                ((([(["raw_logs"; "defender.json"],
                     json_dumps (PDict (get_defender_status json_loads (defender_run h))));
                    (["raw_logs"; "firewall.json"],
                     json_dumps (PDict (get_firewall_profiles json_loads (firewall_run h))));
                    (["raw_logs"; "updates.json"],
                     json_dumps (PDict (get_recent_updates json_loads (updates_run h))));
                    (["raw_logs"; "local_users.json"],
                     json_dumps (PDict (get_local_users json_loads (users_run h))))]
                     ++ bde
                     ++ [(["report.json"],
                          json_dumps (PDict (report_of json_loads h score findings)))])
                    ++ [(["report.html"], html)])%list,
                 PdfRaised)
            | Some pdf =>
                (((([(["raw_logs"; "defender.json"],
                      json_dumps (PDict (get_defender_status json_loads (defender_run h))));
                     (["raw_logs"; "firewall.json"],
                      json_dumps (PDict (get_firewall_profiles json_loads (firewall_run h))));
                     (["raw_logs"; "updates.json"],
                      json_dumps (PDict (get_recent_updates json_loads (updates_run h))));
                     (["raw_logs"; "local_users.json"],
                      json_dumps (PDict (get_local_users json_loads (users_run h))))]
                      ++ bde
                      ++ [(["report.json"],
                           json_dumps (PDict (report_of json_loads h score findings)))])
                     ++ [(["report.html"], html)])
                    ++ [(["report.pdf"], pdf)])%list,
                 Printed [("[+] Report written to: ", ["report.html"]);
                          ("[+] PDF written to:    ", ["report.pdf"]);
                          ("[+] JSON written to:   ", ["report.json"]);
                          ("[+] Evidence in:       ", ["raw_logs"])])
            end
        end
    end.
Proof. intros H. unfold main. rewrite H. reflexivity. Qed.

(** X21. When scoring returns, a run writes, in this order, the four raw
    logs, the BitLocker text (the output of [manage-bde], and only when
    BitLocker is available), [report.json] and [report.html]; then the PDF.
    If [render_pdf] raises, those files are written all the same and nothing
    is printed; otherwise [report.pdf] follows and the four lines are
    printed. *)
Theorem main_writes (h : host) (score : Z) (findings : list pyval) :
  score_findings (get_defender_status json_loads (defender_run h))
                 (get_firewall_profiles json_loads (firewall_run h))
                 (get_recent_updates json_loads (updates_run h))
  = Ok (score, findings) ->
  let bitlocker := get_bitlocker_status (bde_which h) (bde_status h) in
  let report := report_of json_loads h score findings in
  let before_pdf :=
    ([["raw_logs"; "defender.json"]; ["raw_logs"; "firewall.json"];
      ["raw_logs"; "updates.json"]; ["raw_logs"; "local_users.json"]]
       ++ (if truthy (dict_get bitlocker "available" PNone)
           then [["raw_logs"; "bitlocker_status.txt"]] else [])
       ++ [["report.json"]; ["report.html"]])%list in
  (truthy (dict_get bitlocker "available" PNone) = true ->
   In (["raw_logs"; "bitlocker_status.txt"], snd (bde_status h))
      (fst (main json_loads json_dumps render_pdf h)))
  /\ In (["report.json"], json_dumps (PDict report))
        (fst (main json_loads json_dumps render_pdf h))
  /\ (render_pdf report = None ->
      map fst (fst (main json_loads json_dumps render_pdf h)) = before_pdf
      /\ snd (main json_loads json_dumps render_pdf h) = PdfRaised)
  /\ (forall pdf,
         render_pdf report = Some pdf ->
         map fst (fst (main json_loads json_dumps render_pdf h))
         = (before_pdf ++ [["report.pdf"]])%list
         /\ exists lines,
              snd (main json_loads json_dumps render_pdf h) = Printed lines
              /\ List.length lines = 4%nat).
Proof.
  intros H bitlocker report before_pdf.
  destruct (html_of_run_exists h score findings H) as (html & Hhtml).
  subst before_pdf. rewrite (main_scored h score findings H).
  fold bitlocker. fold report. fold report in Hhtml.
  destruct (truthy (dict_get bitlocker "available" PNone)) eqn:Hb.
  - unfold bitlocker. rewrite (bitlocker_raw_text _ _ Hb). cbn [bind].
    rewrite Hhtml.
    destruct (render_pdf report) as [pdf |] eqn:Hpdf; cbn [fst snd].
    + refine (conj _ (conj _ (conj _ _))).
      * intros _. rewrite !in_app_iff. simpl. tauto.
      * rewrite !in_app_iff. simpl. tauto.
      * discriminate.
      * intros pdf' _. split; [rewrite !map_app; reflexivity |].
        eexists. split; reflexivity.
    + refine (conj _ (conj _ (conj _ _))).
      * intros _. rewrite !in_app_iff. simpl. tauto.
      * rewrite !in_app_iff. simpl. tauto.
      * intros _. split; [rewrite !map_app; reflexivity | reflexivity].
      * discriminate.
  - rewrite Hhtml.
    destruct (render_pdf report) as [pdf |] eqn:Hpdf; cbn [fst snd].
    + refine (conj _ (conj _ (conj _ _))).
      * discriminate.
      * rewrite !in_app_iff. simpl. tauto.
      * discriminate.
      * intros pdf' _. split; [rewrite !map_app; reflexivity |].
        eexists. split; reflexivity.
    + refine (conj _ (conj _ (conj _ _))).
      * discriminate.
      * rewrite !in_app_iff. simpl. tauto.
      * intros _. split; [rewrite !map_app; reflexivity | reflexivity].
      * discriminate.
Qed.

End WholeRun.

Lemma html_of_a_run_witness :
  exists html,
    render_html (report_of sample_loads sample_host 85 sample_findings) = Ok html
    /\ ~ substring "<script>" html
    /\ substring (str_of_int 85 ++ "/100</div>") html
    /\ substring (score_label 85 ++ "</div>") html.
Proof.
  apply (html_of_a_run sample_loads sample_host 85 sample_findings eq_refl).
Defined.

Lemma odd_defender_output_stops_main_witness :
  main array_loads sample_dumps no_pdf sample_host = ([], Raised AttributeError).
Proof.
  apply (odd_defender_output_stops_main array_loads sample_dumps no_pdf
           sample_host (PList [PDict []]));
    reflexivity || discriminate.
Defined.

Lemma main_writes_witness :
  map fst (fst (main sample_loads sample_dumps no_pdf sample_host))
  = [["raw_logs"; "defender.json"]; ["raw_logs"; "firewall.json"];
     ["raw_logs"; "updates.json"]; ["raw_logs"; "local_users.json"];
     ["raw_logs"; "bitlocker_status.txt"]; ["report.json"]; ["report.html"]]
  /\ snd (main sample_loads sample_dumps no_pdf sample_host) = PdfRaised.
Proof.
  destruct (main_writes sample_loads sample_dumps no_pdf sample_host 85
              sample_findings eq_refl) as (_ & _ & H & _).
  apply H. reflexivity.
Defined.

(* ================================================================= *)
(** ** The PDF: the Defender table *)

Section PdfDefender.

Variable json_loads : string -> option pyval.

(** X22. The Defender part of the PDF is the table of the four fields
    exactly when the section is available and its payload is a dict: the
    header, then the fields in a fixed order with the text of their values, a
    field that is absent or [null] shown as empty text. In every other case
    it is the paragraph "Unavailable: " followed by the error. Defender
    output that did not parse therefore shows four empty values and not its
    parse error; a failed query shows "Unavailable: " and the reason. *)
Theorem pdf_defender_section_cases (defender : pydict) (p : proc_outcome) :
  (forall payload,
      truthy (dict_get defender "available" PNone) = true ->
      dict_get defender "data" (PDict []) = PDict payload ->
      pdf_defender_section defender
      = Table [["Field"; "Value"];
               ["AMServiceEnabled";
                safe_str (dict_get payload "AMServiceEnabled" PNone)];
               ["AntispywareEnabled";
                safe_str (dict_get payload "AntispywareEnabled" PNone)];
               ["AntivirusEnabled";
                safe_str (dict_get payload "AntivirusEnabled" PNone)];
               ["RealTimeProtectionEnabled";
                safe_str (dict_get payload "RealTimeProtectionEnabled" PNone)]])
  /\ (truthy (dict_get defender "available" PNone) = false
      \/ (forall payload, dict_get defender "data" (PDict []) <> PDict payload) ->
      pdf_defender_section defender
      = Paragraph ("Unavailable: "
                     ++ safe_str (dict_get defender "error" (PStr ""))))
  /\ (forall rows, pdf_defender_section defender = Table rows ->
                   truthy (dict_get defender "available" PNone) = true
                   /\ exists payload,
                        dict_get defender "data" (PDict []) = PDict payload)
  /\ (forall payload k,
         dict_lookup payload k = None \/ dict_lookup payload k = Some PNone ->
         safe_str (dict_get payload k PNone) = "")
  /\ (forall payload k s,
         dict_lookup payload k = Some (PStr s) ->
         safe_str (dict_get payload k PNone) = s)
  /\ (forall payload k b,
         dict_lookup payload k = Some (PBool b) ->
         safe_str (dict_get payload k PNone) = if b then "True" else "False")
  /\ (code_of p = 0 -> out_of p <> "" -> json_loads (out_of p) = None ->
      pdf_defender_section (get_defender_status json_loads p)
      = Table [["Field"; "Value"]; ["AMServiceEnabled"; ""];
               ["AntispywareEnabled"; ""]; ["AntivirusEnabled"; ""];
               ["RealTimeProtectionEnabled"; ""]])
  /\ (code_of p <> 0 \/ out_of p = "" ->
      pdf_defender_section (get_defender_status json_loads p)
      = Paragraph ("Unavailable: "
                     ++ str_or (err_of p) "Defender status unavailable.")).
Proof.
  refine (conj _ (conj _ (conj _ (conj _ (conj _ (conj _ (conj _ _))))))).
  - intros payload Ha Hd. unfold pdf_defender_section.
    rewrite Ha, Hd. reflexivity.
  - unfold pdf_defender_section. intros [Ha | Hd].
    + rewrite Ha. reflexivity.
    + destruct (dict_get defender "data" (PDict [])) as [| | | | | payload];
        cbn [isinstance_dict]; rewrite ?andb_false_r; try reflexivity.
      exfalso. apply (Hd payload). reflexivity.
  - intros rows. unfold pdf_defender_section.
    destruct (truthy (dict_get defender "available" PNone)); cbn [andb];
      [| discriminate].
    destruct (dict_get defender "data" (PDict [])) as [| | | | | payload];
      cbn [isinstance_dict]; try discriminate.
    intros _. split; [reflexivity |]. exists payload. reflexivity.
  - intros payload k [H | H]; unfold dict_get; rewrite H; reflexivity.
  - intros payload k s H. unfold dict_get. rewrite H. reflexivity.
  - intros payload k b H. unfold dict_get. rewrite H. destruct b; reflexivity.
  - intros Hc Ho Hp. unfold get_defender_status.
    rewrite (run_powershell_parts p), (passed_test _ _ Hc Ho), Hp. reflexivity.
  - intros H. unfold get_defender_status.
    rewrite (run_powershell_parts p), (failed_test _ _ H). reflexivity.
Qed.

End PdfDefender.

Lemma pdf_defender_section_cases_witness :
  pdf_defender_section (available_defender null_flag_payload)
  = Table [["Field"; "Value"]; ["AMServiceEnabled"; "True"];
           ["AntispywareEnabled"; "True"]; ["AntivirusEnabled"; "True"];
           ["RealTimeProtectionEnabled"; ""]]
  /\ pdf_defender_section
       (get_defender_status sample_loads (Exited 0 "oops" ""))
     = Table [["Field"; "Value"]; ["AMServiceEnabled"; ""];
              ["AntispywareEnabled"; ""]; ["AntivirusEnabled"; ""];
              ["RealTimeProtectionEnabled"; ""]]
  /\ pdf_defender_section
       (get_defender_status sample_loads (Exited 1 "" "denied"))
     = Paragraph "Unavailable: denied".
Proof.
  split; [| split].
  - destruct (pdf_defender_section_cases sample_loads
                (available_defender null_flag_payload)
                (Exited 0 "oops" "")) as (H & _).
    apply (H null_flag_payload); reflexivity.
  - destruct (pdf_defender_section_cases sample_loads
                (available_defender null_flag_payload)
                (Exited 0 "oops" "")) as (_ & _ & _ & _ & _ & _ & H & _).
    apply H; reflexivity || discriminate.
  - destruct (pdf_defender_section_cases sample_loads
                (available_defender null_flag_payload)
                (Exited 1 "" "denied")) as (_ & _ & _ & _ & _ & _ & _ & H).
    apply H. left. discriminate.
Defined.
